(** * Chain parameters of rod-core-wallet

    Two source files are covered: chainparams.cpp, and the file that
    implements kernel/chainparams.h (called kernel/chainparams.cpp below).

    A shallow embedding of the two pieces of logic of the chain-parameter
    files: the genesis-block construction (CreateGenesisBlock, MineGenesisBlock,
    the per-network constructors and GetNetworkForMagic) and the combined
    target spacing of the two mining algorithms (AvgTargetSpacing).  It is
    followed by the parts of the constructors that read options and
    arguments (the regtest options of kernel/chainparams.cpp,
    UpdateActivationParametersFromArgs and the signet challenge of
    chainparams.cpp) and by CreateChainParams, SelectParams and Params.

    C++ integers are modelled as [Z] with their ranges written out; a call
    either returns, aborts on a failed [assert], or runs into undefined
    behaviour (signed overflow, division by zero). *)

From Stdlib Require Import Strings.String Strings.Ascii Strings.Byte.
From Stdlib Require Import QArith.
From Stdlib Require Import ZArith List Bool Lia Permutation.
From Equations Require Import Equations.
Import ListNotations.
Local Open Scope Z_scope.

(** ** Outcomes of a call *)

Inductive outcome (A : Type) : Type :=
| Returned (a : A)
| AssertFailed
| UndefinedBehaviour.
Arguments Returned {A} a.
Arguments AssertFailed {A}.
Arguments UndefinedBehaviour {A}.

Definition bind {A B : Type} (m : outcome A) (k : A -> outcome B) : outcome B :=
  match m with
  | Returned a => k a
  | AssertFailed => AssertFailed
  | UndefinedBehaviour => UndefinedBehaviour
  end.

Notation "x <- m ;; k" := (bind m (fun x => k))
  (at level 61, m at next level, right associativity).

(** [assert (cond)] of <cassert>; assertions are compiled in. *)
Definition assert (cond : bool) : outcome unit :=
  if cond then Returned tt else AssertFailed.

(** ** int64_t arithmetic *)

Module Int64.

Definition MAX : Z := 9223372036854775807.
Definition MIN : Z := -9223372036854775808.

Definition in_range (z : Z) : bool := (MIN <=? z) && (z <=? MAX).

(** A result outside the range of int64_t is undefined behaviour. *)
Definition checked (z : Z) : outcome Z :=
  if in_range z then Returned z else UndefinedBehaviour.

Definition add (a b : Z) : outcome Z := checked (a + b).
Definition mul (a b : Z) : outcome Z := checked (a * b).

(** [a % b] and [a / b] truncate towards zero. *)
Definition rem (a b : Z) : outcome Z :=
  if b =? 0 then UndefinedBehaviour else checked (Z.rem a b).
Definition div (a b : Z) : outcome Z :=
  if b =? 0 then UndefinedBehaviour else checked (Z.quot a b).

End Int64.

(** ** AvgTargetSpacing (chainparams.cpp) *)

(** The two mining algorithms the loop of AvgTargetSpacing iterates over. *)
Inductive PowAlgo : Type := SHA256D | NEOSCRYPT.

(** Consensus::ConsensusRules is an abstract class (consensus/params.h, not
    part of these files); only its virtual GetTargetSpacing (algo, height) is
    used here. *)
Record ConsensusRules : Type := {
  GetTargetSpacing : PowAlgo -> Z -> Z
}.

(** The part of Consensus::Params that AvgTargetSpacing reads. *)
Record Params : Type := {
  rules : ConsensusRules
}.

(** One pass of the loop body on the running (numer, denom):
      denom *= spacing;  denom += numer;  numer *= spacing;           *)
Definition spacing_step (st : Z * Z) (spacing : Z) : outcome (Z * Z) :=
  let '(numer, denom) := st in
  denom <- Int64.mul denom spacing ;;
  denom <- Int64.add denom numer ;;
  numer <- Int64.mul numer spacing ;;
  Returned (numer, denom).

(** The range-for loop: [spacing_of] is the call that yields the spacing of
    the current element. *)
Fixpoint accumulate {A : Type} (spacing_of : A -> Z) (items : list A)
    (st : Z * Z) : outcome (Z * Z) :=
  match items with
  | [] => Returned st
  | item :: rest =>
      st' <- spacing_step st (spacing_of item) ;;
      accumulate spacing_of rest st'
  end.

(** What follows the loop:
      assert (denom > 0);  assert (numer % denom == 0);  return numer / denom; *)
Definition finish (st : Z * Z) : outcome Z :=
  let '(numer, denom) := st in
  _ <- assert (denom >? 0) ;;
  r <- Int64.rem numer denom ;;
  _ <- assert (r =? 0) ;;
  Int64.div numer denom.

Definition AvgTargetSpacing (params : Params) (height : Z) : outcome Z :=
  st <- accumulate (fun algo => GetTargetSpacing (rules params) algo height)
          [SHA256D; NEOSCRYPT] (1, 0) ;;
  finish st.

(** The same accumulation run over an explicit list of spacings: the
    computation of AvgTargetSpacing with the algorithm list and the rules
    abstracted into the list of their spacings. *)
Definition AverageSpacing (spacings : list Z) : outcome Z :=
  st <- accumulate (fun s => s) spacings (1, 0) ;;
  finish st.

(** *** The closed form the accumulation is meant to compute *)

(** numerator: the product of all spacings. *)
Definition product (l : list Z) : Z := fold_right Z.mul 1 l.

(** The list without its i-th element. *)
Definition without (i : nat) (l : list Z) : list Z :=
  firstn i l ++ skipn (S i) l.

(** denominator: the sum, over each algorithm, of the product of all other
    algorithms' spacings. *)
Definition exclude_sum (l : list Z) : Z :=
  fold_right Z.add 0 (map (fun i => product (without i l)) (seq 0 (length l))).

(** The rate of the combined process, the sum of 1/s_i, as a rational. *)
Definition rate_sum (l : list Z) : Q :=
  fold_right Qplus 0%Q (map (fun s => Qinv (inject_Z s)) l).

(** Rules under which the two algorithms have the spacings [a] (SHA256D)
    and [b] (NEOSCRYPT) at every height. *)
Definition fixed_spacings (a b : Z) : Params :=
  {| rules := {| GetTargetSpacing := fun algo _ =>
                   match algo with SHA256D => a | NEOSCRYPT => b end |} |}.

(** ** Bytes, blobs and scripts *)

(** unsigned char. *)
Definition byte_of_Z (z : Z) : byte :=
  match Byte.of_N (Z.to_N (z mod 256)) with
  | Some b => b
  | None => x00
  end.

Definition Z_of_byte (b : byte) : Z := Z.of_N (Byte.to_N b).

(** The [n] bytes of an integer in memory order (little endian), and the
    integer a byte sequence in memory order stands for. *)
Fixpoint le_bytes (n : nat) (z : Z) : list byte :=
  match n with
  | O => []
  | S n' => byte_of_Z z :: le_bytes n' (z / 256)
  end.

Fixpoint le_value (bs : list byte) : Z :=
  match bs with
  | [] => 0
  | b :: rest => Z_of_byte b + 256 * le_value rest
  end.

Definition be_bytes (n : nat) (z : Z) : list byte := rev (le_bytes n z).
Definition be_value (bs : list byte) : Z := le_value (rev bs).

(** uint256 and uint160 (uint256.h, outside these files) are blobs of bytes;
    they are modelled by the number whose little-endian bytes are the blob's
    memory.  GetHex () and the literals uint256{"..."}, uint256S ("...") and
    uint160S ("...") read that number in hexadecimal, most significant digit
    first. *)
Definition uint256 : Type := Z.
Definition uint160 : Type := Z.

Definition uint256_bytes (h : uint256) : list byte := le_bytes 32 h.
Definition uint160_bytes (h : uint160) : list byte := le_bytes 20 h.

Definition hex_digit (c : ascii) : option Z :=
  let n := Z.of_N (N_of_ascii c) in
  if (48 <=? n) && (n <=? 57) then Some (n - 48)
  else if (97 <=? n) && (n <=? 102) then Some (n - 87)
  else if (65 <=? n) && (n <=? 70) then Some (n - 55)
  else None.

(** Modelled from the spec: util/strencodings is outside these files; the
    spec only speaks of literal constants.  IsSpace holds of blank, form
    feed, newline, carriage return and the tabs. *)
Definition IsSpace (c : ascii) : bool :=
  let n := Z.of_N (N_of_ascii c) in
  (n =? 32) || ((9 <=? n) && (n <=? 13)).

(** Modelled from the spec: ParseHex (util/strencodings, outside these
    files) reads pairs of hex digits, skips white space between the pairs
    and stops at the first character that is neither. *)
Fixpoint ParseHex (s : string) : list byte :=
  match s with
  | EmptyString => []
  | String c rest =>
      match hex_digit c with
      | Some hi =>
          match rest with
          | String c' rest' =>
              match hex_digit c' with
              | Some lo => byte_of_Z (16 * hi + lo) :: ParseHex rest'
              | None => []
              end
          | EmptyString => []
          end
      | None => if IsSpace c then ParseHex rest else []
      end
  end.

(** Modelled from the spec: the blob a hexadecimal literal stands for
    (uint256.h, outside these files); the spec calls the literals of the
    premine hash its display order. *)
Definition uint256S (hex : string) : uint256 := be_value (ParseHex hex).
Definition uint160S (hex : string) : uint160 := be_value (ParseHex hex).

(** Modelled from the spec: script/script.h is outside these files; the
    spec's script encoder builds scripts from byte sequences and opcode
    sequences.  CScript is a vector of bytes; [operator<<] appends an opcode
    or a data push (a length byte below OP_PUSHDATA1, else the OP_PUSHDATA
    opcode with a 1-, 2- or 4-byte little-endian length). *)
Definition CScript : Type := list byte.

Definition OP_PUSHDATA1 : byte := x4c.
Definition OP_PUSHDATA2 : byte := x4d.
Definition OP_PUSHDATA4 : byte := x4e.
Definition OP_EQUAL : byte := x87.
Definition OP_HASH160 : byte := xa9.

Definition push_opcode (script : CScript) (opcode : byte) : CScript :=
  script ++ [opcode].

Definition push_data (script : CScript) (b : list byte) : CScript :=
  let size := Z.of_nat (length b) in
  if size <? Z_of_byte OP_PUSHDATA1 then script ++ [byte_of_Z size] ++ b
  else if size <=? 255 then script ++ [OP_PUSHDATA1; byte_of_Z size] ++ b
  else if size <=? 65535 then script ++ [OP_PUSHDATA2] ++ le_bytes 2 size ++ b
  else script ++ [OP_PUSHDATA4] ++ le_bytes 4 size ++ b.

(** ** Transactions and blocks (primitives/transaction.h, primitives/block.h,
       primitives/pureheader.h, powdata.h) *)

Record COutPoint : Type := {
  outpoint_hash : uint256;
  outpoint_n : Z
}.

Record CTxIn : Type := {
  prevout : COutPoint;
  scriptSig : CScript;
  nSequence : Z
}.

Record CTxOut : Type := {
  nValue : Z;
  scriptPubKey : CScript
}.

Record CMutableTransaction : Type := {
  version : Z;
  vin : list CTxIn;
  vout : list CTxOut;
  nLockTime : Z
}.

(** MakeTransactionRef freezes the mutable transaction; the frozen one has
    the same fields. *)
Definition CTransaction : Type := CMutableTransaction.
Definition MakeTransactionRef (tx : CMutableTransaction) : CTransaction := tx.

(** Modelled from the spec: what [resize (1)] puts into vin and vout
    (primitives/transaction.h, outside these files): an input whose previous
    output does not exist, with the final sequence number, and a null
    output. *)
Definition CTxIn_default : CTxIn :=
  {| prevout := {| outpoint_hash := 0; outpoint_n := 4294967295 |};
     scriptSig := [];
     nSequence := 4294967295 |}.

Definition CTxOut_default : CTxOut :=
  {| nValue := -1; scriptPubKey := [] |}.

(** The six fields the block hash covers. *)
Record CPureBlockHeader : Type := {
  nVersion : Z;
  hashPrevBlock : uint256;
  hashMerkleRoot : uint256;
  nTime : Z;
  nBits : Z;
  nNonce : Z
}.

(** A header after SetNull (): what [new CPureBlockHeader ()] and a fresh
    block hold. *)
Definition CPureBlockHeader_null : CPureBlockHeader :=
  {| nVersion := 0; hashPrevBlock := 0; hashMerkleRoot := 0;
     nTime := 0; nBits := 0; nNonce := 0 |}.

(** The proof-of-work data attached to a block header (powdata.h, outside
    these files), by what CreateGenesisBlock sets: the core algorithm, the
    difficulty bits and the fake header that carries the nonce. *)
Record PowData : Type := {
  pow_algo : option PowAlgo;
  pow_bits : Z;
  pow_fakeHeader : option CPureBlockHeader
}.

Definition PowData_default : PowData :=
  {| pow_algo := None; pow_bits := 0; pow_fakeHeader := None |}.

Definition setCoreAlgo (pow : PowData) (algo : PowAlgo) : PowData :=
  {| pow_algo := Some algo; pow_bits := pow_bits pow;
     pow_fakeHeader := pow_fakeHeader pow |}.

Definition setBits (pow : PowData) (bits : Z) : PowData :=
  {| pow_algo := pow_algo pow; pow_bits := bits;
     pow_fakeHeader := pow_fakeHeader pow |}.

Definition setFakeHeader (pow : PowData) (hdr : CPureBlockHeader) : PowData :=
  {| pow_algo := pow_algo pow; pow_bits := pow_bits pow;
     pow_fakeHeader := Some hdr |}.

(** CBlock: the pure header it inherits, the pow data and the transactions. *)
Record CBlock : Type := {
  header : CPureBlockHeader;
  pow : PowData;
  vtx : list CTransaction
}.

Definition CBlock_default : CBlock :=
  {| header := CPureBlockHeader_null; pow := PowData_default; vtx := [] |}.

(** Assignments to one field of a header. *)
Definition set_nVersion (v : Z) (h : CPureBlockHeader) : CPureBlockHeader :=
  {| nVersion := v; hashPrevBlock := hashPrevBlock h;
     hashMerkleRoot := hashMerkleRoot h; nTime := nTime h; nBits := nBits h;
     nNonce := nNonce h |}.

Definition set_hashPrevBlock (v : uint256) (h : CPureBlockHeader)
    : CPureBlockHeader :=
  {| nVersion := nVersion h; hashPrevBlock := v;
     hashMerkleRoot := hashMerkleRoot h; nTime := nTime h; nBits := nBits h;
     nNonce := nNonce h |}.

Definition set_hashMerkleRoot (v : uint256) (h : CPureBlockHeader)
    : CPureBlockHeader :=
  {| nVersion := nVersion h; hashPrevBlock := hashPrevBlock h;
     hashMerkleRoot := v; nTime := nTime h; nBits := nBits h;
     nNonce := nNonce h |}.

Definition set_nTime (v : Z) (h : CPureBlockHeader) : CPureBlockHeader :=
  {| nVersion := nVersion h; hashPrevBlock := hashPrevBlock h;
     hashMerkleRoot := hashMerkleRoot h; nTime := v; nBits := nBits h;
     nNonce := nNonce h |}.

Definition set_nBits (v : Z) (h : CPureBlockHeader) : CPureBlockHeader :=
  {| nVersion := nVersion h; hashPrevBlock := hashPrevBlock h;
     hashMerkleRoot := hashMerkleRoot h; nTime := nTime h; nBits := v;
     nNonce := nNonce h |}.

Definition set_nNonce (v : Z) (h : CPureBlockHeader) : CPureBlockHeader :=
  {| nVersion := nVersion h; hashPrevBlock := hashPrevBlock h;
     hashMerkleRoot := hashMerkleRoot h; nTime := nTime h; nBits := nBits h;
     nNonce := v |}.

(** Assignments through a block: to its inherited header fields, to its pow
    data, and [vtx.push_back]. *)
Definition on_header (f : CPureBlockHeader -> CPureBlockHeader) (b : CBlock)
    : CBlock :=
  {| header := f (header b); pow := pow b; vtx := vtx b |}.

Definition on_pow (f : PowData -> PowData) (b : CBlock) : CBlock :=
  {| header := header b; pow := f (pow b); vtx := vtx b |}.

Definition vtx_push_back (tx : CTransaction) (b : CBlock) : CBlock :=
  {| header := header b; pow := pow b; vtx := vtx b ++ [tx] |}.

(** ** The hash functions the construction calls

    Their code (hash.h, primitives/, consensus/merkle.cpp) is not part of
    these files; the construction is stated over any choice of them, and for
    double SHA-256 over the wire format further below. *)
Class Collaborators : Type := {
  (** CTransaction::GetHash () *)
  TxGetHash : CTransaction -> uint256;
  (** CPureBlockHeader::GetHash (), which CBlock inherits *)
  HeaderGetHash : CPureBlockHeader -> uint256;
  (** the hash of an inner node of the merkle tree from its two children *)
  MerkleInner : uint256 -> uint256 -> uint256;
  (** HashWriter{} << v; GetHash (): the hash of a serialized byte vector *)
  WriterGetHash : list byte -> uint256
}.

Definition GetHash `{Collaborators} (block : CBlock) : uint256 :=
  HeaderGetHash (header block).

(** ** The merkle root *)

(** Modelled from the spec: consensus/merkle.cpp (ComputeMerkleRoot and
    BlockMerkleRoot) is not part of these files.  The spec calls it the
    deterministic hash of an ordered sequence of transactions, with the
    merkle root of a one-leaf tree equal to the leaf's hash and no further
    hashing.  One level of the tree pairs neighbouring hashes, the last one
    with itself when the level has odd length. *)
Fixpoint merkle_level `{Collaborators} (hashes : list uint256) : list uint256 :=
  match hashes with
  | a :: b :: rest => MerkleInner a b :: merkle_level rest
  | [a] => [MerkleInner a a]
  | [] => []
  end.

Lemma merkle_level_length `{Collaborators} (hashes : list uint256) :
  (2 * length (merkle_level hashes) <= S (length hashes))%nat.
Proof.
  enough (G : forall n l, (length l <= n)%nat ->
                (2 * length (merkle_level l) <= S (length l))%nat)
    by (apply (G (length hashes)); lia).
  induction n as [|n IH]; intros [|a [|b rest]] Hle;
    cbn [merkle_level length] in *; try lia.
  specialize (IH rest ltac:(lia)). lia.
Qed.

(** Modelled from the spec: ComputeMerkleRoot, levels hashed until a single
    hash is left; an empty list has the null root and a single leaf is its
    own root. *)
Equations? ComputeMerkleRoot `{Collaborators} (hashes : list uint256) : uint256
  by wf (length hashes) lt :=
  ComputeMerkleRoot [] := 0;
  ComputeMerkleRoot [leaf] := leaf;
  ComputeMerkleRoot (a :: b :: rest) :=
    ComputeMerkleRoot (merkle_level (a :: b :: rest)).
Proof.
  pose proof (merkle_level_length rest). cbn [length merkle_level]. lia.
Qed.

(** Modelled from the spec: BlockMerkleRoot, the root over the hashes of the
    block's transactions in order. *)
Definition BlockMerkleRoot `{Collaborators} (block : CBlock) : uint256 :=
  ComputeMerkleRoot (map TxGetHash (vtx block)).

(** ** CreateGenesisBlock *)

(** consensus/amount.h, outside these files: the base units of one coin. *)
Definition COIN : Z := 100000000.

Definition premineAmount : Z := 222222222 * COIN.

(** CreateGenesisBlock (genesisInputScript, genesisOutputScript, nTime,
    nNonce, nBits, nVersion, genesisReward) *)
Definition CreateGenesisBlock_scripts `{Collaborators}
    (genesisInputScript genesisOutputScript : CScript)
    (nTime nNonce nBits nVersion : Z) (genesisReward : Z) : CBlock :=
  let txNew : CMutableTransaction :=
    {| version := 1;
       vin := [ {| prevout := prevout CTxIn_default;
                   scriptSig := genesisInputScript;
                   nSequence := nSequence CTxIn_default |} ];
       vout := [ {| nValue := genesisReward;
                    scriptPubKey := genesisOutputScript |} ];
       nLockTime := 0 |} in
  let genesis := CBlock_default in
  let genesis := on_header (set_nTime nTime) genesis in
  let genesis := on_header (set_nBits 0) genesis in
  let genesis := on_header (set_nNonce 0) genesis in
  let genesis := on_header (set_nVersion nVersion) genesis in
  let genesis := vtx_push_back (MakeTransactionRef txNew) genesis in
  let genesis := on_header (set_hashPrevBlock 0) genesis in
  let genesis :=
    on_header (set_hashMerkleRoot (BlockMerkleRoot genesis)) genesis in
  let fakeHeader := CPureBlockHeader_null in
  let fakeHeader := set_nNonce nNonce fakeHeader in
  let fakeHeader := set_hashMerkleRoot (GetHash genesis) fakeHeader in
  let genesis := on_pow (fun pow => setCoreAlgo pow NEOSCRYPT) genesis in
  let genesis := on_pow (fun pow => setBits pow nBits) genesis in
  let genesis := on_pow (fun pow => setFakeHeader pow fakeHeader) genesis in
  genesis.

(** CreateGenesisBlock (nTime, nNonce, nBits, timestamp, premineP2sh) *)
Definition CreateGenesisBlock `{Collaborators}
    (nTime nNonce nBits : Z) (timestamp : string) (premineP2sh : uint160)
    : CBlock :=
  let timestampData := list_byte_of_string timestamp in
  let genesisInput := push_data [] timestampData in
  let scriptHash := rev (uint160_bytes premineP2sh) in
  let genesisOutput :=
    push_opcode (push_data (push_opcode [] OP_HASH160) scriptHash) OP_EQUAL in
  let nVersion := 1 in
  CreateGenesisBlock_scripts genesisInput genesisOutput nTime nNonce nBits
    nVersion premineAmount.

(** ** Double SHA-256 over the wire format

    Modelled from the spec: the spec names the transaction encoder, the
    merkle-root function and the block/header hash function (the
    deterministic hash of a serialized header) as external collaborators;
    their code (crypto/sha256.cpp, hash.h, serialize.h, primitives/) is not
    part of these files.  This section spells them out as the code base
    defines them: SHA-256 (FIPS 180-4) applied twice to the serialization
    of the object. *)

Module SHA256.

Definition word (z : Z) : Z := z mod 4294967296.
Definition add32 (a b : Z) : Z := word (a + b).

Definition rotr (n x : Z) : Z :=
  Z.lor (Z.shiftr x n) (word (Z.shiftl x (32 - n))).
Definition shr (n x : Z) : Z := Z.shiftr x n.

Definition Ch (x y z : Z) : Z :=
  Z.lxor (Z.land x y) (Z.land (Z.lxor x 4294967295) z).
Definition Maj (x y z : Z) : Z :=
  Z.lxor (Z.lxor (Z.land x y) (Z.land x z)) (Z.land y z).
Definition Sigma0 (x : Z) : Z :=
  Z.lxor (Z.lxor (rotr 2 x) (rotr 13 x)) (rotr 22 x).
Definition Sigma1 (x : Z) : Z :=
  Z.lxor (Z.lxor (rotr 6 x) (rotr 11 x)) (rotr 25 x).
Definition sigma0 (x : Z) : Z :=
  Z.lxor (Z.lxor (rotr 7 x) (rotr 18 x)) (shr 3 x).
Definition sigma1 (x : Z) : Z :=
  Z.lxor (Z.lxor (rotr 17 x) (rotr 19 x)) (shr 10 x).

(** Consecutive groups of [n] elements; a shorter last group is kept. *)
Fixpoint groups {A : Type} (fuel n : nat) (l : list A) : list (list A) :=
  match fuel, l with
  | _, [] => []
  | O, _ => []
  | S fuel', _ => firstn n l :: groups fuel' n (skipn n l)
  end.

(** Big-endian 32-bit words of a byte sequence. *)
Definition words_of_bytes (bs : list byte) : list Z :=
  map be_value (groups (length bs) 4 bs).

Definition words_of_hex (hex : string) : list Z :=
  words_of_bytes (ParseHex hex).

(** The round constants and the initial hash value. *)
Definition K : list Z := words_of_hex
  "428a2f98 71374491 b5c0fbcf e9b5dba5 3956c25b 59f111f1 923f82a4 ab1c5ed5
   d807aa98 12835b01 243185be 550c7dc3 72be5d74 80deb1fe 9bdc06a7 c19bf174
   e49b69c1 efbe4786 0fc19dc6 240ca1cc 2de92c6f 4a7484aa 5cb0a9dc 76f988da
   983e5152 a831c66d b00327c8 bf597fc7 c6e00bf3 d5a79147 06ca6351 14292967
   27b70a85 2e1b2138 4d2c6dfc 53380d13 650a7354 766a0abb 81c2c92e 92722c85
   a2bfe8a1 a81a664b c24b8b70 c76c51a3 d192e819 d6990624 f40e3585 106aa070
   19a4c116 1e376c08 2748774c 34b0bcb5 391c0cb3 4ed8aa4a 5b9cca4f 682e6ff3
   748f82ee 78a5636f 84c87814 8cc70208 90befffa a4506ceb bef9a3f7 c67178f2".

Definition H0 : list Z := words_of_hex
  "6a09e667 bb67ae85 3c6ef372 a54ff53a 510e527f 9b05688c 1f83d9ab 5be0cd19".

(** The message with the bit 1, zero bytes up to 56 modulo 64, and the bit
    length as a 64-bit big-endian number appended. *)
Definition pad (msg : list byte) : list byte :=
  let len := Z.of_nat (length msg) in
  msg ++ [x80] ++ repeat x00 (Z.to_nat ((55 - len) mod 64))
      ++ be_bytes 8 (8 * len).

(** The message schedule, most recent word first: [n] more words are put in
    front of W[t-1], W[t-2], ... *)
Fixpoint schedule (n : nat) (w : list Z) : list Z :=
  match n with
  | O => w
  | S n' =>
      let wt := add32 (add32 (sigma1 (nth 1 w 0)) (nth 6 w 0))
                      (add32 (sigma0 (nth 14 w 0)) (nth 15 w 0)) in
      schedule n' (wt :: w)
  end.

Record state : Type := {
  a : Z; b : Z; c : Z; d : Z; e : Z; f : Z; g : Z; h : Z
}.

Definition round (s : state) (kw : Z * Z) : state :=
  let T1 := add32 (add32 (add32 (h s) (Sigma1 (e s)))
                         (add32 (Ch (e s) (f s) (g s)) (fst kw))) (snd kw) in
  let T2 := add32 (Sigma0 (a s)) (Maj (a s) (b s) (c s)) in
  {| a := add32 T1 T2; b := a s; c := b s; d := c s;
     e := add32 (d s) T1; f := e s; g := f s; h := g s |}.

Definition state_of_words (ws : list Z) : state :=
  {| a := nth 0 ws 0; b := nth 1 ws 0; c := nth 2 ws 0; d := nth 3 ws 0;
     e := nth 4 ws 0; f := nth 5 ws 0; g := nth 6 ws 0; h := nth 7 ws 0 |}.

Definition words_of_state (s : state) : list Z :=
  [a s; b s; c s; d s; e s; f s; g s; h s].

(** One 64-byte block folded into the hash value. *)
Definition compress (hash : list Z) (block : list byte) : list Z :=
  let w := rev (schedule 48 (rev (words_of_bytes block))) in
  let s := fold_left round (combine K w) (state_of_words hash) in
  map (fun p => add32 (fst p) (snd p)) (combine hash (words_of_state s)).

(** Modelled from the spec: SHA-256 of a byte sequence. *)
Definition sha256 (msg : list byte) : list byte :=
  let padded := pad msg in
  let hash := fold_left compress (groups (length padded) 64 padded) H0 in
  flat_map (be_bytes 4) hash.

End SHA256.

(** Modelled from the spec: the hash function of the code base (hash.h,
    outside these files), SHA-256 of the SHA-256, read as a uint256. *)
Definition Hash256 (bs : list byte) : uint256 :=
  le_value (SHA256.sha256 (SHA256.sha256 bs)).

(** Modelled from the spec: serialize.h is outside these files.
    WriteCompactSize: *)
Definition CompactSize (n : Z) : list byte :=
  if n <? 253 then [byte_of_Z n]
  else if n <=? 65535 then xfd :: le_bytes 2 n
  else if n <=? 4294967295 then xfe :: le_bytes 4 n
  else xff :: le_bytes 8 n.

(** Modelled from the spec: a vector is its size and its elements. *)
Definition serialize_vector {A : Type} (ser : A -> list byte) (v : list A)
    : list byte :=
  CompactSize (Z.of_nat (length v)) ++ flat_map ser v.

Definition serialize_script (script : CScript) : list byte :=
  serialize_vector (fun b => [b]) script.

Definition serialize_txin (txin : CTxIn) : list byte :=
  uint256_bytes (outpoint_hash (prevout txin))
  ++ le_bytes 4 (outpoint_n (prevout txin))
  ++ serialize_script (scriptSig txin)
  ++ le_bytes 4 (nSequence txin).

Definition serialize_txout (txout : CTxOut) : list byte :=
  le_bytes 8 (nValue txout) ++ serialize_script (scriptPubKey txout).

(** Modelled from the spec: the serialization of a transaction without
    witness data, which the transaction hash covers. *)
Definition serialize_tx (tx : CTransaction) : list byte :=
  le_bytes 4 (version tx)
  ++ serialize_vector serialize_txin (vin tx)
  ++ serialize_vector serialize_txout (vout tx)
  ++ le_bytes 4 (nLockTime tx).

(** Modelled from the spec: the serialized header, the 80 bytes of a pure
    header. *)
Definition serialize_header (hdr : CPureBlockHeader) : list byte :=
  le_bytes 4 (nVersion hdr)
  ++ uint256_bytes (hashPrevBlock hdr)
  ++ uint256_bytes (hashMerkleRoot hdr)
  ++ le_bytes 4 (nTime hdr)
  ++ le_bytes 4 (nBits hdr)
  ++ le_bytes 4 (nNonce hdr).

(** Modelled from the spec: the hash functions of the code base. *)
#[export] Instance DoubleSHA256 : Collaborators := {
  TxGetHash tx := Hash256 (serialize_tx tx);
  HeaderGetHash hdr := Hash256 (serialize_header hdr);
  MerkleInner l r := Hash256 (uint256_bytes l ++ uint256_bytes r);
  WriterGetHash v := Hash256 (serialize_script v)
}.

(** ** MineGenesisBlock *)

Definition UINT32_MAX : Z := 4294967295.

(** [++fakeHeader.nNonce] on a uint32_t. *)
Definition increment (nonce : Z) : Z := (nonce + 1) mod 4294967296.

(** What MineGenesisBlock does that can be observed: the calls of
    checkProofOfWork, by the nonce of the fake header they see, and the lines
    written to std::cout (the opening line, a progress line for every nonce
    divisible by 1000, and the four lines that report the result). *)
Inductive Event : Type :=
| Started
| Checked (nonce : Z)
| Progress (nonce : Z)
| FoundNonce (nonce : Z)
| PrintedTime (time : Z)
| PrintedBlockHash (hash : uint256)
| PrintedMerkleRoot (hash : uint256).

(** How the while loop ends: the check passed at a nonce, or the assertion
    [fakeHeader.nNonce < std::numeric_limits<uint32_t>::max ()] failed. *)
Inductive SearchEnd : Type :=
| Found (nonce : Z)
| NonceAssertFailed.

#[local] Instance below_wf : WellFounded (fun x y : Z => 0 <= x < y) :=
  Z.lt_wf 0.

(** After an increment that the assertion let through, the distance to the
    largest nonce is smaller. *)
Lemma increment_decreases (nonce : Z) :
  nonce < UINT32_MAX ->
  0 <= UINT32_MAX - increment nonce < UINT32_MAX - nonce.
Proof.
  intros Hlt. unfold increment, UINT32_MAX in *.
  destruct (Z_lt_dec nonce 0) as [Hneg | Hnonneg].
  - pose proof (Z.mod_pos_bound (nonce + 1) 4294967296 ltac:(lia)). lia.
  - rewrite Z.mod_small by lia. lia.
Qed.

#[local] Opaque UINT32_MAX increment.

(** The loop
      while (!checkProofOfWork (fakeHeader))
        { assert (nNonce < max); ++nNonce; if (nNonce % 1000 == 0) print; }
    from the nonce the fake header holds; [check] is the proof-of-work check
    as a function of that nonce, [events] what was observed so far. *)
Equations? search (check : Z -> bool) (nonce : Z) (events : list Event)
    : SearchEnd * list Event
  by wf (UINT32_MAX - nonce) (fun x y : Z => 0 <= x < y) :=
  search check nonce events with check nonce := {
    | true := (Found nonce, events ++ [Checked nonce])
    | false with Z_lt_dec nonce UINT32_MAX := {
        | left _ :=
            search check (increment nonce)
              (events ++ [Checked nonce]
                 ++ (if increment nonce mod 1000 =? 0
                     then [Progress (increment nonce)] else []))
        | right _ := (NonceAssertFailed, events ++ [Checked nonce]) } }.
Proof.
  now apply increment_decreases.
Qed.

#[local] Transparent UINT32_MAX increment.

(** What MineGenesisBlock calls outside these files: the clock and the pow
    data's initFakeHeader and checkProofOfWork (powdata.h). *)
Class MiningCollaborators : Type := {
  GetTime : Z;
  initFakeHeader : CBlock -> CPureBlockHeader;
  checkProofOfWork : PowData -> CPureBlockHeader -> Params -> bool
}.

(** The fake header is held by the block's pow data, and the loop changes its
    nonce in place. *)
Definition with_nonce (block : CBlock) (fakeHeader : CPureBlockHeader)
    (nonce : Z) : CBlock :=
  on_pow (fun pow => setFakeHeader pow (set_nNonce nonce fakeHeader)) block.

(** How MineGenesisBlock ends: it never returns; it leaves through
    exit (EXIT_SUCCESS) with the mined block or through the failed assertion. *)
Inductive MineEnd : Type :=
| Exited (block : CBlock) (events : list Event)
| Aborted (events : list Event).

Definition MineGenesisBlock `{Collaborators} `{MiningCollaborators}
    (block : CBlock) (consensus : Params) : MineEnd :=
  let block := on_header (set_nTime GetTime) block in
  let fakeHeader := initFakeHeader block in
  let check nonce :=
    checkProofOfWork (pow (with_nonce block fakeHeader nonce))
      (set_nNonce nonce fakeHeader) consensus in
  match search check (nNonce fakeHeader) [Started] with
  | (Found nonce, events) =>
      let block := with_nonce block fakeHeader nonce in
      Exited block
        (events ++ [FoundNonce nonce;
                    PrintedTime (nTime (header block));
                    PrintedBlockHash (GetHash block);
                    PrintedMerkleRoot (hashMerkleRoot (header block))])
  | (NonceAssertFailed, events) => Aborted events
  end.

(** The nonces that checkProofOfWork was called with, in order. *)
Definition checked_nonces (events : list Event) : list Z :=
  flat_map (fun ev => match ev with
                      | Checked nonce => [nonce]
                      | _ => []
                      end) events.

(** [count] consecutive nonces from [first] on. *)
Definition run_from (first : Z) (count : nat) : list Z :=
  map (fun i => first + Z.of_nat i) (seq 0 count).

(** What MineGenesisBlock observed when it ended. *)
Definition mine_events (ending : MineEnd) : list Event :=
  match ending with
  | Exited _ events => events
  | Aborted events => events
  end.

(** A stand-in for the pow data's mining calls: the fake header starts from
    a null header that commits to the block, and the check passes at the
    nonce [target] only. *)
Definition example_miner `{Collaborators} (target : Z) : MiningCollaborators :=
  {| GetTime := 1531470713;
     initFakeHeader := fun block =>
       set_hashMerkleRoot (GetHash block) CPureBlockHeader_null;
     checkProofOfWork := fun _ fakeHeader _ => nNonce fakeHeader =? target |}.

(** ** The per-network parameter sets *)

(** util/chaintype.h *)
Inductive ChainType : Type := MAIN | TESTNET | SIGNET | REGTEST | TESTNET4.

(** MessageStartChars is std::array<uint8_t, 4>. *)
Record MessageStartChars : Type := {
  msg0 : byte; msg1 : byte; msg2 : byte; msg3 : byte
}.

(** std::ranges::equal on two such arrays. *)
Definition ranges_equal (x y : MessageStartChars) : bool :=
  Byte.eqb (msg0 x) (msg0 y) && Byte.eqb (msg1 x) (msg1 y)
  && Byte.eqb (msg2 x) (msg2 y) && Byte.eqb (msg3 x) (msg3 y).

(** The members of CChainParams that are used below. *)
Record CChainParams : Type := {
  m_chain_type : ChainType;
  pchMessageStart : MessageStartChars;
  nDefaultPort : Z;
  genesis : CBlock;
  hashGenesisBlock : uint256
}.

Definition MessageStart (params : CChainParams) : MessageStartChars :=
  pchMessageStart params.

(** The end of every constructor's genesis part:
      consensus.hashGenesisBlock = genesis.GetHash ();
      assert (consensus.hashGenesisBlock == uint256{...});
      assert (genesis.hashMerkleRoot == uint256{...});                *)
Definition checked_genesis `{Collaborators} (chain : ChainType)
    (magic : MessageStartChars) (port : Z) (genesis : CBlock)
    (expectedHash expectedMerkleRoot : string) : outcome CChainParams :=
  let hashGenesisBlock := GetHash genesis in
  _ <- assert (hashGenesisBlock =? uint256S expectedHash) ;;
  _ <- assert (hashMerkleRoot (header genesis) =? uint256S expectedMerkleRoot) ;;
  Returned {| m_chain_type := chain;
              pchMessageStart := magic;
              nDefaultPort := port;
              genesis := genesis;
              hashGenesisBlock := hashGenesisBlock |}.

Definition pszTimestampTestnet : string := "Decentralised Autonomous Worlds".

Definition hexPremineAddressRegtest : string :=
  "2b6defe41aa3aa47795b702c893c73e716d485ab".

Definition hexPremineAddressMainnet : string :=
  "8cb1c236d34c74221fe4163bbba739b52e95f484".

(** *** kernel/chainparams.cpp *)

Module Kernel.

Definition pszTimestampMainnet : string :=
  "HUC #2,351,800: 8730ea650d24cd01692a5adb943e7b8720b0ba8a4c64ffcdf5a95d9b3fb57b7f".

Definition mainnetGenesis `{Collaborators} : CBlock :=
  CreateGenesisBlock 1531470713 482087 0x1e0ffff0 pszTimestampMainnet
    (uint160S hexPremineAddressMainnet).

Definition CMainParams `{Collaborators} : outcome CChainParams :=
  checked_genesis MAIN
    {| msg0 := xcc; msg1 := xbe; msg2 := xb4; msg3 := xfe |} 8394
    mainnetGenesis
    "e5062d76e5f50c42f493826ac9920b63a8def2626fd70a5cec707ec47a4c4651"
    "0827901b75ab43978c3cf20a78baf040faeb0e2eeff3a2c58ab6521a6d46f8fd".

Definition CTestNetParams `{Collaborators} : outcome CChainParams :=
  checked_genesis TESTNET
    {| msg0 := xcc; msg1 := xbf; msg2 := xb5; msg3 := xfe |} 18394
    (CreateGenesisBlock 1530623291 343829 0x1e0ffff0 pszTimestampTestnet
       (uint160S hexPremineAddressMainnet))
    "5195fc01d0e23d70d1f929f21ec55f47e1c6ea1e66fae98ee44cbbc994509bba"
    "59d1a23342282179e810dff9238a97d07bd8602e3a1ba0efb5f519008541f257".

Definition CTestNet4Params `{Collaborators} : outcome CChainParams :=
  checked_genesis TESTNET4
    {| msg0 := x1c; msg1 := x16; msg2 := x3f; msg3 := x28 |} 48333
    (CreateGenesisBlock 1530623291 343829 0x1e0ffff0 pszTimestampTestnet
       (uint160S hexPremineAddressMainnet))
    "5195fc01d0e23d70d1f929f21ec55f47e1c6ea1e66fae98ee44cbbc994509bba"
    "59d1a23342282179e810dff9238a97d07bd8602e3a1ba0efb5f519008541f257".

(** SigNetOptions: the challenge script, when one is given. *)
Record SigNetOptions : Type := {
  challenge : option (list byte)
}.

Definition defaultSignetChallenge : list byte := ParseHex
  "512103ad5e0edad18cb1f0fc0d28a3d4f1f3e445640337489abb10404f2d1e086be430210359ef5021964fe22d6f8e05b2463c9540ce96883fe3b278760f048f5189f2e6c452ae".

(** The message start of signet is the first four bytes of the hash of the
    serialized challenge. *)
Definition SigNetParams `{Collaborators} (options : SigNetOptions)
    : outcome CChainParams :=
  let bin := match challenge options with
             | None => defaultSignetChallenge
             | Some c => c
             end in
  let hash := uint256_bytes (WriterGetHash bin) in
  checked_genesis SIGNET
    {| msg0 := nth 0 hash x00; msg1 := nth 1 hash x00;
       msg2 := nth 2 hash x00; msg3 := nth 3 hash x00 |} 38394
    (CreateGenesisBlock 1601286749 534547 0x1e0ffff0 pszTimestampTestnet
       (uint160S hexPremineAddressMainnet))
    "8d5223e215a03970bb3d3bc511a0d9a003e03cbc973289611ca6e0e617f57ccf"
    "59d1a23342282179e810dff9238a97d07bd8602e3a1ba0efb5f519008541f257".

(** RegTestOptions only change deployment heights and pruning, which the
    record of parameters above does not hold. *)
Record RegTestOptions : Type := {
  fastprune : bool
}.

Definition CRegTestParams `{Collaborators} (opts : RegTestOptions)
    : outcome CChainParams :=
  checked_genesis REGTEST
    {| msg0 := xcc; msg1 := xbf; msg2 := xb5; msg3 := xda |} 18495
    (CreateGenesisBlock 1300000000 0 0x207fffff pszTimestampTestnet
       (uint160S hexPremineAddressRegtest))
    "6f750b36d22f1dc3d0a6e483af45301022646dfc3b3ba2187865f5a7d6d83ab1"
    "9f96a4c275320aaf6386652444be5baade11e2f9f40221a98b968ae5c32dd55a".

(** CChainParams::Main (), TestNet (), TestNet4 (), RegTest (), SigNet () *)
Definition Main `{Collaborators} : outcome CChainParams := CMainParams.
Definition TestNet `{Collaborators} : outcome CChainParams := CTestNetParams.
Definition TestNet4 `{Collaborators} : outcome CChainParams := CTestNet4Params.
Definition RegTest `{Collaborators} (options : RegTestOptions)
  : outcome CChainParams := CRegTestParams options.
Definition SigNet `{Collaborators} (options : SigNetOptions)
  : outcome CChainParams := SigNetParams options.

(** The parameter set of a chain type with the default options. *)
Definition params_of `{Collaborators} (chain : ChainType)
    : outcome CChainParams :=
  match chain with
  | MAIN => Main
  | TESTNET => TestNet
  | TESTNET4 => TestNet4
  | REGTEST => RegTest {| fastprune := false |}
  | SIGNET => SigNet {| challenge := None |}
  end.

(** The message start of a chain type's parameter set. *)
Definition magic_of `{Collaborators} (chain : ChainType)
    : outcome MessageStartChars :=
  params <- params_of chain ;;
  Returned (MessageStart params).

Definition GetNetworkForMagic `{Collaborators} (message : MessageStartChars)
    : outcome (option ChainType) :=
  mainnet <- Main ;;
  testnet <- TestNet ;;
  testnet4 <- TestNet4 ;;
  regtest <- RegTest {| fastprune := false |} ;;
  signet <- SigNet {| challenge := None |} ;;
  let mainnet_msg := MessageStart mainnet in
  let testnet_msg := MessageStart testnet in
  let testnet4_msg := MessageStart testnet4 in
  let regtest_msg := MessageStart regtest in
  let signet_msg := MessageStart signet in
  if ranges_equal message mainnet_msg then Returned (Some MAIN)
  else if ranges_equal message testnet_msg then Returned (Some TESTNET)
  else if ranges_equal message testnet4_msg then Returned (Some TESTNET4)
  else if ranges_equal message regtest_msg then Returned (Some REGTEST)
  else if ranges_equal message signet_msg then Returned (Some SIGNET)
  else Returned None.

(** The order in which GetNetworkForMagic compares. *)
Definition magic_order : list ChainType :=
  [MAIN; TESTNET; TESTNET4; REGTEST; SIGNET].

End Kernel.

(** The message starts as the constructors of kernel/chainparams.cpp set
    them; the bytes of signet are those the hash of the default challenge
    begins with under double SHA-256. *)
Definition magic_table (chain : ChainType) : MessageStartChars :=
  match chain with
  | MAIN => {| msg0 := xcc; msg1 := xbe; msg2 := xb4; msg3 := xfe |}
  | TESTNET => {| msg0 := xcc; msg1 := xbf; msg2 := xb5; msg3 := xfe |}
  | TESTNET4 => {| msg0 := x1c; msg1 := x16; msg2 := x3f; msg3 := x28 |}
  | REGTEST => {| msg0 := xcc; msg1 := xbf; msg2 := xb5; msg3 := xda |}
  | SIGNET => {| msg0 := x0a; msg1 := x03; msg2 := xcf; msg3 := x40 |}
  end.


(** *** chainparams.cpp *)

Module Legacy.

Definition pszTimestampMainnet : string :=
  "Forbes, 16.01.2022 10:59am EST: Amazon's The Expanse Finale Packed 30 Easter Eggs Into One Shot".

Definition CMainParams `{Collaborators} : outcome CChainParams :=
  checked_genesis MAIN
    {| msg0 := xcc; msg1 := xbe; msg2 := xb4; msg3 := xfe |} 8394
    (CreateGenesisBlock 1644842296 1060746 0x1e0ffff0 pszTimestampMainnet
       (uint160S hexPremineAddressMainnet))
    "9d6f82b53bfede0326360cbaba23304b665e0723e3a26cf893f516e636cca77e"
    "3ce4aea0ffd7ba7459b77620fda2a5231e203239bf83281879d82f7a179f44b5".

End Legacy.

(** ** The progress lines of MineGenesisBlock *)

(** The nonces of the progress lines written to std::cout, in order. *)
Definition progress_nonces (events : list Event) : list Z :=
  flat_map (fun ev => match ev with
                      | Progress nonce => [nonce]
                      | _ => []
                      end) events.

(** ** Deployments and their activation parameters *)

(** Consensus::BuriedDeployment (consensus/params.h), with the values the
    switch of the regtest constructor lists. *)
Inductive BuriedDeployment : Type :=
| DEPLOYMENT_P2SH
| DEPLOYMENT_SEGWIT
| DEPLOYMENT_HEIGHTINCB
| DEPLOYMENT_DERSIG
| DEPLOYMENT_CLTV
| DEPLOYMENT_CSV.

(** Consensus::DeploymentPos (consensus/params.h): the version-bits
    deployments, in the order of their index; MAX_VERSION_BITS_DEPLOYMENTS
    is their number. *)
Inductive DeploymentPos : Type :=
| DEPLOYMENT_TESTDUMMY
| DEPLOYMENT_TAPROOT.

Definition all_deployments : list DeploymentPos :=
  [DEPLOYMENT_TESTDUMMY; DEPLOYMENT_TAPROOT].

Definition DeploymentPos_eqb (x y : DeploymentPos) : bool :=
  match x, y with
  | DEPLOYMENT_TESTDUMMY, DEPLOYMENT_TESTDUMMY => true
  | DEPLOYMENT_TAPROOT, DEPLOYMENT_TAPROOT => true
  | _, _ => false
  end.

Definition BuriedDeployment_eqb (x y : BuriedDeployment) : bool :=
  match x, y with
  | DEPLOYMENT_P2SH, DEPLOYMENT_P2SH => true
  | DEPLOYMENT_SEGWIT, DEPLOYMENT_SEGWIT => true
  | DEPLOYMENT_HEIGHTINCB, DEPLOYMENT_HEIGHTINCB => true
  | DEPLOYMENT_DERSIG, DEPLOYMENT_DERSIG => true
  | DEPLOYMENT_CLTV, DEPLOYMENT_CLTV => true
  | DEPLOYMENT_CSV, DEPLOYMENT_CSV => true
  | _, _ => false
  end.

(** Consensus::BIP9Deployment *)
Record BIP9Deployment : Type := {
  bit : Z;
  nStartTime : Z;
  nTimeout : Z;
  min_activation_height : Z
}.

(** BIP9Deployment::NO_TIMEOUT, ALWAYS_ACTIVE and NEVER_ACTIVE
    (consensus/params.h, outside these files). *)
Definition NO_TIMEOUT : Z := Int64.MAX.
Definition ALWAYS_ACTIVE : Z := -1.
Definition NEVER_ACTIVE : Z := -2.

(** consensus.vDeployments, an array indexed by DeploymentPos. *)
Record DeploymentArray : Type := {
  at_TESTDUMMY : BIP9Deployment;
  at_TAPROOT : BIP9Deployment
}.

Definition deployment (v : DeploymentArray) (d : DeploymentPos)
    : BIP9Deployment :=
  match d with
  | DEPLOYMENT_TESTDUMMY => at_TESTDUMMY v
  | DEPLOYMENT_TAPROOT => at_TAPROOT v
  end.

Definition set_deployment (d : DeploymentPos) (x : BIP9Deployment)
    (v : DeploymentArray) : DeploymentArray :=
  match d with
  | DEPLOYMENT_TESTDUMMY => {| at_TESTDUMMY := x; at_TAPROOT := at_TAPROOT v |}
  | DEPLOYMENT_TAPROOT => {| at_TESTDUMMY := at_TESTDUMMY v; at_TAPROOT := x |}
  end.

(** The members of Consensus::Params that the regtest constructors let the
    caller override. *)
Record Activation : Type := {
  BIP16Height : Z;
  BIP34Height : Z;
  BIP65Height : Z;
  BIP66Height : Z;
  CSVHeight : Z;
  SegwitHeight : Z;
  vDeployments : DeploymentArray
}.

Definition set_BIP16Height (v : Z) (c : Activation) : Activation :=
  {| BIP16Height := v; BIP34Height := BIP34Height c;
     BIP65Height := BIP65Height c; BIP66Height := BIP66Height c;
     CSVHeight := CSVHeight c; SegwitHeight := SegwitHeight c;
     vDeployments := vDeployments c |}.

Definition set_BIP34Height (v : Z) (c : Activation) : Activation :=
  {| BIP16Height := BIP16Height c; BIP34Height := v;
     BIP65Height := BIP65Height c; BIP66Height := BIP66Height c;
     CSVHeight := CSVHeight c; SegwitHeight := SegwitHeight c;
     vDeployments := vDeployments c |}.

Definition set_BIP65Height (v : Z) (c : Activation) : Activation :=
  {| BIP16Height := BIP16Height c; BIP34Height := BIP34Height c;
     BIP65Height := v; BIP66Height := BIP66Height c;
     CSVHeight := CSVHeight c; SegwitHeight := SegwitHeight c;
     vDeployments := vDeployments c |}.

Definition set_BIP66Height (v : Z) (c : Activation) : Activation :=
  {| BIP16Height := BIP16Height c; BIP34Height := BIP34Height c;
     BIP65Height := BIP65Height c; BIP66Height := v;
     CSVHeight := CSVHeight c; SegwitHeight := SegwitHeight c;
     vDeployments := vDeployments c |}.

Definition set_CSVHeight (v : Z) (c : Activation) : Activation :=
  {| BIP16Height := BIP16Height c; BIP34Height := BIP34Height c;
     BIP65Height := BIP65Height c; BIP66Height := BIP66Height c;
     CSVHeight := v; SegwitHeight := SegwitHeight c;
     vDeployments := vDeployments c |}.

Definition set_SegwitHeight (v : Z) (c : Activation) : Activation :=
  {| BIP16Height := BIP16Height c; BIP34Height := BIP34Height c;
     BIP65Height := BIP65Height c; BIP66Height := BIP66Height c;
     CSVHeight := CSVHeight c; SegwitHeight := v;
     vDeployments := vDeployments c |}.

Definition set_vDeployments (v : DeploymentArray) (c : Activation)
    : Activation :=
  {| BIP16Height := BIP16Height c; BIP34Height := BIP34Height c;
     BIP65Height := BIP65Height c; BIP66Height := BIP66Height c;
     CSVHeight := CSVHeight c; SegwitHeight := SegwitHeight c;
     vDeployments := v |}.

(** The three assignments
      consensus.vDeployments[d].nStartTime = ...;
      consensus.vDeployments[d].nTimeout = ...;
      consensus.vDeployments[d].min_activation_height = ...;
    which are the body of UpdateVersionBitsParameters in chainparams.cpp and
    of the loop over version_bits_parameters in kernel/chainparams.cpp. *)
Definition UpdateVersionBitsParameters (d : DeploymentPos)
    (start timeout min_height : Z) (c : Activation) : Activation :=
  let old := deployment (vDeployments c) d in
  set_vDeployments
    (set_deployment d
       {| bit := bit old; nStartTime := start; nTimeout := timeout;
          min_activation_height := min_height |}
       (vDeployments c)) c.

(** *** The regtest constructor of kernel/chainparams.cpp *)

Module KernelRegTest.

(** VersionBitsParameters and RegTestOptions (kernel/chainparams.h).  The
    two containers are given by the sequence of entries the range-for loops
    of the constructor visit. *)
Record VersionBitsParameters : Type := {
  start_time : Z;
  timeout : Z;
  vb_min_activation_height : Z
}.

Record RegTestOptions : Type := {
  version_bits_parameters : list (DeploymentPos * VersionBitsParameters);
  activation_heights : list (BuriedDeployment * Z);
  fastprune : bool
}.

(** What the constructor assigns before it reads the options. *)
Definition defaults : Activation :=
  {| BIP16Height := 0;
     BIP34Height := 1;
     BIP65Height := 1;
     BIP66Height := 1;
     CSVHeight := 1;
     SegwitHeight := 0;
     vDeployments :=
       {| at_TESTDUMMY := {| bit := 28; nStartTime := 0;
                             nTimeout := NO_TIMEOUT;
                             min_activation_height := 0 |};
          at_TAPROOT := {| bit := 2; nStartTime := ALWAYS_ACTIVE;
                           nTimeout := NO_TIMEOUT;
                           min_activation_height := 0 |} |} |}.

(** The body of the loop over opts.activation_heights: the switch. *)
Definition activation_height_step (c : Activation)
    (entry : BuriedDeployment * Z) : Activation :=
  let '(dep, height) := entry in
  match dep with
  | DEPLOYMENT_P2SH => set_BIP16Height height c
  | DEPLOYMENT_SEGWIT => set_SegwitHeight height c
  | DEPLOYMENT_HEIGHTINCB => set_BIP34Height height c
  | DEPLOYMENT_DERSIG => set_BIP66Height height c
  | DEPLOYMENT_CLTV => set_BIP65Height height c
  | DEPLOYMENT_CSV => set_CSVHeight height c
  end.

(** The body of the loop over opts.version_bits_parameters. *)
Definition version_bits_step (c : Activation)
    (entry : DeploymentPos * VersionBitsParameters) : Activation :=
  let '(deployment_pos, version_bits_params) := entry in
  UpdateVersionBitsParameters deployment_pos
    (start_time version_bits_params) (timeout version_bits_params)
    (vb_min_activation_height version_bits_params) c.

(** The consensus members the constructor ends with, and nPruneAfterHeight. *)
Definition consensus_of (opts : RegTestOptions) : Activation :=
  let consensus := defaults in
  let consensus :=
    fold_left activation_height_step (activation_heights opts) consensus in
  fold_left version_bits_step (version_bits_parameters opts) consensus.

(** The parameter set: the members of CChainParams used before, the
    consensus members above and nPruneAfterHeight. *)
Record RegTestParams : Type := {
  chain_params : CChainParams;
  consensus : Activation;
  nPruneAfterHeight : Z
}.

Definition CRegTestParams `{Collaborators} (opts : RegTestOptions)
    : outcome RegTestParams :=
  let nPruneAfterHeight := if fastprune opts then 100 else 1000 in
  let consensus := consensus_of opts in
  params <- Kernel.CRegTestParams {| Kernel.fastprune := fastprune opts |} ;;
  Returned {| chain_params := params;
              consensus := consensus;
              nPruneAfterHeight := nPruneAfterHeight |}.

(** The height member that belongs to a buried deployment. *)
Definition height_of (c : Activation) (dep : BuriedDeployment) : Z :=
  match dep with
  | DEPLOYMENT_P2SH => BIP16Height c
  | DEPLOYMENT_SEGWIT => SegwitHeight c
  | DEPLOYMENT_HEIGHTINCB => BIP34Height c
  | DEPLOYMENT_DERSIG => BIP66Height c
  | DEPLOYMENT_CLTV => BIP65Height c
  | DEPLOYMENT_CSV => CSVHeight c
  end.

End KernelRegTest.

(** *** The regtest parameters of chainparams.cpp read from the arguments *)

(** std::runtime_error, by the message the code formats. *)
Inductive runtime_error : Type :=
| ActivationHeightOutOfRange (deployment_name : string) (height : Z)
| VersionBitsMalformed
| InvalidStartTime (text : string)
| InvalidTimeout (text : string)
| InvalidMinActivationHeight (text : string)
| InvalidDeployment (text : string)
| SignetChallengeMultiple
| UnknownChain (chain : string)
| OtherError (what : string).

(** A call that either completes or leaves through a thrown exception. *)
Inductive thrown (A : Type) : Type :=
| Normal (a : A)
| Threw (e : runtime_error).
Arguments Normal {A} a.
Arguments Threw {A} e.

(** The lines written with LogPrintf.  A call that logs takes the log so
    far and returns it with its lines added, whether it completes or
    throws. *)
Inductive LogLine : Type :=
| LogBIP16Disabled
| LogSegwitDisabled
| LogVersionBits (deployment_name : string) (start timeout min_height : Z)
| LogSignetChallenge (challenge : string).

Definition logged (A : Type) : Type := thrown A * list LogLine.

(** ArgsManager (util/system.h, outside these files), by the member
    functions the constructors call: IsArgSet (name), the int64_t overload
    of GetArg (name, default), GetArgs (name) and GetBoolArg (name,
    default). *)
Record ArgsManager : Type := {
  IsArgSet : string -> bool;
  GetArg : string -> Z -> Z;
  GetArgs : string -> list string;
  GetBoolArg : string -> bool -> bool
}.

(** What UpdateActivationParametersFromArgs calls outside these files:
    ParseInt64 and ParseInt32 (util/strencodings.h), with the parsed value
    when they return true, and the names in the VersionBitsDeploymentInfo
    table (deploymentinfo.h). *)
Class ArgumentCollaborators : Type := {
  ParseInt64 : string -> option Z;
  ParseInt32 : string -> option Z;
  VersionBitsDeploymentInfo_name : DeploymentPos -> string
}.

(** boost::split (tokens, text, boost::is_any_of (":")): the text between
    the separators, empty tokens included; an empty text is one empty
    token. *)
Fixpoint boost_split (sep : ascii) (text : string) : list string :=
  match text with
  | EmptyString => [EmptyString]
  | String c rest =>
      if Ascii.eqb c sep then EmptyString :: boost_split sep rest
      else match boost_split sep rest with
           | token :: tokens => String c token :: tokens
           | [] => [String c EmptyString]
           end
  end.

(** std::numeric_limits<int>::max () and static_cast<int> on an int64_t. *)
Definition INT_MAX : Z := 2147483647.

Definition static_cast_int (z : Z) : Z :=
  (z + 2147483648) mod 4294967296 - 2147483648.

Module LegacyRegTest.

(** What the constructor assigns before it reads the arguments. *)
Definition defaults : Activation :=
  {| BIP16Height := 0;
     BIP34Height := 500;
     BIP65Height := 1351;
     BIP66Height := 1251;
     CSVHeight := 432;
     SegwitHeight := 0;
     vDeployments :=
       {| at_TESTDUMMY := {| bit := 28; nStartTime := 0;
                             nTimeout := NO_TIMEOUT;
                             min_activation_height := 0 |};
          at_TAPROOT := {| bit := 2; nStartTime := ALWAYS_ACTIVE;
                           nTimeout := NO_TIMEOUT;
                           min_activation_height := 0 |} |} |}.

(** The loop
      for (int j = 0; j < (int) Consensus::MAX_VERSION_BITS_DEPLOYMENTS; ++j)
        if (vDeploymentParams[0] == VersionBitsDeploymentInfo[j].name) ... break;
    finds the first deployment with the given name. *)
Definition find_deployment `{ArgumentCollaborators} (name : string)
    : option DeploymentPos :=
  find (fun d => String.eqb name (VersionBitsDeploymentInfo_name d))
    all_deployments.

(** The body of the loop over the values of -vbparams. *)
Definition vbparams_step `{ArgumentCollaborators}
    (consensus : Activation) (log : list LogLine) (strDeployment : string)
    : logged Activation :=
  let vDeploymentParams := boost_split ":" strDeployment in
  let size := Z.of_nat (length vDeploymentParams) in
  if (size <? 3) || (4 <? size) then (Threw VersionBitsMalformed, log)
  else
    match ParseInt64 (nth 1 vDeploymentParams EmptyString) with
    | None =>
        (Threw (InvalidStartTime (nth 1 vDeploymentParams EmptyString)), log)
    | Some start =>
    match ParseInt64 (nth 2 vDeploymentParams EmptyString) with
    | None =>
        (Threw (InvalidTimeout (nth 2 vDeploymentParams EmptyString)), log)
    | Some timeout =>
    match (if 4 <=? size
           then ParseInt32 (nth 3 vDeploymentParams EmptyString)
           else Some 0) with
    | None =>
        (Threw (InvalidMinActivationHeight
                  (nth 3 vDeploymentParams EmptyString)), log)
    | Some min_height =>
    match find_deployment (nth 0 vDeploymentParams EmptyString) with
    | Some d =>
        (Normal
           (UpdateVersionBitsParameters d start timeout min_height consensus),
         log ++ [LogVersionBits (nth 0 vDeploymentParams EmptyString)
                   start timeout min_height])
    | None =>
        (Threw (InvalidDeployment (nth 0 vDeploymentParams EmptyString)), log)
    end end end end.

Fixpoint vbparams_loop `{ArgumentCollaborators}
    (values : list string) (consensus : Activation) (log : list LogLine)
    : logged Activation :=
  match values with
  | [] => (Normal consensus, log)
  | strDeployment :: rest =>
      match vbparams_step consensus log strDeployment with
      | (Normal consensus, log) => vbparams_loop rest consensus log
      | (Threw e, log) => (Threw e, log)
      end
  end.

Definition UpdateActivationParametersFromArgs `{ArgumentCollaborators}
    (args : ArgsManager) (consensus : Activation) (log : list LogLine)
    : logged Activation :=
  match
    (if IsArgSet args "-bip16height" then
       let height := GetArg args "-bip16height" (BIP16Height consensus) in
       if (height <? -1) || (height >=? INT_MAX)
       then (Threw (ActivationHeightOutOfRange "BIP16" height), log)
       else
         let '(height, log) :=
           if height =? -1 then (INT_MAX, log ++ [LogBIP16Disabled])
           else (height, log) in
         (Normal (set_BIP16Height (static_cast_int height) consensus), log)
     else (Normal consensus, log))
  with
  | (Threw e, log) => (Threw e, log)
  | (Normal consensus, log) =>
  match
    (if IsArgSet args "-segwitheight" then
       let height := GetArg args "-segwitheight" (SegwitHeight consensus) in
       if (height <? -1) || (height >=? INT_MAX)
       then (Threw (ActivationHeightOutOfRange "segwit" height), log)
       else
         let '(height, log) :=
           if height =? -1 then (INT_MAX, log ++ [LogSegwitDisabled])
           else (height, log) in
         (Normal (set_SegwitHeight (static_cast_int height) consensus), log)
     else (Normal consensus, log))
  with
  | (Threw e, log) => (Threw e, log)
  | (Normal consensus, log) =>
  if negb (IsArgSet args "-vbparams") then (Normal consensus, log)
  else vbparams_loop (GetArgs args "-vbparams") consensus log
  end end.

(** The deployment that a value of -vbparams names. *)
Definition named_deployment `{ArgumentCollaborators} (strDeployment : string)
    : option DeploymentPos :=
  find_deployment (nth 0 (boost_split ":" strDeployment) EmptyString).

(** An entry of -vbparams as the loop body wants it: three or four fields,
    the second and third of which parse as int64_t, the fourth, when there,
    as an int, and the first of which names a deployment. *)
Definition is_some {A : Type} (o : option A) : bool :=
  match o with Some _ => true | None => false end.

Definition well_formed `{ArgumentCollaborators} (strDeployment : string)
    : bool :=
  match boost_split ":" strDeployment with
  | name :: start :: timeout :: rest =>
      is_some (ParseInt64 start) && is_some (ParseInt64 timeout)
      && is_some (find_deployment name)
      && match rest with
         | [] => true
         | [min_height] => is_some (ParseInt32 min_height)
         | _ => false
         end
  | _ => false
  end.

(** The range the constructor accepts for -bip16height and -segwitheight. *)
Definition height_accepted (args : ArgsManager) (name : string)
    (current : Z) : bool :=
  negb (IsArgSet args name)
  || ((-1 <=? GetArg args name current)
      && (GetArg args name current <? INT_MAX)).

(** The height such an argument stands for: -1 disables the deployment. *)
Definition height_argument (args : ArgsManager) (name : string)
    (current : Z) : Z :=
  if IsArgSet args name
  then if GetArg args name current =? -1 then INT_MAX
       else GetArg args name current
  else current.

End LegacyRegTest.

(** Stand-ins for the argument calls: numbers are written in decimal digits
    with an optional minus sign, and the deployments have the names
    testdummy and taproot. *)
Fixpoint parse_digits (text : string) (acc : Z) : option Z :=
  match text with
  | EmptyString => Some acc
  | String c rest =>
      let n := Z.of_N (N_of_ascii c) in
      if (48 <=? n) && (n <=? 57) then parse_digits rest (10 * acc + (n - 48))
      else None
  end.

Definition parse_decimal (text : string) : option Z :=
  match text with
  | EmptyString => None
  | String "-" (String c rest) =>
      option_map Z.opp (parse_digits (String c rest) 0)
  | _ => parse_digits text 0
  end.

Definition example_arguments : ArgumentCollaborators :=
  {| ParseInt64 := parse_decimal;
     ParseInt32 := parse_decimal;
     VersionBitsDeploymentInfo_name := fun d =>
       match d with
       | DEPLOYMENT_TESTDUMMY => "testdummy"%string
       | DEPLOYMENT_TAPROOT => "taproot"%string
       end |}.

(** *** The parameter sets of chainparams.cpp by chain name *)

(** What chainparams.cpp takes from chainparamsbase.h, outside these files:
    the chain names CBaseChainParams::MAIN, TESTNET, SIGNET and REGTEST, and
    SelectBaseParams, which works on globals of its own and may throw. *)
Class BaseChainParams : Type := {
  BaseGlobals : Type;
  CBaseChainParams_MAIN : string;
  CBaseChainParams_TESTNET : string;
  CBaseChainParams_SIGNET : string;
  CBaseChainParams_REGTEST : string;
  SelectBaseParams : string -> BaseGlobals -> thrown unit * BaseGlobals
}.

Module LegacyNetworks.

(** The members of CChainParams used below, and DefaultCheckNameDB (). *)
Record NetworkParams : Type := {
  strNetworkID : string;
  chain_params : CChainParams;
  consensus : Activation;
  signet_challenge : list byte;
  vSeeds : list string;
  nPruneAfterHeight : Z;
  DefaultCheckNameDB : Z
}.

Definition CMainParams `{Collaborators} `{BaseChainParams}
    : outcome NetworkParams :=
  params <- Legacy.CMainParams ;;
  Returned
    {| strNetworkID := CBaseChainParams_MAIN;
       chain_params := params;
       consensus :=
         {| BIP16Height := 0; BIP34Height := 1; BIP65Height := 0;
            BIP66Height := 0; CSVHeight := 1; SegwitHeight := 0;
            vDeployments :=
              {| at_TESTDUMMY := {| bit := 28; nStartTime := NEVER_ACTIVE;
                                    nTimeout := NO_TIMEOUT;
                                    min_activation_height := 0 |};
                 at_TAPROOT := {| bit := 2; nStartTime := NEVER_ACTIVE;
                                  nTimeout := NO_TIMEOUT;
                                  min_activation_height := 0 |} |} |};
       signet_challenge := [];
       vSeeds := ["seed.xaya.io"; "seed.xaya.domob.eu"]%string;
       nPruneAfterHeight := 100000;
       DefaultCheckNameDB := -1 |}.

Definition CTestNetParams `{Collaborators} `{BaseChainParams}
    : outcome NetworkParams :=
  params <- checked_genesis TESTNET
              {| msg0 := xcc; msg1 := xbf; msg2 := xb5; msg3 := xfe |} 18394
              (CreateGenesisBlock 1644842810 2413255 0x1e0ffff0
                 pszTimestampTestnet (uint160S hexPremineAddressMainnet))
              "daf586063c96731020b95b4051330e1d6476228bcd5e98122fd741e280e3a77d"
              "59d1a23342282179e810dff9238a97d07bd8602e3a1ba0efb5f519008541f257" ;;
  Returned
    {| strNetworkID := CBaseChainParams_TESTNET;
       chain_params := params;
       consensus :=
         {| BIP16Height := 0; BIP34Height := 1; BIP65Height := 0;
            BIP66Height := 0; CSVHeight := 1; SegwitHeight := 0;
            vDeployments :=
              {| at_TESTDUMMY := {| bit := 28; nStartTime := NEVER_ACTIVE;
                                    nTimeout := NO_TIMEOUT;
                                    min_activation_height := 0 |};
                 at_TAPROOT := {| bit := 2; nStartTime := NEVER_ACTIVE;
                                  nTimeout := NO_TIMEOUT;
                                  min_activation_height := 0 |} |} |};
       signet_challenge := [];
       vSeeds := ["seed.testnet.xaya.io"; "seed.testnet.xaya.domob.eu"]%string;
       nPruneAfterHeight := 1000;
       DefaultCheckNameDB := -1 |}.

Definition SigNetParams `{Collaborators} `{BaseChainParams}
    (args : ArgsManager) (log : list LogLine)
    : outcome (logged NetworkParams) :=
  match
    (if negb (IsArgSet args "-signetchallenge") then
       (Normal Kernel.defaultSignetChallenge, log)
     else
       let signet_challenge := GetArgs args "-signetchallenge" in
       if negb (length signet_challenge =? 1)%nat
       then (Threw SignetChallengeMultiple, log)
       else (Normal (ParseHex (nth 0 signet_challenge EmptyString)),
             log ++ [LogSignetChallenge (nth 0 signet_challenge EmptyString)]))
  with
  | (Threw e, log) => Returned (Threw e, log)
  | (Normal bin, log) =>
      let vSeeds :=
        if IsArgSet args "-signetseednode"
        then GetArgs args "-signetseednode" else [] in
      let hash := uint256_bytes (WriterGetHash bin) in
      params <- checked_genesis SIGNET
                  {| msg0 := nth 0 hash x00; msg1 := nth 1 hash x00;
                     msg2 := nth 2 hash x00; msg3 := nth 3 hash x00 |} 38394
                  (CreateGenesisBlock 1644844006 1180459 0x1e0ffff0
                     pszTimestampTestnet (uint160S hexPremineAddressMainnet))
                  "a8953af315a2dea0bc116bdd85d000f6b4e0d58f2718f393c54219b26d62e555"
                  "59d1a23342282179e810dff9238a97d07bd8602e3a1ba0efb5f519008541f257" ;;
      Returned
        (Normal
           {| strNetworkID := CBaseChainParams_SIGNET;
              chain_params := params;
              consensus :=
                {| BIP16Height := 1; BIP34Height := 1; BIP65Height := 1;
                   BIP66Height := 1; CSVHeight := 1; SegwitHeight := 1;
                   vDeployments :=
                     {| at_TESTDUMMY :=
                          {| bit := 28; nStartTime := NEVER_ACTIVE;
                             nTimeout := NO_TIMEOUT;
                             min_activation_height := 0 |};
                        at_TAPROOT :=
                          {| bit := 2; nStartTime := ALWAYS_ACTIVE;
                             nTimeout := NO_TIMEOUT;
                             min_activation_height := 0 |} |} |};
              signet_challenge := bin;
              vSeeds := vSeeds;
              nPruneAfterHeight := 1000;
              DefaultCheckNameDB := -1 |},
         log)
  end.

Definition CRegTestParams `{Collaborators} `{BaseChainParams}
    `{ArgumentCollaborators} (args : ArgsManager) (log : list LogLine)
    : outcome (logged NetworkParams) :=
  let nPruneAfterHeight :=
    if GetBoolArg args "-fastprune" false then 100 else 1000 in
  match LegacyRegTest.UpdateActivationParametersFromArgs args
          LegacyRegTest.defaults log with
  | (Threw e, log) => Returned (Threw e, log)
  | (Normal consensus, log) =>
      params <- checked_genesis REGTEST
                  {| msg0 := xcc; msg1 := xbf; msg2 := xb5; msg3 := xda |}
                  18495
                  (CreateGenesisBlock 1644844584 0 0x207fffff
                     pszTimestampTestnet (uint160S hexPremineAddressRegtest))
                  "a07860306f0d4e24c7d80070630ab70499047965f140e6f17efb9e9620b0d18e"
                  "9f96a4c275320aaf6386652444be5baade11e2f9f40221a98b968ae5c32dd55a" ;;
      Returned
        (Normal
           {| strNetworkID := CBaseChainParams_REGTEST;
              chain_params := params;
              consensus := consensus;
              signet_challenge := [];
              vSeeds := [];
              nPruneAfterHeight := nPruneAfterHeight;
              DefaultCheckNameDB := 0 |},
         log)
  end.

Definition CreateChainParams `{Collaborators} `{BaseChainParams}
    `{ArgumentCollaborators} (args : ArgsManager) (chain : string)
    (log : list LogLine) : outcome (logged NetworkParams) :=
  if String.eqb chain CBaseChainParams_MAIN then
    params <- CMainParams ;; Returned (Normal params, log)
  else if String.eqb chain CBaseChainParams_TESTNET then
    params <- CTestNetParams ;; Returned (Normal params, log)
  else if String.eqb chain CBaseChainParams_SIGNET then
    SigNetParams args log
  else if String.eqb chain CBaseChainParams_REGTEST then
    CRegTestParams args log
  else Returned (Threw (UnknownChain chain), log).

(** The globals: globalChainParams, the global gArgs, those of
    chainparamsbase.cpp, and the log. *)
Record Globals `{BaseChainParams} : Type := {
  globalChainParams : option NetworkParams;
  gArgs : ArgsManager;
  base_globals : BaseGlobals;
  debug_log : list LogLine
}.

(** assert (globalChainParams);  return *globalChainParams; *)
Definition Params `{BaseChainParams} (globals : Globals)
    : outcome NetworkParams :=
  match globalChainParams globals with
  | Some params => Returned params
  | None => AssertFailed
  end.


End LegacyNetworks.


(** An argument set: -bip16height=-1, two values of -vbparams and
    -fastprune. *)
Definition example_args : ArgsManager :=
  {| IsArgSet := fun name =>
       String.eqb name "-bip16height" || String.eqb name "-vbparams"
       || String.eqb name "-fastprune";
     GetArg := fun name default =>
       if String.eqb name "-bip16height" then -1 else default;
     GetArgs := fun name =>
       if String.eqb name "-vbparams"
       then ["testdummy:10:20"; "taproot:1:2:3"]%string else [];
     GetBoolArg := fun name default =>
       if String.eqb name "-fastprune" then true else default |}.


(** * Properties *)

(** ** The closed form of the accumulation *)

Section ClosedForm.

Lemma product_cons (s : Z) (l : list Z) : product (s :: l) = s * product l.
Proof. reflexivity. Qed.

Lemma without_head (s : Z) (l : list Z) : without 0 (s :: l) = l.
Proof. reflexivity. Qed.

Lemma without_tail (i : nat) (s : Z) (l : list Z) :
  without (S i) (s :: l) = s :: without i l.
Proof. reflexivity. Qed.

Lemma sum_map_scale (s : Z) (f : nat -> Z) (idx : list nat) :
  fold_right Z.add 0 (map (fun i => s * f i) idx)
  = s * fold_right Z.add 0 (map f idx).
Proof.
  induction idx as [|i idx IH]; simpl; [ring | rewrite IH; ring].
Qed.

(** Excluding the head leaves the product of the tail; excluding an element
    of the tail keeps the head as a factor. *)
Lemma exclude_sum_cons (s : Z) (l : list Z) :
  exclude_sum (s :: l) = product l + s * exclude_sum l.
Proof.
  unfold exclude_sum. cbn [length seq map fold_right].
  rewrite without_head. f_equal.
  rewrite <- seq_shift, map_map.
  rewrite <- sum_map_scale. f_equal.
Qed.

Lemma exclude_sum_nil : exclude_sum [] = 0.
Proof. reflexivity. Qed.

Lemma product_pos (l : list Z) : Forall (fun s => 0 < s) l -> 0 < product l.
Proof.
  induction 1 as [|s l Hs _ IH]; [reflexivity | rewrite product_cons; nia].
Qed.

Lemma exclude_sum_nonneg (l : list Z) :
  Forall (fun s => 0 < s) l -> 0 <= exclude_sum l.
Proof.
  induction 1 as [|s l Hs Hl IH]; [reflexivity |].
  rewrite exclude_sum_cons. pose proof (product_pos l Hl). nia.
Qed.

Lemma exclude_sum_pos (l : list Z) :
  Forall (fun s => 0 < s) l -> l <> [] -> 0 < exclude_sum l.
Proof.
  intros Hl Hne. destruct Hl as [|s l Hs Hl]; [congruence |].
  rewrite exclude_sum_cons.
  pose proof (product_pos l Hl). pose proof (exclude_sum_nonneg l Hl). nia.
Qed.

Lemma product_perm (l l' : list Z) : Permutation l l' -> product l = product l'.
Proof.
  induction 1; rewrite ?product_cons; try congruence; ring.
Qed.

Lemma exclude_sum_perm (l l' : list Z) :
  Permutation l l' -> exclude_sum l = exclude_sum l'.
Proof.
  induction 1 as [| x l l' Hp IH | x y l | l l' l'' _ IH1 _ IH2].
  - reflexivity.
  - rewrite !exclude_sum_cons, IH, (product_perm _ _ Hp). reflexivity.
  - rewrite !exclude_sum_cons, !product_cons. ring.
  - congruence.
Qed.

End ClosedForm.

(** ** The accumulation in int64_t *)

Section CheckedAccumulation.

Lemma checked_in_range (z : Z) :
  Int64.MIN <= z <= Int64.MAX -> Int64.checked z = Returned z.
Proof.
  intros [Hlo Hhi]. unfold Int64.checked, Int64.in_range.
  apply Z.leb_le in Hlo, Hhi. now rewrite Hlo, Hhi.
Qed.

Lemma checked_above (z : Z) :
  Int64.MAX < z -> Int64.checked z = UndefinedBehaviour.
Proof.
  intros H. unfold Int64.checked, Int64.in_range.
  apply Z.leb_gt in H. rewrite H. now rewrite andb_false_r.
Qed.

Lemma accumulate_map {A : Type} (f : A -> Z) (items : list A) (st : Z * Z) :
  accumulate f items st = accumulate (fun s => s) (map f items) st.
Proof.
  revert st. induction items as [|a items IH]; intros st; [reflexivity |].
  cbn [accumulate map]. destruct (spacing_step st (f a)); cbn [bind]; auto.
Qed.

(** With positive spacings the running values only grow, so the loop overflows
    exactly when one of the two final values does not fit; otherwise it ends
    in the closed form. *)
Lemma accumulate_checked (l : list Z) :
  Forall (fun s => 0 < s) l ->
  forall n d, 0 < n <= Int64.MAX -> 0 <= d <= Int64.MAX ->
  accumulate (fun s => s) l (n, d)
  = if (n * product l <=? Int64.MAX)
       && (d * product l + n * exclude_sum l <=? Int64.MAX)
    then Returned (n * product l, d * product l + n * exclude_sum l)
    else UndefinedBehaviour.
Proof.
  induction 1 as [|s l Hs Hl IH]; intros n d Hn Hd.
  - cbn [accumulate]. rewrite exclude_sum_nil. unfold product; cbn [fold_right].
    rewrite !Z.mul_1_r, Z.mul_0_r, Z.add_0_r.
    destruct Hn as [_ Hn], Hd as [_ Hd]. apply Z.leb_le in Hn, Hd.
    now rewrite Hn, Hd.
  - pose proof (product_pos l Hl) as HP.
    pose proof (exclude_sum_nonneg l Hl) as HE.
    assert (Hmin : Int64.MIN < 0) by reflexivity.
    rewrite product_cons, exclude_sum_cons.
    cbn [accumulate]. unfold spacing_step, Int64.mul, Int64.add.
    destruct (Z_le_gt_dec (d * s) Int64.MAX) as [H1 | H1].
    2:{ rewrite checked_above by lia. cbn [bind].
        replace (d * (s * product l) + n * (product l + s * exclude_sum l)
                 <=? Int64.MAX) with false; [now rewrite andb_false_r |].
        symmetry. apply Z.leb_gt.
        assert (d * s <= d * s * product l) by nia.
        assert (0 <= n * (product l + s * exclude_sum l)) by nia.
        lia. }
    assert (0 <= d * s) by (apply Z.mul_nonneg_nonneg; lia).
    rewrite checked_in_range by lia. cbn [bind].
    destruct (Z_le_gt_dec (d * s + n) Int64.MAX) as [H2 | H2].
    2:{ rewrite checked_above by lia. cbn [bind].
        replace (d * (s * product l) + n * (product l + s * exclude_sum l)
                 <=? Int64.MAX) with false; [now rewrite andb_false_r |].
        symmetry. apply Z.leb_gt.
        assert (d * s <= d * s * product l) by nia.
        assert (n <= n * product l) by nia.
        assert (0 <= n * (s * exclude_sum l)) by nia.
        lia. }
    rewrite checked_in_range by lia. cbn [bind].
    destruct (Z_le_gt_dec (n * s) Int64.MAX) as [H3 | H3].
    2:{ rewrite checked_above by lia. cbn [bind].
        replace (n * (s * product l) <=? Int64.MAX) with false; [reflexivity |].
        symmetry. apply Z.leb_gt.
        assert (n * s <= n * s * product l) by nia.
        lia. }
    assert (0 < n * s) by (apply Z.mul_pos_pos; lia).
    rewrite checked_in_range by lia. cbn [bind].
    rewrite IH by lia.
    replace (n * s * product l) with (n * (s * product l)) by ring.
    replace ((d * s + n) * product l + n * s * exclude_sum l)
      with (d * (s * product l) + n * (product l + s * exclude_sum l)) by ring.
    reflexivity.
Qed.

(** The two assertions and the division on values the loop can leave. *)
Lemma finish_exact (numer denom : Z) :
  0 <= numer <= Int64.MAX -> 0 < denom ->
  finish (numer, denom)
  = if numer mod denom =? 0 then Returned (numer / denom) else AssertFailed.
Proof.
  intros Hn Hd. unfold finish, assert, Int64.rem, Int64.div.
  assert (Hmin : Int64.MIN < 0) by reflexivity.
  destruct (Z.gtb_spec denom 0) as [_ | ?]; [| lia]. cbn [bind].
  destruct (Z.eqb_spec denom 0) as [? | _]; [lia |].
  rewrite Z.rem_mod_nonneg by lia.
  pose proof (Z.mod_pos_bound numer denom Hd) as Hm.
  pose proof (Z.mod_le numer denom (proj1 Hn) Hd) as Hle.
  rewrite checked_in_range by lia. cbn [bind].
  destruct (numer mod denom =? 0); cbn [bind]; [| reflexivity].
  rewrite Z.quot_div_nonneg by lia.
  pose proof (Z.div_pos numer denom (proj1 Hn) Hd).
  assert (numer / denom <= numer) by (apply Z.div_le_upper_bound; nia).
  rewrite checked_in_range by lia. reflexivity.
Qed.

(** AverageSpacing in closed form, for positive spacings that fit. *)
Lemma AverageSpacing_closed_form (l : list Z) :
  Forall (fun s => 0 < s) l -> l <> [] ->
  product l <= Int64.MAX -> exclude_sum l <= Int64.MAX ->
  AverageSpacing l
  = if product l mod exclude_sum l =? 0
    then Returned (product l / exclude_sum l) else AssertFailed.
Proof.
  intros Hl Hne HP HE. unfold AverageSpacing.
  assert (Hmax : 1 <= Int64.MAX) by (unfold Int64.MAX; lia).
  rewrite (accumulate_checked l Hl 1 0) by lia.
  rewrite !Z.mul_1_l, Z.mul_0_l, Z.add_0_l.
  apply Z.leb_le in HP, HE. rewrite HP, HE. cbn [andb bind].
  apply Z.leb_le in HP.
  pose proof (product_pos l Hl). pose proof (exclude_sum_pos l Hl Hne).
  apply finish_exact; lia.
Qed.

End CheckedAccumulation.

(** ** AvgTargetSpacing and the harmonic quantity *)

Section Spacing.

Lemma rate_sum_closed (l : list Z) :
  Forall (fun s => 0 < s) l ->
  (rate_sum l == inject_Z (exclude_sum l) / inject_Z (product l))%Q.
Proof.
  induction 1 as [|s l Hs Hl IH].
  - reflexivity.
  - unfold rate_sum in *. cbn [map fold_right]. rewrite IH.
    rewrite exclude_sum_cons, product_cons.
    rewrite inject_Z_plus, !inject_Z_mult.
    pose proof (product_pos l Hl) as HP.
    assert (~ inject_Z s == 0)%Q by (unfold Qeq; simpl; lia).
    assert (~ inject_Z (product l) == 0)%Q by (unfold Qeq; simpl; lia).
    field. split; assumption.
Qed.

(** An exact quotient of the closed form is the reciprocal of the rate. *)
Lemma exact_quotient_harmonic (l : list Z) (r : Z) :
  Forall (fun s => 0 < s) l -> l <> [] ->
  r * exclude_sum l = product l ->
  (inject_Z r == 1 / rate_sum l)%Q.
Proof.
  intros Hl Hne Hr. rewrite (rate_sum_closed l Hl), <- Hr, inject_Z_mult.
  pose proof (exclude_sum_pos l Hl Hne) as HE.
  pose proof (product_pos l Hl) as HP.
  assert (~ inject_Z (exclude_sum l) == 0)%Q by (unfold Qeq; simpl; lia).
  assert (~ inject_Z r == 0)%Q by (unfold Qeq; simpl; nia).
  field. split; assumption.
Qed.

Lemma AvgTargetSpacing_AverageSpacing (params : Params) (height : Z) :
  AvgTargetSpacing params height
  = AverageSpacing
      (map (fun algo => GetTargetSpacing (rules params) algo height)
           [SHA256D; NEOSCRYPT]).
Proof.
  unfold AvgTargetSpacing, AverageSpacing. now rewrite accumulate_map.
Qed.

(** C1, as the code has it: for positive spacings whose product and
    exclude-one sum fit int64_t, the loop leaves numer = product of the
    spacings and denom = sum of the products that leave one spacing out;
    denom is strictly positive; AvgTargetSpacing returns numer / denom
    exactly when denom divides numer and aborts on the exact-division
    assertion otherwise; a returned value r satisfies r * denom = numer, that
    is r = 1 / sum (1 / s_i). *)
Theorem AvgTargetSpacing_closed_form (params : Params) (height : Z) :
  let spacings := map (fun algo => GetTargetSpacing (rules params) algo height)
                      [SHA256D; NEOSCRYPT] in
  Forall (fun s => 0 < s) spacings ->
  product spacings <= Int64.MAX ->
  exclude_sum spacings <= Int64.MAX ->
  accumulate (fun algo => GetTargetSpacing (rules params) algo height)
    [SHA256D; NEOSCRYPT] (1, 0)
  = Returned (product spacings, exclude_sum spacings)
  /\ 0 < exclude_sum spacings
  /\ AvgTargetSpacing params height
     = (if product spacings mod exclude_sum spacings =? 0
        then Returned (product spacings / exclude_sum spacings)
        else AssertFailed)
  /\ forall r, AvgTargetSpacing params height = Returned r ->
       r * exclude_sum spacings = product spacings
       /\ (inject_Z r == 1 / rate_sum spacings)%Q.
Proof.
  intros spacings Hpos HP HE.
  assert (Hne : spacings <> []) by discriminate.
  pose proof (exclude_sum_pos spacings Hpos Hne) as HEpos.
  assert (Hres : AvgTargetSpacing params height
     = (if product spacings mod exclude_sum spacings =? 0
        then Returned (product spacings / exclude_sum spacings)
        else AssertFailed)).
  { rewrite AvgTargetSpacing_AverageSpacing.
    now apply AverageSpacing_closed_form. }
  split; [| split; [exact HEpos | split; [exact Hres |]]].
  - rewrite accumulate_map. fold spacings.
    assert (Hmax : 1 <= Int64.MAX) by (unfold Int64.MAX; lia).
    rewrite (accumulate_checked spacings Hpos 1 0) by lia.
    rewrite !Z.mul_1_l, Z.mul_0_l, Z.add_0_l.
    apply Z.leb_le in HP, HE. now rewrite HP, HE.
  - intros r Hr. rewrite Hres in Hr.
    destruct (Z.eqb_spec (product spacings mod exclude_sum spacings) 0)
      as [Hmod | Hmod]; [| discriminate].
    injection Hr as <-.
    apply Z.div_exact in Hmod; [| lia].
    assert (Hexact : product spacings / exclude_sum spacings
                     * exclude_sum spacings = product spacings)
      by (rewrite Z.mul_comm; now symmetry).
    split; [exact Hexact |].
    now apply exact_quotient_harmonic.
Qed.

(** The spacings 120 and 40 satisfy the hypotheses; the result is 30. *)
Lemma AvgTargetSpacing_closed_form_witness :
  AvgTargetSpacing (fixed_spacings 120 40) 0 = Returned 30.
Proof.
  refine (proj1 (proj2 (proj2
    (AvgTargetSpacing_closed_form (fixed_spacings 120 40) 0 _ _ _)))).
  - repeat constructor.
  - vm_compute. discriminate.
  - vm_compute. discriminate.
Defined.

(** C1 as stated fails: the spacings 2 and 3 are positive integers, yet
    6 is not a multiple of 5 and the exact-division assertion aborts.  And
    with both spacings 2^32 the product 2^64 does not fit int64_t. *)
Lemma AvgTargetSpacing_inexact_counterexample :
  0 < GetTargetSpacing (rules (fixed_spacings 2 3)) SHA256D 0
  /\ 0 < GetTargetSpacing (rules (fixed_spacings 2 3)) NEOSCRYPT 0
  /\ accumulate (fun algo => GetTargetSpacing (rules (fixed_spacings 2 3)) algo 0)
       [SHA256D; NEOSCRYPT] (1, 0) = Returned (6, 5)
  /\ Z.rem 6 5 <> 0
  /\ AvgTargetSpacing (fixed_spacings 2 3) 0 = AssertFailed
  /\ AvgTargetSpacing (fixed_spacings 4294967296 4294967296) 0
     = UndefinedBehaviour.
Proof.
  repeat split; try reflexivity. discriminate.
Qed.

End Spacing.

(** ** One algorithm, two equal algorithms, reordering *)

Section SpacingCases.

Lemma product_single (s : Z) : product [s] = s.
Proof. unfold product; cbn [fold_right]. ring. Qed.

Lemma exclude_sum_single (s : Z) : exclude_sum [s] = 1.
Proof.
  rewrite exclude_sum_cons, exclude_sum_nil. unfold product; cbn [fold_right].
  ring.
Qed.

Lemma product_pair (a b : Z) : product [a; b] = a * b.
Proof. unfold product; cbn [fold_right]. ring. Qed.

Lemma exclude_sum_pair (a b : Z) : exclude_sum [a; b] = b + a.
Proof.
  rewrite exclude_sum_cons, exclude_sum_single, product_single. ring.
Qed.

(** C4: over the single-algorithm list [s], with s a positive int64_t value,
    the accumulation (denom = 0, numer = 1; denom *= s, denom += numer,
    numer *= s; return numer / denom) returns exactly s. *)
Theorem AverageSpacing_single (s : Z) :
  0 < s <= Int64.MAX -> AverageSpacing [s] = Returned s.
Proof.
  intros [Hpos Hmax].
  assert (1 <= Int64.MAX) by (unfold Int64.MAX; lia).
  rewrite AverageSpacing_closed_form.
  - rewrite product_single, exclude_sum_single, Z.mod_1_r, Z.div_1_r.
    reflexivity.
  - now constructor.
  - discriminate.
  - now rewrite product_single.
  - now rewrite exclude_sum_single.
Qed.

Lemma AverageSpacing_single_witness :
  AverageSpacing [150] = Returned 150.
Proof.
  apply (AverageSpacing_single 150). unfold Int64.MAX. lia.
Defined.

(** C3, as the code has it: when both algorithms have the positive spacing s
    and s * s fits int64_t, AvgTargetSpacing returns s / 2 if s is even and
    aborts on the exact-division assertion if s is odd. *)
Theorem AvgTargetSpacing_equal_spacings (params : Params) (height s : Z) :
  GetTargetSpacing (rules params) SHA256D height = s ->
  GetTargetSpacing (rules params) NEOSCRYPT height = s ->
  0 < s -> s * s <= Int64.MAX ->
  AvgTargetSpacing params height
  = if Z.even s then Returned (s / 2) else AssertFailed.
Proof.
  intros H1 H2 Hpos Hsq.
  rewrite AvgTargetSpacing_AverageSpacing. cbn [map]. rewrite H1, H2.
  assert (Hmax : 3 <= Int64.MAX) by (unfold Int64.MAX; lia).
  rewrite AverageSpacing_closed_form.
  - rewrite product_pair, exclude_sum_pair.
    replace (s + s) with (2 * s) by ring.
    rewrite Z.mul_mod_distr_r by lia.
    rewrite Z.div_mul_cancel_r by lia.
    rewrite Zmod_even.
    destruct (Z.even s); [reflexivity |].
    destruct (Z.eqb_spec (1 * s) 0); [lia | reflexivity].
  - repeat constructor; assumption.
  - discriminate.
  - now rewrite product_pair.
  - rewrite exclude_sum_pair. nia.
Qed.

(** The dual-algorithm configuration 150 / 150 yields 75. *)
Lemma AvgTargetSpacing_equal_spacings_witness :
  AvgTargetSpacing (fixed_spacings 150 150) 0 = Returned 75.
Proof.
  refine (AvgTargetSpacing_equal_spacings (fixed_spacings 150 150) 0 150 _ _ _ _).
  - reflexivity.
  - reflexivity.
  - lia.
  - unfold Int64.MAX. lia.
Defined.

(** C3 as stated fails for an odd spacing: with 3 and 3 the loop leaves
    numer = 9 and denom = 6, and 9 % 6 is 3, so the assertion aborts and no
    value is returned.  And with s = 2^32 the product s * s does not fit
    int64_t. *)
Lemma AvgTargetSpacing_odd_counterexample :
  accumulate (fun algo => GetTargetSpacing (rules (fixed_spacings 3 3)) algo 0)
    [SHA256D; NEOSCRYPT] (1, 0) = Returned (9, 6)
  /\ Z.rem 9 6 = 3
  /\ AvgTargetSpacing (fixed_spacings 3 3) 0 = AssertFailed
  /\ AvgTargetSpacing (fixed_spacings 4294967296 4294967296) 0
     = UndefinedBehaviour.
Proof. repeat split; reflexivity. Qed.

(** The outcome of the accumulation is a function of the closed form. *)
Lemma AverageSpacing_by_closed_form (l : list Z) :
  Forall (fun s => 0 < s) l ->
  AverageSpacing l
  = if (product l <=? Int64.MAX) && (exclude_sum l <=? Int64.MAX)
    then finish (product l, exclude_sum l) else UndefinedBehaviour.
Proof.
  intros Hl. unfold AverageSpacing.
  assert (Hmax : 1 <= Int64.MAX) by (unfold Int64.MAX; lia).
  rewrite (accumulate_checked l Hl 1 0) by lia.
  rewrite !Z.mul_1_l, Z.mul_0_l, Z.add_0_l.
  now destruct ((product l <=? Int64.MAX) && (exclude_sum l <=? Int64.MAX)).
Qed.

(** C5: on positive spacings the final outcome of the accumulation (the value
    returned, or the failed assertion, or the overflow) is the same for every
    reordering of the list. *)
Theorem AverageSpacing_permutation (l l' : list Z) :
  Forall (fun s => 0 < s) l -> Permutation l l' ->
  AverageSpacing l = AverageSpacing l'.
Proof.
  intros Hl Hperm.
  assert (Hl' : Forall (fun s => 0 < s) l')
    by (eapply Permutation_Forall; eassumption).
  rewrite !AverageSpacing_by_closed_form by assumption.
  now rewrite (product_perm _ _ Hperm), (exclude_sum_perm _ _ Hperm).
Qed.

(** The orders 120, 40 and 40, 120 pass through different intermediate
    states and end in the same result. *)
Lemma AverageSpacing_permutation_witness :
  accumulate (fun s => s) [120] (1, 0) <> accumulate (fun s => s) [40] (1, 0)
  /\ AverageSpacing [120; 40] = AverageSpacing [40; 120].
Proof.
  split; [discriminate |].
  apply (AverageSpacing_permutation [120; 40] [40; 120]).
  - repeat constructor.
  - apply perm_swap.
Defined.

End SpacingCases.

(** ** The genesis block *)

Section Genesis.

Context `{Collaborators}.

Lemma ComputeMerkleRoot_leaf (leaf : uint256) : ComputeMerkleRoot [leaf] = leaf.
Proof. reflexivity. Qed.

(** The returned block, field by field. *)
Lemma CreateGenesisBlock_scripts_shape
    (inputScript outputScript : CScript) (time nonce bits ver reward : Z) :
  let tx : CTransaction :=
    {| version := 1;
       vin := [ {| prevout := {| outpoint_hash := 0; outpoint_n := 4294967295 |};
                   scriptSig := inputScript; nSequence := 4294967295 |} ];
       vout := [ {| nValue := reward; scriptPubKey := outputScript |} ];
       nLockTime := 0 |} in
  let hdr : CPureBlockHeader :=
    {| nVersion := ver; hashPrevBlock := 0; hashMerkleRoot := TxGetHash tx;
       nTime := time; nBits := 0; nNonce := 0 |} in
  CreateGenesisBlock_scripts inputScript outputScript time nonce bits ver reward
  = {| header := hdr;
       pow := {| pow_algo := Some NEOSCRYPT; pow_bits := bits;
                 pow_fakeHeader :=
                   Some {| nVersion := 0; hashPrevBlock := 0;
                           hashMerkleRoot := HeaderGetHash hdr;
                           nTime := 0; nBits := 0; nNonce := nonce |} |};
       vtx := [tx] |}.
Proof.
  cbv zeta. unfold CreateGenesisBlock_scripts.
  cbv [on_header on_pow vtx_push_back set_nTime set_nBits set_nNonce
       set_nVersion set_hashPrevBlock set_hashMerkleRoot setCoreAlgo setBits
       setFakeHeader CBlock_default CPureBlockHeader_null PowData_default
       CTxIn_default MakeTransactionRef GetHash BlockMerkleRoot
       header pow vtx nVersion hashPrevBlock hashMerkleRoot nTime nBits nNonce
       pow_algo pow_bits pow_fakeHeader prevout nSequence app map].
  now rewrite ComputeMerkleRoot_leaf.
Qed.

(** C6: a block returned by CreateGenesisBlock (either overload) holds exactly
    one transaction, its hashPrevBlock is null, and its merkle root is the
    hash of that transaction, which is what BlockMerkleRoot gives on the
    returned block. *)
Theorem CreateGenesisBlock_one_transaction
    (time nonce bits : Z) (timestamp : string) (premineP2sh : uint160)
    (inputScript outputScript : CScript) (ver reward : Z) :
  (let block := CreateGenesisBlock time nonce bits timestamp premineP2sh in
   length (vtx block) = 1%nat
   /\ hashPrevBlock (header block) = 0
   /\ exists tx, vtx block = [tx]
        /\ hashMerkleRoot (header block) = TxGetHash tx
        /\ BlockMerkleRoot block = TxGetHash tx)
  /\
  (let block := CreateGenesisBlock_scripts inputScript outputScript
                  time nonce bits ver reward in
   length (vtx block) = 1%nat
   /\ hashPrevBlock (header block) = 0
   /\ exists tx, vtx block = [tx]
        /\ hashMerkleRoot (header block) = TxGetHash tx
        /\ BlockMerkleRoot block = TxGetHash tx).
Proof.
  assert (G : forall i o v r,
    let block := CreateGenesisBlock_scripts i o time nonce bits v r in
    length (vtx block) = 1%nat
    /\ hashPrevBlock (header block) = 0
    /\ exists tx, vtx block = [tx]
         /\ hashMerkleRoot (header block) = TxGetHash tx
         /\ BlockMerkleRoot block = TxGetHash tx).
  { intros i o v r block. subst block.
    rewrite CreateGenesisBlock_scripts_shape. cbn [vtx header hashPrevBlock
      hashMerkleRoot length].
    repeat split. eexists. split; [reflexivity |]. split; [reflexivity |].
    unfold BlockMerkleRoot. cbn [vtx map]. apply ComputeMerkleRoot_leaf. }
  split; [unfold CreateGenesisBlock |]; apply G.
Qed.

(** C9: the primary header of the returned block has nNonce = 0 and
    nBits = 0; the supplied nonce is in the fake header, whose hashMerkleRoot
    is the hash of the returned block; the supplied bits are in the pow data;
    and neither the header nor the transactions depend on the supplied nonce
    and bits. *)
Theorem CreateGenesisBlock_nonce_and_bits
    (time nonce bits : Z) (timestamp : string) (premineP2sh : uint160) :
  let block := CreateGenesisBlock time nonce bits timestamp premineP2sh in
  nNonce (header block) = 0
  /\ nBits (header block) = 0
  /\ pow_bits (pow block) = bits
  /\ pow_algo (pow block) = Some NEOSCRYPT
  /\ (exists fakeHeader,
        pow_fakeHeader (pow block) = Some fakeHeader
        /\ nNonce fakeHeader = nonce
        /\ hashMerkleRoot fakeHeader = GetHash block)
  /\ (forall nonce' bits',
        let block' :=
          CreateGenesisBlock time nonce' bits' timestamp premineP2sh in
        header block' = header block /\ vtx block' = vtx block).
Proof.
  intros block. subst block. unfold CreateGenesisBlock.
  rewrite CreateGenesisBlock_scripts_shape.
  cbn [header pow nNonce nBits pow_bits pow_algo pow_fakeHeader].
  split; [reflexivity |]. split; [reflexivity |].
  split; [reflexivity |]. split; [reflexivity |]. split.
  - eexists. split; [reflexivity |]. split; reflexivity.
  - intros nonce' bits'.
    rewrite CreateGenesisBlock_scripts_shape. split; reflexivity.
Qed.

(** The hash and the merkle root of the block depend on the time, the
    timestamp text and the premine hash only. *)
Lemma CreateGenesisBlock_hash_inputs
    (time nonce bits nonce' bits' : Z) (timestamp : string)
    (premineP2sh : uint160) :
  GetHash (CreateGenesisBlock time nonce bits timestamp premineP2sh)
  = GetHash (CreateGenesisBlock time nonce' bits' timestamp premineP2sh).
Proof.
  unfold GetHash, CreateGenesisBlock.
  now rewrite !CreateGenesisBlock_scripts_shape.
Qed.

(** C7: two calls of CreateGenesisBlock with identical inputs return blocks
    with the same block hash and the same merkle root. *)
Theorem CreateGenesisBlock_deterministic
    (time1 nonce1 bits1 : Z) (timestamp1 : string) (premine1 : uint160)
    (time2 nonce2 bits2 : Z) (timestamp2 : string) (premine2 : uint160) :
  time1 = time2 -> nonce1 = nonce2 -> bits1 = bits2 ->
  timestamp1 = timestamp2 -> premine1 = premine2 ->
  GetHash (CreateGenesisBlock time1 nonce1 bits1 timestamp1 premine1)
  = GetHash (CreateGenesisBlock time2 nonce2 bits2 timestamp2 premine2)
  /\ hashMerkleRoot
       (header (CreateGenesisBlock time1 nonce1 bits1 timestamp1 premine1))
     = hashMerkleRoot
         (header (CreateGenesisBlock time2 nonce2 bits2 timestamp2 premine2)).
Proof.
  intros -> -> -> -> ->. split; reflexivity.
Qed.

End Genesis.

Lemma CreateGenesisBlock_deterministic_witness :
  GetHash (H := DoubleSHA256)
    (CreateGenesisBlock 1531470713 482087 0x1e0ffff0 Kernel.pszTimestampMainnet
       (uint160S hexPremineAddressMainnet))
  = GetHash (H := DoubleSHA256)
      (CreateGenesisBlock 1531470713 482087 0x1e0ffff0
         Kernel.pszTimestampMainnet (uint160S hexPremineAddressMainnet))
  /\ hashMerkleRoot (header (CreateGenesisBlock (H := DoubleSHA256)
       1531470713 482087 0x1e0ffff0 Kernel.pszTimestampMainnet
       (uint160S hexPremineAddressMainnet)))
     = hashMerkleRoot (header (CreateGenesisBlock (H := DoubleSHA256)
         1531470713 482087 0x1e0ffff0 Kernel.pszTimestampMainnet
         (uint160S hexPremineAddressMainnet))).
Proof.
  apply (CreateGenesisBlock_deterministic (H := DoubleSHA256)); reflexivity.
Defined.

(** ** The genesis assertions of the constructors *)

Section GenesisAssertions.

Context `{Collaborators}.

Lemma checked_genesis_returns (chain : ChainType) (magic : MessageStartChars)
    (port : Z) (block : CBlock) (expectedHash expectedMerkleRoot : string) :
  GetHash block = uint256S expectedHash ->
  hashMerkleRoot (header block) = uint256S expectedMerkleRoot ->
  checked_genesis chain magic port block expectedHash expectedMerkleRoot
  = Returned {| m_chain_type := chain; pchMessageStart := magic;
                nDefaultPort := port; genesis := block;
                hashGenesisBlock := uint256S expectedHash |}.
Proof.
  intros Hhash Hroot. unfold checked_genesis, assert.
  rewrite Hhash, Hroot, !Z.eqb_refl. reflexivity.
Qed.

(** A mismatch of the hash or of the merkle root ends the constructor in the
    failed assertion; no parameter set is returned. *)
Lemma checked_genesis_aborts (chain : ChainType) (magic : MessageStartChars)
    (port : Z) (block : CBlock) (expectedHash expectedMerkleRoot : string) :
  GetHash block <> uint256S expectedHash
  \/ hashMerkleRoot (header block) <> uint256S expectedMerkleRoot ->
  checked_genesis chain magic port block expectedHash expectedMerkleRoot
  = AssertFailed.
Proof.
  intros Hne. unfold checked_genesis, assert.
  destruct (Z.eqb_spec (GetHash block) (uint256S expectedHash)) as [Hh | _];
    [| reflexivity].
  cbn [bind].
  destruct (Z.eqb_spec (hashMerkleRoot (header block))
              (uint256S expectedMerkleRoot)) as [Hm | _]; [| reflexivity].
  destruct Hne; contradiction.
Qed.

(** What a constructor returns passed both assertions. *)
Lemma checked_genesis_inv (chain : ChainType) (magic : MessageStartChars)
    (port : Z) (block : CBlock) (expectedHash expectedMerkleRoot : string)
    (params : CChainParams) :
  checked_genesis chain magic port block expectedHash expectedMerkleRoot
  = Returned params ->
  m_chain_type params = chain /\ pchMessageStart params = magic
  /\ genesis params = block
  /\ hashGenesisBlock params = uint256S expectedHash
  /\ hashMerkleRoot (header (genesis params)) = uint256S expectedMerkleRoot.
Proof.
  unfold checked_genesis, assert.
  destruct (Z.eqb_spec (GetHash block) (uint256S expectedHash)) as [Hh | _];
    [| discriminate].
  cbn [bind].
  destruct (Z.eqb_spec (hashMerkleRoot (header block))
              (uint256S expectedMerkleRoot)) as [Hm | _]; [| discriminate].
  cbn [bind]. intros [= <-]. cbn. auto.
Qed.

End GenesisAssertions.

(** ** The mainnet genesis block under double SHA-256 *)

Section MainnetGenesis.

(** FIPS 180-4, appendix B.1: the digest of the three bytes "abc". *)
Example sha256_abc :
  SHA256.sha256 (list_byte_of_string "abc")
  = ParseHex "ba7816bf 8f01cfea 414140de 5dae2223 b00361a3 96177a9c b410ff61 f20015ad".
Proof. vm_compute. reflexivity. Qed.

(** C2: with mainnet's literal parameters of kernel/chainparams.cpp
    (timestamp 1531470713, nonce 482087, bits 0x1e0ffff0, the mainnet
    timestamp text and premine hash) CreateGenesisBlock returns a block whose
    hash and merkle root are the two constants CMainParams asserts, so the
    constructor returns; and under any hash functions for which one of the
    two differs, the constructor ends in the failed assertion. *)
Theorem mainnet_genesis_matches_constants :
  let block := CreateGenesisBlock (H := DoubleSHA256) 1531470713 482087
                 0x1e0ffff0 Kernel.pszTimestampMainnet
                 (uint160S hexPremineAddressMainnet) in
  GetHash (H := DoubleSHA256) block
  = uint256S "e5062d76e5f50c42f493826ac9920b63a8def2626fd70a5cec707ec47a4c4651"
  /\ hashMerkleRoot (header block)
     = uint256S "0827901b75ab43978c3cf20a78baf040faeb0e2eeff3a2c58ab6521a6d46f8fd"
  /\ (exists params,
        Kernel.CMainParams (H := DoubleSHA256) = Returned params
        /\ genesis params = block
        /\ hashGenesisBlock params = GetHash (H := DoubleSHA256) block)
  /\ (forall other : Collaborators,
        GetHash (H := other) (Kernel.mainnetGenesis (H := other))
        <> uint256S "e5062d76e5f50c42f493826ac9920b63a8def2626fd70a5cec707ec47a4c4651"
        \/ hashMerkleRoot (header (Kernel.mainnetGenesis (H := other)))
           <> uint256S "0827901b75ab43978c3cf20a78baf040faeb0e2eeff3a2c58ab6521a6d46f8fd" ->
        Kernel.CMainParams (H := other) = AssertFailed).
Proof.
  intros block.
  assert (Hhash : GetHash (H := DoubleSHA256) block
    = uint256S "e5062d76e5f50c42f493826ac9920b63a8def2626fd70a5cec707ec47a4c4651")
    by (vm_compute; reflexivity).
  assert (Hroot : hashMerkleRoot (header block)
    = uint256S "0827901b75ab43978c3cf20a78baf040faeb0e2eeff3a2c58ab6521a6d46f8fd")
    by (vm_compute; reflexivity).
  split; [exact Hhash |]. split; [exact Hroot |]. split.
  - eexists. split.
    + unfold Kernel.CMainParams.
      apply (checked_genesis_returns (H := DoubleSHA256)); assumption.
    + cbn [genesis hashGenesisBlock]. split; [reflexivity |].
      symmetry. exact Hhash.
  - intros other Hne. unfold Kernel.CMainParams.
    now apply checked_genesis_aborts.
Qed.

(** The mainnet constructor of chainparams.cpp has other literals (time
    1644842296, nonce 1060746 and its own timestamp text) and asserts other
    constants; they agree as well. *)
Lemma legacy_mainnet_genesis_matches_constants :
  exists params,
    Legacy.CMainParams (H := DoubleSHA256) = Returned params
    /\ hashGenesisBlock params
       = uint256S "9d6f82b53bfede0326360cbaba23304b665e0723e3a26cf893f516e636cca77e"
    /\ hashMerkleRoot (header (genesis params))
       = uint256S "3ce4aea0ffd7ba7459b77620fda2a5231e203239bf83281879d82f7a179f44b5".
Proof.
  eexists. split.
  - unfold Legacy.CMainParams.
    apply (checked_genesis_returns (H := DoubleSHA256)); vm_compute; reflexivity.
  - cbn [genesis hashGenesisBlock]. split; [reflexivity |].
    vm_compute; reflexivity.
Qed.

(** Hash functions that return zero everywhere fail the assertions. *)
Example zero_hash_aborts :
  Kernel.CMainParams
    (H := {| TxGetHash := fun _ => 0; HeaderGetHash := fun _ => 0;
             MerkleInner := fun _ _ => 0; WriterGetHash := fun _ => 0 |})
  = AssertFailed.
Proof. vm_compute. reflexivity. Qed.

End MainnetGenesis.

(** ** The nonce search of MineGenesisBlock *)

Section NonceSearch.

Variable check : Z -> bool.

(** One turn of the while loop. *)
Lemma search_step (nonce : Z) (events : list Event) :
  search check nonce events
  = if check nonce then (Found nonce, events ++ [Checked nonce])
    else if Z_lt_dec nonce UINT32_MAX
         then search check (increment nonce)
                (events ++ [Checked nonce]
                   ++ (if increment nonce mod 1000 =? 0
                       then [Progress (increment nonce)] else []))
         else (NonceAssertFailed, events ++ [Checked nonce]).
Proof.
  rewrite search_equation_1. destruct (check nonce).
  - now rewrite search_clause_1_equation_1.
  - rewrite search_clause_1_equation_2.
    destruct (Z_lt_dec nonce UINT32_MAX).
    + now rewrite search_clause_1_clause_2_equation_1.
    + now rewrite search_clause_1_clause_2_equation_2.
Qed.

(** The assertion lets an increment through only below the maximum, where it
    does not wrap. *)
Lemma increment_below_max (nonce : Z) :
  0 <= nonce < UINT32_MAX ->
  increment nonce = nonce + 1 /\ 0 < increment nonce <= UINT32_MAX.
Proof.
  unfold increment, UINT32_MAX. intros Hr.
  rewrite Z.mod_small by lia. lia.
Qed.

(** Induction along the loop: towards the largest nonce. *)
Lemma nonce_induction (P : Z -> Prop) :
  (forall nonce,
     (nonce < UINT32_MAX -> P (increment nonce)) -> P nonce) ->
  forall nonce, P nonce.
Proof.
  intros Hstep nonce.
  remember (UINT32_MAX - nonce) as dist eqn:Hdist.
  revert nonce Hdist.
  induction dist as [dist IH] using (well_founded_induction (Z.lt_wf 0)).
  intros nonce ->. apply Hstep. intros Hlt.
  apply (IH (UINT32_MAX - increment nonce)); [| reflexivity].
  now apply increment_decreases.
Qed.

(** What was observed before the search stays in front. *)
Lemma search_events (nonce : Z) (events : list Event) :
  search check nonce events
  = (fst (search check nonce []), events ++ snd (search check nonce [])).
Proof.
  revert events. pattern nonce. apply nonce_induction. clear nonce.
  intros nonce IH events.
  rewrite (search_step nonce events), (search_step nonce []).
  destruct (check nonce); [reflexivity |].
  destruct (Z_lt_dec nonce UINT32_MAX) as [Hlt | Hge]; [| reflexivity].
  specialize (IH Hlt).
  rewrite (IH (events ++ _)), (IH ([] ++ _)). cbn [fst snd app].
  now rewrite <- !app_assoc.
Qed.

Lemma run_from_cons (first : Z) (count : nat) :
  run_from first (S count) = first :: run_from (first + 1) count.
Proof.
  unfold run_from. cbn [seq map]. f_equal; [lia |].
  rewrite <- seq_shift, map_map. apply map_ext. intros i. lia.
Qed.

Lemma run_from_one (first : Z) : run_from first 1 = [first].
Proof. unfold run_from. cbn [seq map]. now rewrite Z.add_0_r. Qed.

Lemma run_from_bounds (first : Z) (count : nat) (n : Z) :
  In n (run_from first count) <-> first <= n < first + Z.of_nat count.
Proof.
  unfold run_from. rewrite in_map_iff. split.
  - intros (i & <- & Hi). apply in_seq in Hi. lia.
  - intros Hn. exists (Z.to_nat (n - first)). split; [lia |].
    apply in_seq. lia.
Qed.

(** The search from a nonce in range, in full: it calls checkProofOfWork on
    [count + 1] consecutive nonces, none above the maximum, all but the last
    failing, and ends at the last one, found or with the assertion failed at
    the maximum. *)
Lemma search_run (nonce : Z) :
  0 <= nonce <= UINT32_MAX ->
  exists count : nat,
    checked_nonces (snd (search check nonce [])) = run_from nonce (S count)
    /\ nonce + Z.of_nat count <= UINT32_MAX
    /\ (forall k, nonce <= k < nonce + Z.of_nat count -> check k = false)
    /\ match fst (search check nonce []) with
       | Found n => n = nonce + Z.of_nat count /\ check n = true
       | NonceAssertFailed =>
           nonce + Z.of_nat count = UINT32_MAX /\ check UINT32_MAX = false
       end.
Proof.
  pattern nonce. apply nonce_induction. clear nonce.
  intros nonce IH Hrange. rewrite (search_step nonce []).
  destruct (check nonce) eqn:Hcheck.
  - exists 0%nat. cbn [fst snd]. split; [| split; [| split]].
    + now rewrite run_from_one.
    + lia.
    + intros k Hk. lia.
    + split; [lia | assumption].
  - destruct (Z_lt_dec nonce UINT32_MAX) as [Hlt | Hge].
    + destruct (increment_below_max nonce ltac:(lia)) as [Hinc Hbound].
      destruct (IH Hlt ltac:(lia)) as (count & Hrun & Hmax & Hfail & Hend).
      rewrite search_events. cbn [fst snd].
      exists (S count). rewrite Hinc in *. split; [| split; [| split]].
      * rewrite run_from_cons, <- Hrun. unfold checked_nonces.
        rewrite !flat_map_app. cbn [flat_map app].
        now destruct ((nonce + 1) mod 1000 =? 0).
      * lia.
      * intros k Hk. destruct (Z.eq_dec k nonce) as [-> | Hne];
          [assumption | apply Hfail; lia].
      * destruct (fst (search check (nonce + 1) [])) as [found |];
          (split; [lia | tauto]).
    + assert (nonce = UINT32_MAX) as -> by lia.
      exists 0%nat. cbn [fst snd]. split; [| split; [| split]].
      * now rewrite run_from_one.
      * lia.
      * intros k Hk. lia.
      * split; [lia | assumption].
Qed.

End NonceSearch.

Section Mining.

Context `{Collaborators} `{MiningCollaborators}.

Lemma run_from_length (first : Z) (count : nat) :
  length (run_from first count) = count.
Proof. unfold run_from. now rewrite length_map, length_seq. Qed.

Lemma run_from_last (first : Z) (count : nat) (default : Z) :
  last (run_from first (S count)) default = first + Z.of_nat count.
Proof.
  revert first. induction count as [|count IH]; intros first.
  - rewrite run_from_one. cbn. lia.
  - rewrite run_from_cons.
    change (last (first :: run_from (first + 1) (S count)) default)
      with (last (run_from (first + 1) (S count)) default).
    + rewrite IH. lia.
Qed.

(** C8: in MineGenesisBlock, from a fake header whose nonce is a uint32_t
    value, the nonces that checkProofOfWork sees are consecutive, none above
    the maximum; every increment is made below the maximum and does not wrap;
    the process ends in the failed assertion exactly when no nonce from the
    first one through the maximum passes the check, and then the nonce stands
    at the maximum; otherwise it exits with a nonce that passes. *)
Theorem MineGenesisBlock_nonce_never_wraps (block : CBlock) (consensus : Params) :
  let mined := on_header (set_nTime GetTime) block in
  let fakeHeader := initFakeHeader mined in
  let start := nNonce fakeHeader in
  let check := fun nonce =>
    checkProofOfWork (pow (with_nonce mined fakeHeader nonce))
      (set_nNonce nonce fakeHeader) consensus in
  let ending := MineGenesisBlock block consensus in
  let tested := checked_nonces (mine_events ending) in
  0 <= start <= UINT32_MAX ->
  tested = run_from start (length tested)
  /\ Forall (fun n => start <= n <= UINT32_MAX) tested
  /\ (forall n, In n tested -> n <> last tested start ->
        n < UINT32_MAX /\ increment n = n + 1 /\ In (increment n) tested)
  /\ ((exists events, ending = Aborted events)
      <-> forall k, start <= k <= UINT32_MAX -> check k = false)
  /\ (forall events, ending = Aborted events ->
        last tested start = UINT32_MAX)
  /\ (forall mined_block events, ending = Exited mined_block events ->
        exists n, mined_block = with_nonce mined fakeHeader n
          /\ last tested start = n /\ check n = true
          /\ forall k, start <= k < n -> check k = false).
Proof.
  intros mined fakeHeader start check ending tested Hstart.
  destruct (search_run check start Hstart)
    as (count & Hrun & Hmax & Hfail & Hend).
  assert (Hevents : checked_nonces (mine_events ending)
                    = checked_nonces (snd (search check start []))).
  { subst ending. unfold MineGenesisBlock. fold mined fakeHeader start check.
    rewrite (search_events check start [Started]).
    destruct (fst (search check start [])) as [found |];
      cbn [mine_events]; unfold checked_nonces;
      rewrite ?flat_map_app; cbn [flat_map app]; now rewrite ?app_nil_r. }
  assert (Htested : tested = run_from start (S count)).
  { subst tested. now rewrite Hevents. }
  assert (Hlast : last tested start = start + Z.of_nat count)
    by (rewrite Htested; apply run_from_last).
  assert (Hending : exists events,
    ending = match fst (search check start []) with
             | Found n => Exited (with_nonce mined fakeHeader n) events
             | NonceAssertFailed => Aborted events
             end).
  { subst ending. unfold MineGenesisBlock. fold mined fakeHeader start check.
    rewrite (search_events check start [Started]).
    destruct (fst (search check start [])) as [found |];
      eexists; reflexivity. }
  destruct Hending as [observed Hending].
  split; [| split; [| split; [| split; [| split]]]].
  - now rewrite Htested, run_from_length.
  - rewrite Htested. apply Forall_forall. intros n Hn.
    apply run_from_bounds in Hn. lia.
  - intros n Hn Hne. rewrite Htested in Hn |- *.
    apply run_from_bounds in Hn.
    destruct (increment_below_max n ltac:(lia)) as [Hinc Hbound].
    split; [lia |]. split; [assumption |].
    apply run_from_bounds. lia.
  - rewrite Hending. split.
    + intros [events Heq] k Hk.
      destruct (fst (search check start [])) as [found |];
        [discriminate |].
      destruct Hend as [Hat Hcheck].
      destruct (Z.eq_dec k UINT32_MAX) as [-> | Hne];
        [assumption | apply Hfail; lia].
    + intros Hall.
      destruct (fst (search check start [])) as [found |];
        [| eexists; reflexivity].
      destruct Hend as [-> Hcheck]. rewrite Hall in Hcheck by lia.
      discriminate.
  - rewrite Hending. intros events Heq.
    destruct (fst (search check start [])) as [found |]; [discriminate |].
    destruct Hend as [Hat _]. lia.
  - rewrite Hending. intros mined_block events Heq.
    destruct (fst (search check start [])) as [found |]; [| discriminate].
    injection Heq as <- _. destruct Hend as [-> Hcheck].
    exists (start + Z.of_nat count). repeat split; try assumption.
Qed.

End Mining.

(** The search on small inputs: found at nonce 2 from nonce 0, and the
    assertion failing at the largest nonce. *)
Example search_finds_2 :
  search (fun nonce => nonce =? 2) 0 []
  = (Found 2, [Checked 0; Checked 1; Checked 2]).
Proof.
  rewrite search_step. cbn -[search].
  rewrite search_step. cbn -[search].
  rewrite search_step. reflexivity.
Qed.

Example search_exhausted_at_max :
  search (fun _ => false) 4294967294 []
  = (NonceAssertFailed, [Checked 4294967294; Checked 4294967295]).
Proof.
  rewrite search_step. cbn -[search].
  rewrite search_step. reflexivity.
Qed.

Lemma MineGenesisBlock_nonce_never_wraps_witness :
  let ending :=
    MineGenesisBlock (H := DoubleSHA256) (H0 := example_miner 3)
      (Kernel.mainnetGenesis (H := DoubleSHA256)) (fixed_spacings 150 150) in
  checked_nonces (mine_events ending)
  = run_from 0 (length (checked_nonces (mine_events ending)))
  /\ ~ (exists events, ending = Aborted events).
Proof.
  intros ending.
  destruct (MineGenesisBlock_nonce_never_wraps
              (H := DoubleSHA256) (H0 := example_miner 3)
              (Kernel.mainnetGenesis (H := DoubleSHA256))
              (fixed_spacings 150 150))
    as (Hrun & _ & _ & Habort & _).
  - cbn. unfold UINT32_MAX. lia.
  - split; [exact Hrun |].
    intros Hex.
    pose proof (proj1 Habort Hex 3 ltac:(cbn; unfold UINT32_MAX; lia)) as Hc.
    discriminate Hc.
Defined.

(** ** GetNetworkForMagic *)

Section NetworkForMagic.

Context `{Collaborators}.

Lemma ranges_equal_spec (x y : MessageStartChars) :
  ranges_equal x y = true <-> x = y.
Proof.
  destruct x as [x0 x1 x2 x3], y as [y0 y1 y2 y3]. unfold ranges_equal.
  cbn [msg0 msg1 msg2 msg3]. rewrite !andb_true_iff. split.
  - intros [[[H0 H1] H2] H3].
    apply Byte.byte_dec_bl in H0, H1, H2, H3. now subst.
  - intros [= -> -> -> ->]. now rewrite !Byte.byte_dec_lb.
Qed.

Lemma ranges_equal_false (x y : MessageStartChars) :
  ranges_equal x y = false <-> x <> y.
Proof.
  rewrite <- ranges_equal_spec. now destruct (ranges_equal x y).
Qed.

(** [find] returns the first element that passes the test. *)
Lemma find_first {A : Type} (test : A -> bool) (l : list A) (x : A) :
  find test l = Some x ->
  test x = true
  /\ exists before after,
       l = before ++ x :: after /\ forall y, In y before -> test y = false.
Proof.
  induction l as [|a l IH]; cbn [find]; [discriminate |].
  destruct (test a) eqn:Ha.
  - intros [= <-]. split; [assumption |].
    exists [], l. split; [reflexivity | intros y []].
  - intros Hfind. destruct (IH Hfind) as (Hx & before & after & -> & Hb).
    split; [assumption |]. exists (a :: before), after.
    split; [reflexivity |]. intros y [<- | Hy]; auto.
Qed.

(** The chain of comparisons is a search for the first match in the order
    of [Kernel.magic_order]. *)
Lemma GetNetworkForMagic_find (message : MessageStartChars)
    (magic : ChainType -> MessageStartChars) :
  (forall chain, Kernel.magic_of chain = Returned (magic chain)) ->
  Kernel.GetNetworkForMagic message
  = Returned (find (fun chain => ranges_equal message (magic chain))
                Kernel.magic_order).
Proof.
  intros Hmagic.
  assert (Hp : forall chain, exists params,
             Kernel.params_of chain = Returned params
             /\ MessageStart params = magic chain).
  { intros chain. specialize (Hmagic chain). unfold Kernel.magic_of in Hmagic.
    destruct (Kernel.params_of chain) as [params | |]; try discriminate.
    exists params. split; [reflexivity |]. now injection Hmagic. }
  destruct (Hp MAIN) as (mainnet & Hmain & Mmain).
  destruct (Hp TESTNET) as (testnet & Htest & Mtest).
  destruct (Hp TESTNET4) as (testnet4 & Htest4 & Mtest4).
  destruct (Hp REGTEST) as (regtest & Hreg & Mreg).
  destruct (Hp SIGNET) as (signet & Hsig & Msig).
  cbn [Kernel.params_of] in Hmain, Htest, Htest4, Hreg, Hsig.
  unfold Kernel.GetNetworkForMagic.
  rewrite Hmain, Htest, Htest4, Hreg, Hsig. cbn [bind].
  rewrite Mmain, Mtest, Mtest4, Mreg, Msig.
  unfold Kernel.magic_order. cbn [find].
  repeat match goal with
         | |- context [ranges_equal ?x ?y] => destruct (ranges_equal x y)
         end; reflexivity.
Qed.

(** C10: when the five parameter sets construct, GetNetworkForMagic returns;
    a chain type it returns has the given bytes as its message start and is
    the first such in the order mainnet, testnet, testnet4, regtest, signet;
    and it returns no value exactly when the bytes are the message start of
    none of the five. *)
Theorem GetNetworkForMagic_first_match (message : MessageStartChars) :
  (forall chain, exists params, Kernel.params_of chain = Returned params) ->
  Kernel.magic_order = [MAIN; TESTNET; TESTNET4; REGTEST; SIGNET]
  /\ exists result,
       Kernel.GetNetworkForMagic message = Returned result
       /\ (forall chain, result = Some chain ->
             Kernel.magic_of chain = Returned message
             /\ exists before after,
                  Kernel.magic_order = before ++ chain :: after
                  /\ forall c, In c before ->
                       Kernel.magic_of c <> Returned message)
       /\ (result = None
           <-> forall chain, Kernel.magic_of chain <> Returned message).
Proof.
  intros Hall. split; [reflexivity |].
  assert (Hmagic : exists magic : ChainType -> MessageStartChars,
             forall chain, Kernel.magic_of chain = Returned (magic chain)).
  { destruct (Hall MAIN) as [mainnet Hmain].
    destruct (Hall TESTNET) as [testnet Htest].
    destruct (Hall TESTNET4) as [testnet4 Htest4].
    destruct (Hall REGTEST) as [regtest Hreg].
    destruct (Hall SIGNET) as [signet Hsig].
    exists (fun chain => MessageStart match chain with
                                     | MAIN => mainnet
                                     | TESTNET => testnet
                                     | TESTNET4 => testnet4
                                     | REGTEST => regtest
                                     | SIGNET => signet
                                     end).
    intros []; unfold Kernel.magic_of;
      [rewrite Hmain | rewrite Htest | rewrite Hsig | rewrite Hreg
       | rewrite Htest4]; reflexivity. }
  destruct Hmagic as [magic Hmagic].
  eexists. split; [apply (GetNetworkForMagic_find message magic Hmagic) |].
  split.
  - intros chain Hfind. apply find_first in Hfind.
    destruct Hfind as (Heq & before & after & Horder & Hbefore).
    apply ranges_equal_spec in Heq. split.
    + rewrite Hmagic. now subst.
    + exists before, after. split; [assumption |].
      intros c Hc. specialize (Hbefore c Hc).
      apply ranges_equal_false in Hbefore. rewrite Hmagic. congruence.
  - split.
    + intros Hnone chain. rewrite Hmagic.
      pose proof (find_none _ _ Hnone chain) as Hc. cbv beta in Hc.
      rewrite ranges_equal_false in Hc.
      assert (In chain Kernel.magic_order)
        by (destruct chain; cbn; tauto).
      intros [= Heq]. now apply Hc.
    + intros Hnone.
      destruct (find _ Kernel.magic_order) as [chain |] eqn:Hfind;
        [| reflexivity].
      apply find_first in Hfind. destruct Hfind as [Heq _].
      apply ranges_equal_spec in Heq.
      exfalso. apply (Hnone chain). rewrite Hmagic. now subst.
Qed.

End NetworkForMagic.

(** ** The five networks under double SHA-256 *)

Section Networks.

(** All five constructors of kernel/chainparams.cpp pass their genesis
    assertions. *)
Lemma all_networks_construct (chain : ChainType) :
  exists params, Kernel.params_of (H := DoubleSHA256) chain = Returned params.
Proof.
  destruct chain; eexists; cbn [Kernel.params_of];
    unfold Kernel.Main, Kernel.TestNet, Kernel.TestNet4, Kernel.RegTest,
      Kernel.SigNet, Kernel.CMainParams, Kernel.CTestNetParams,
      Kernel.CTestNet4Params, Kernel.CRegTestParams, Kernel.SigNetParams;
    apply (checked_genesis_returns (H := DoubleSHA256));
    vm_compute; reflexivity.
Qed.

(** The five message starts; the one of signet comes out of the hash of the
    default challenge. *)
Lemma network_magic (chain : ChainType) :
  Kernel.magic_of (H := DoubleSHA256) chain = Returned (magic_table chain).
Proof. destruct chain; vm_compute; reflexivity. Qed.

Lemma GetNetworkForMagic_first_match_witness :
  exists result,
    Kernel.GetNetworkForMagic (H := DoubleSHA256)
      {| msg0 := xcc; msg1 := xbf; msg2 := xb5; msg3 := xda |}
    = Returned result
    /\ (result = None
        <-> forall chain,
              Kernel.magic_of (H := DoubleSHA256) chain
              <> Returned {| msg0 := xcc; msg1 := xbf; msg2 := xb5;
                             msg3 := xda |}).
Proof.
  destruct (GetNetworkForMagic_first_match (H := DoubleSHA256)
              {| msg0 := xcc; msg1 := xbf; msg2 := xb5; msg3 := xda |}
              all_networks_construct)
    as (_ & result & Hreturned & _ & Hnone).
  exists result. split; assumption.
Defined.

(** The five message starts differ, so the chain type returned is the one
    whose message start was given. *)
Lemma GetNetworkForMagic_table (message : MessageStartChars) (chain : ChainType) :
  Kernel.GetNetworkForMagic (H := DoubleSHA256) message = Returned (Some chain)
  <-> message = magic_table chain.
Proof.
  rewrite (GetNetworkForMagic_find (H := DoubleSHA256) message magic_table
             network_magic).
  split.
  - intros Hreturned.
    assert (Hfind : find (fun c => ranges_equal message (magic_table c))
                      Kernel.magic_order = Some chain) by congruence.
    apply find_first in Hfind. now apply ranges_equal_spec.
  - intros ->. now destruct chain.
Qed.

End Networks.

(** ** Overflow, bounds and zero spacings of AvgTargetSpacing *)

Section SpacingBounds.

(** X1: for positive spacings a (SHA256D) and b (NEOSCRYPT), AvgTargetSpacing
    runs into signed overflow exactly when a * b or a + b exceeds
    INT64_MAX; no intermediate value of the loop overflows when these two
    final values fit. *)
Theorem AvgTargetSpacing_overflow (params : Params) (height : Z) :
  let a := GetTargetSpacing (rules params) SHA256D height in
  let b := GetTargetSpacing (rules params) NEOSCRYPT height in
  0 < a -> 0 < b ->
  (AvgTargetSpacing params height = UndefinedBehaviour
   <-> Int64.MAX < a * b \/ Int64.MAX < a + b).
Proof.
  intros a b Ha Hb.
  rewrite AvgTargetSpacing_AverageSpacing. cbn [map]. fold a b.
  rewrite AverageSpacing_by_closed_form by (repeat constructor; assumption).
  rewrite product_pair, exclude_sum_pair.
  destruct (Z.leb_spec (a * b) Int64.MAX) as [HP | HP];
    destruct (Z.leb_spec (b + a) Int64.MAX) as [HE | HE]; cbn [andb];
    try (split; [intros _; lia | reflexivity]).
  assert (0 <= a * b) by (apply Z.mul_nonneg_nonneg; lia).
  rewrite finish_exact by lia.
  split; [| lia].
  destruct (a * b mod (b + a) =? 0); discriminate.
Qed.

(** The spacings 1 and INT64_MAX overflow in the sum, 3037000500 twice in
    the product. *)
Lemma AvgTargetSpacing_overflow_witness :
  AvgTargetSpacing (fixed_spacings 1 Int64.MAX) 0 = UndefinedBehaviour
  /\ AvgTargetSpacing (fixed_spacings 3037000500 3037000500) 0
     = UndefinedBehaviour.
Proof.
  split.
  - apply (proj2 (AvgTargetSpacing_overflow (fixed_spacings 1 Int64.MAX) 0
                    ltac:(reflexivity) ltac:(reflexivity))).
    right. reflexivity.
  - apply (proj2 (AvgTargetSpacing_overflow
                    (fixed_spacings 3037000500 3037000500) 0
                    ltac:(reflexivity) ltac:(reflexivity))).
    left. reflexivity.
Defined.

(** X2: a value r that AvgTargetSpacing returns for positive spacings a and
    b is positive, strictly below both spacings, and 2 * r lies between the
    smaller and the larger spacing. *)
Theorem AvgTargetSpacing_between (params : Params) (height r : Z) :
  let a := GetTargetSpacing (rules params) SHA256D height in
  let b := GetTargetSpacing (rules params) NEOSCRYPT height in
  0 < a -> 0 < b ->
  AvgTargetSpacing params height = Returned r ->
  0 < r /\ r < a /\ r < b /\ Z.min a b <= 2 * r <= Z.max a b.
Proof.
  intros a b Ha Hb.
  rewrite AvgTargetSpacing_AverageSpacing. cbn [map]. fold a b.
  rewrite AverageSpacing_by_closed_form by (repeat constructor; assumption).
  rewrite product_pair, exclude_sum_pair.
  destruct (Z.leb_spec (a * b) Int64.MAX) as [HP | HP];
    destruct (Z.leb_spec (b + a) Int64.MAX) as [HE | HE]; cbn [andb];
    try discriminate.
  assert (0 <= a * b) by (apply Z.mul_nonneg_nonneg; lia).
  rewrite finish_exact by lia.
  destruct (Z.eqb_spec (a * b mod (b + a)) 0) as [Hmod | Hmod];
    [| discriminate].
  intros [= <-].
  apply Z.div_exact in Hmod; [| lia].
  set (q := a * b / (b + a)) in *.
  assert (Hq : 0 < q) by nia.
  assert (q < a) by nia.
  assert (q < b) by nia.
  repeat split; try assumption.
  - apply (Z.mul_le_mono_pos_l _ _ (b + a)); [lia |].
    destruct (Z.min_spec a b) as [[? ->] | [? ->]]; nia.
  - apply (Z.mul_le_mono_pos_l _ _ (b + a)); [lia |].
    destruct (Z.max_spec a b) as [[? ->] | [? ->]]; nia.
Qed.

(** The spacings 120 and 40 give 30. *)
Lemma AvgTargetSpacing_between_witness :
  0 < 30 /\ 30 < 120 /\ 30 < 40 /\ Z.min 120 40 <= 2 * 30 <= Z.max 120 40.
Proof.
  apply (AvgTargetSpacing_between (fixed_spacings 120 40) 0 30);
    reflexivity.
Defined.

(** X3: with non-negative spacings one of which is zero, AvgTargetSpacing
    returns 0 when the other spacing is positive, and fails the assertion
    denom > 0 when both are zero; a single zero spacing is not caught by the
    assertions. *)
Theorem AvgTargetSpacing_zero_spacing (params : Params) (height : Z) :
  let a := GetTargetSpacing (rules params) SHA256D height in
  let b := GetTargetSpacing (rules params) NEOSCRYPT height in
  0 <= a <= Int64.MAX -> 0 <= b <= Int64.MAX -> a = 0 \/ b = 0 ->
  AvgTargetSpacing params height
  = if 0 <? a + b then Returned 0 else AssertFailed.
Proof.
  intros a b Ha Hb Hzero.
  assert (Hmin : Int64.MIN < 0) by reflexivity.
  assert (Hmax : 1 <= Int64.MAX) by (unfold Int64.MAX; lia).
  unfold AvgTargetSpacing. cbn [accumulate]. fold a b.
  unfold spacing_step, Int64.mul, Int64.add.
  rewrite (checked_in_range (0 * a)) by lia. cbn [bind].
  rewrite (checked_in_range (0 * a + 1)) by lia. cbn [bind].
  rewrite (checked_in_range (1 * a)) by lia. cbn [bind].
  rewrite (checked_in_range ((0 * a + 1) * b)) by lia. cbn [bind].
  rewrite (checked_in_range ((0 * a + 1) * b + 1 * a)) by lia. cbn [bind].
  assert (Hprod : 1 * a * b = 0) by (destruct Hzero as [-> | ->]; ring).
  rewrite Hprod. rewrite (checked_in_range 0) by lia. cbn [bind].
  replace ((0 * a + 1) * b + 1 * a) with (a + b) by ring.
  unfold finish, assert. rewrite Z.gtb_ltb.
  destruct (Z.ltb_spec 0 (a + b)) as [Hpos | Hnpos]; [| reflexivity].
  cbn [bind]. unfold Int64.rem, Int64.div.
  destruct (Z.eqb_spec (a + b) 0) as [? | _]; [lia |].
  rewrite Z.rem_0_l by lia. cbn [bind]. rewrite Z.quot_0_l by lia.
  reflexivity.
Qed.

(** The spacings 0 and 150 give 0; 0 and 0 abort. *)
Lemma AvgTargetSpacing_zero_spacing_witness :
  AvgTargetSpacing (fixed_spacings 0 150) 0 = Returned 0
  /\ AvgTargetSpacing (fixed_spacings 0 0) 0 = AssertFailed.
Proof.
  split.
  - apply (AvgTargetSpacing_zero_spacing (fixed_spacings 0 150) 0);
      cbn; unfold Int64.MAX; lia.
  - apply (AvgTargetSpacing_zero_spacing (fixed_spacings 0 0) 0);
      cbn; unfold Int64.MAX; lia.
Defined.

End SpacingBounds.

(** ** Any number of algorithms *)

Section SpacingOfMany.

(** Every spacing is a factor of the product whose cofactor is one of the
    summands of the exclude-one sum. *)
Lemma exclude_sum_cofactor (l : list Z) (s : Z) :
  Forall (fun s => 0 < s) l -> In s l ->
  exists p, 0 < p /\ product l = s * p /\ p <= exclude_sum l.
Proof.
  induction 1 as [|x l Hx Hl IH]; intros Hin; [destruct Hin |].
  pose proof (product_pos l Hl) as HP.
  pose proof (exclude_sum_nonneg l Hl) as HE.
  rewrite product_cons, exclude_sum_cons.
  destruct Hin as [-> | Hin].
  - exists (product l). repeat split; [assumption | nia].
  - destruct (IH Hin) as (p & Hp & Heq & Hle).
    exists (x * p). rewrite Heq. repeat split; [nia | ring | nia].
Qed.

(** X4: the loop of AvgTargetSpacing run over any non-empty list of positive
    spacings whose product and exclude-one sum fit int64_t leaves numer =
    the product and denom = the exclude-one sum; the result is their exact
    quotient or the failed exact-division assertion; a returned value is the
    reciprocal of the sum of the rates 1 / s_i, is positive and is at most
    every spacing of the list. *)
Theorem AverageSpacing_of_many (l : list Z) :
  Forall (fun s => 0 < s) l -> l <> [] ->
  product l <= Int64.MAX -> exclude_sum l <= Int64.MAX ->
  accumulate (fun s => s) l (1, 0) = Returned (product l, exclude_sum l)
  /\ AverageSpacing l
     = (if product l mod exclude_sum l =? 0
        then Returned (product l / exclude_sum l) else AssertFailed)
  /\ forall r, AverageSpacing l = Returned r ->
       (inject_Z r == 1 / rate_sum l)%Q
       /\ 0 < r /\ forall s, In s l -> r <= s.
Proof.
  intros Hl Hne HP HE.
  pose proof (product_pos l Hl) as HPpos.
  pose proof (exclude_sum_pos l Hl Hne) as HEpos.
  assert (Hres : AverageSpacing l
     = (if product l mod exclude_sum l =? 0
        then Returned (product l / exclude_sum l) else AssertFailed))
    by now apply AverageSpacing_closed_form.
  split; [| split; [exact Hres |]].
  - assert (Hmax : 1 <= Int64.MAX) by (unfold Int64.MAX; lia).
    rewrite (accumulate_checked l Hl 1 0) by lia.
    rewrite !Z.mul_1_l, Z.mul_0_l, Z.add_0_l.
    apply Z.leb_le in HP, HE. now rewrite HP, HE.
  - intros r Hr. rewrite Hres in Hr.
    destruct (Z.eqb_spec (product l mod exclude_sum l) 0) as [Hmod | Hmod];
      [| discriminate].
    injection Hr as <-.
    apply Z.div_exact in Hmod; [| lia].
    set (r := product l / exclude_sum l) in *.
    split; [| split].
    + apply exact_quotient_harmonic; try assumption. lia.
    + nia.
    + intros s Hs.
      destruct (exclude_sum_cofactor l s Hl Hs) as (p & Hp & Heq & Hle).
      assert (0 < s) by (rewrite Forall_forall in Hl; now apply Hl).
      apply (Z.mul_le_mono_pos_r _ _ p); [assumption |].
      rewrite <- Heq, Hmod. nia.
Qed.

(** Three algorithms with the spacings 20, 30 and 60 give 10. *)
Lemma AverageSpacing_of_many_witness :
  AverageSpacing [20; 30; 60] = Returned 10.
Proof.
  refine (proj1 (proj2 (AverageSpacing_of_many [20; 30; 60] _ _ _ _))).
  - repeat constructor.
  - discriminate.
  - vm_compute. discriminate.
  - vm_compute. discriminate.
Defined.

End SpacingOfMany.

(** ** The premine script *)

Section ByteOrder.

Lemma Z_of_byte_range (b : byte) : 0 <= Z_of_byte b < 256.
Proof. destruct b; cbv; split; congruence. Qed.

Lemma byte_of_Z_of_byte (b : byte) : byte_of_Z (Z_of_byte b) = b.
Proof. now destruct b. Qed.

Lemma le_bytes_length (n : nat) (z : Z) : length (le_bytes n z) = n.
Proof.
  revert z. induction n as [|n IH]; intros z; cbn [le_bytes length];
    [reflexivity | now rewrite IH].
Qed.

(** The bytes of the number a byte sequence stands for are that sequence. *)
Lemma le_bytes_le_value (bs : list byte) :
  le_bytes (length bs) (le_value bs) = bs.
Proof.
  induction bs as [|b bs IH]; [reflexivity |].
  cbn [length le_bytes le_value].
  pose proof (Z_of_byte_range b) as Hb.
  f_equal.
  - unfold byte_of_Z.
    replace ((Z_of_byte b + 256 * le_value bs) mod 256) with (Z_of_byte b).
    + unfold Z_of_byte. rewrite N2Z.id, Byte.of_to_N. reflexivity.
    + symmetry.
      rewrite (Z.mul_comm 256), Z.mod_add by lia.
      now apply Z.mod_small.
  - replace ((Z_of_byte b + 256 * le_value bs) / 256) with (le_value bs);
      [exact IH |].
    symmetry.
    rewrite (Z.mul_comm 256), Z.div_add by lia.
    rewrite (Z.div_small (Z_of_byte b)) by lia. lia.
Qed.

Lemma be_bytes_be_value (bs : list byte) :
  be_bytes (length bs) (be_value bs) = bs.
Proof.
  unfold be_bytes, be_value. rewrite <- (length_rev bs), le_bytes_le_value.
  apply rev_involutive.
Qed.

End ByteOrder.

Section PremineScript.

Context `{Collaborators}.

(** A push of fewer than 76 bytes is the length byte and the bytes. *)
Lemma push_data_short (script : CScript) (b : list byte) :
  (length b < 76)%nat ->
  push_data script b = script ++ [byte_of_Z (Z.of_nat (length b))] ++ b.
Proof.
  intros Hlen. unfold push_data.
  change (Z_of_byte OP_PUSHDATA1) with 76.
  destruct (Z.ltb_spec (Z.of_nat (length b)) 76); [reflexivity | lia].
Qed.

(** X5: for a premine hash given by 40 hexadecimal digits, the block of
    CreateGenesisBlock holds one transaction with one output, of
    222,222,222 coins, whose script is the 23 bytes OP_HASH160, the push of
    20 bytes, the bytes of the hash in the order the hexadecimal digits are
    written, OP_EQUAL: the byte reversal in CreateGenesisBlock undoes the
    byte order of uint160S. *)
Theorem CreateGenesisBlock_premine_script
    (time nonce bits : Z) (timestamp hex : string) :
  length (ParseHex hex) = 20%nat ->
  exists tx txout,
    vtx (CreateGenesisBlock time nonce bits timestamp (uint160S hex)) = [tx]
    /\ vout tx = [txout]
    /\ nValue txout = 22222222200000000
    /\ scriptPubKey txout = [OP_HASH160; x14] ++ ParseHex hex ++ [OP_EQUAL]
    /\ length (scriptPubKey txout) = 23%nat.
Proof.
  intros Hlen. unfold CreateGenesisBlock.
  rewrite CreateGenesisBlock_scripts_shape. cbn [vtx].
  eexists. eexists. split; [reflexivity |]. cbn [vout].
  split; [reflexivity |]. cbn [nValue scriptPubKey].
  split; [reflexivity |].
  assert (Hscript : rev (uint160_bytes (uint160S hex)) = ParseHex hex).
  { unfold uint160_bytes, uint160S. rewrite <- Hlen.
    apply be_bytes_be_value. }
  rewrite Hscript, push_data_short by (rewrite Hlen; lia).
  unfold push_opcode. rewrite Hlen.
  change (byte_of_Z (Z.of_nat 20)) with x14.
  split.
  - reflexivity.
  - rewrite !length_app, Hlen. reflexivity.
Qed.

End PremineScript.

(** The mainnet block of chainparams.cpp pays to the script of
    hexPremineAddressMainnet. *)
Lemma CreateGenesisBlock_premine_script_witness :
  exists tx txout,
    vtx (CreateGenesisBlock (H := DoubleSHA256) 1644842296 1060746 0x1e0ffff0
           Legacy.pszTimestampMainnet (uint160S hexPremineAddressMainnet))
    = [tx]
    /\ vout tx = [txout]
    /\ nValue txout = 22222222200000000
    /\ scriptPubKey txout
       = [OP_HASH160; x14] ++ ParseHex hexPremineAddressMainnet ++ [OP_EQUAL]
    /\ length (scriptPubKey txout) = 23%nat.
Proof.
  apply (CreateGenesisBlock_premine_script (H := DoubleSHA256)).
  reflexivity.
Defined.

(** ** What MineGenesisBlock prints and what it changes *)

Section ProgressLines.

Variable check : Z -> bool.

Lemma search_progress (nonce : Z) :
  0 <= nonce <= UINT32_MAX ->
  progress_nonces (snd (search check nonce []))
  = filter (fun n => n mod 1000 =? 0)
      (tl (checked_nonces (snd (search check nonce [])))).
Proof.
  pattern nonce. apply nonce_induction. clear nonce.
  intros nonce IH Hrange. rewrite (search_step check nonce []).
  destruct (check nonce); [reflexivity |].
  destruct (Z_lt_dec nonce UINT32_MAX) as [Hlt | Hge]; [| reflexivity].
  destruct (increment_below_max nonce ltac:(lia)) as [Hinc Hbound].
  specialize (IH Hlt ltac:(lia)).
  destruct (search_run check (increment nonce) ltac:(lia))
    as (count & Hrun & _).
  rewrite search_events. cbn [fst snd app].
  unfold progress_nonces, checked_nonces in *.
  cbn [flat_map app tl]. rewrite !flat_map_app.
  rewrite Hrun in IH |- *. rewrite run_from_cons in IH |- *.
  cbn [tl filter] in IH. rewrite IH.
  destruct (increment nonce mod 1000 =? 0) eqn:Hmod; cbn [flat_map app filter];
    rewrite Hmod; reflexivity.
Qed.

(** A search that finds a nonce ends with the passing check of that nonce. *)
Lemma search_found_last (nonce found : Z) (observed : list Event) :
  search check nonce [] = (Found found, observed) ->
  exists before, observed = before ++ [Checked found].
Proof.
  revert observed. pattern nonce. apply nonce_induction. clear nonce.
  intros nonce IH observed. rewrite (search_step check nonce []).
  destruct (check nonce).
  - intros [= <- <-]. now exists [].
  - destruct (Z_lt_dec nonce UINT32_MAX) as [Hlt | Hge]; [| discriminate].
    rewrite search_events.
    destruct (search check (increment nonce) []) as [ending rest] eqn:Hrest.
    cbn [fst snd]. intros [= -> <-].
    destruct (IH Hlt rest eq_refl) as [before ->].
    exists ((Checked nonce
             :: (if increment nonce mod 1000 =? 0
                 then [Progress (increment nonce)] else [])) ++ before).
    now rewrite <- !app_assoc.
Qed.

End ProgressLines.

Section MiningReport.

Context `{Collaborators} `{MiningCollaborators}.

(** X6: in MineGenesisBlock, from a fake header whose nonce is a uint32_t
    value, the progress lines written are exactly the nonces divisible by
    1000 among those checked after the first one, in the order checked. *)
Theorem MineGenesisBlock_progress_lines (block : CBlock) (consensus : Params) :
  let mined := on_header (set_nTime GetTime) block in
  let start := nNonce (initFakeHeader mined) in
  let events := mine_events (MineGenesisBlock block consensus) in
  0 <= start <= UINT32_MAX ->
  progress_nonces events
  = filter (fun n => n mod 1000 =? 0) (tl (checked_nonces events)).
Proof.
  intros mined start events Hstart. subst events.
  unfold MineGenesisBlock. fold mined. fold start.
  set (check := fun nonce : Z => checkProofOfWork _ _ consensus).
  pose proof (search_progress check start Hstart) as Hprogress.
  rewrite (search_events check start [Started]).
  destruct (fst (search check start [])) as [found |];
    cbn [mine_events]; unfold progress_nonces, checked_nonces in *;
    rewrite ?flat_map_app; cbn [flat_map app]; rewrite ?app_nil_r;
    exact Hprogress.
Qed.

(** X7: when MineGenesisBlock exits, the block differs from the one given
    in nTime, which is the clock's time, and in the nonce of the fake header
    only: the transactions, the merkle root, the pow algorithm and the pow
    bits are as given; the output starts with the opening line and ends with
    the passing check of the found nonce and the four lines that report that
    nonce, the new time, the hash of the header at the new time and the
    merkle root as given. *)
Theorem MineGenesisBlock_exit_report (block mined_block : CBlock)
    (consensus : Params) (events : list Event) :
  MineGenesisBlock block consensus = Exited mined_block events ->
  header mined_block = set_nTime GetTime (header block)
  /\ vtx mined_block = vtx block
  /\ pow_algo (pow mined_block) = pow_algo (pow block)
  /\ pow_bits (pow mined_block) = pow_bits (pow block)
  /\ exists nonce before,
       pow_fakeHeader (pow mined_block)
       = Some (set_nNonce nonce
                 (initFakeHeader (on_header (set_nTime GetTime) block)))
       /\ events
          = Started :: before
            ++ [Checked nonce; FoundNonce nonce; PrintedTime GetTime;
                PrintedBlockHash
                  (HeaderGetHash (set_nTime GetTime (header block)));
                PrintedMerkleRoot (hashMerkleRoot (header block))].
Proof.
  unfold MineGenesisBlock.
  set (mined := on_header (set_nTime GetTime) block).
  set (fakeHeader := initFakeHeader mined).
  set (check := fun nonce : Z => checkProofOfWork _ _ consensus).
  rewrite (search_events check (nNonce fakeHeader) [Started]).
  destruct (search check (nNonce fakeHeader) []) as [ending observed] eqn:Hs.
  cbn [fst snd]. destruct ending as [found |]; [| discriminate].
  intros [= <- <-].
  destruct (search_found_last check _ _ _ Hs) as [before ->].
  split; [reflexivity |]. split; [reflexivity |].
  split; [reflexivity |]. split; [reflexivity |].
  exists found, before. split; [reflexivity |].
  cbn [app]. rewrite <- app_assoc. reflexivity.
Qed.

End MiningReport.

Lemma MineGenesisBlock_progress_lines_witness :
  let events :=
    mine_events (MineGenesisBlock (H := DoubleSHA256) (H0 := example_miner 3)
      (Kernel.mainnetGenesis (H := DoubleSHA256)) (fixed_spacings 150 150)) in
  progress_nonces events
  = filter (fun n => n mod 1000 =? 0) (tl (checked_nonces events)).
Proof.
  apply (MineGenesisBlock_progress_lines (H := DoubleSHA256)
           (H0 := example_miner 3)).
  cbn. unfold UINT32_MAX. lia.
Defined.

(** With a check that passes at once, the block is given back at the new
    time. *)
Lemma MineGenesisBlock_exit_report_witness :
  exists mined_block events,
    MineGenesisBlock
      (H := {| TxGetHash := fun _ => 0; HeaderGetHash := fun _ => 0;
               MerkleInner := fun _ _ => 0; WriterGetHash := fun _ => 0 |})
      (H0 := example_miner
               (H := {| TxGetHash := fun _ => 0; HeaderGetHash := fun _ => 0;
                        MerkleInner := fun _ _ => 0;
                        WriterGetHash := fun _ => 0 |}) 0)
      CBlock_default (fixed_spacings 150 150)
    = Exited mined_block events
    /\ header mined_block = set_nTime 1531470713 (header CBlock_default)
    /\ vtx mined_block = [].
Proof.
  destruct (MineGenesisBlock _ _) as [mined_block events | events] eqn:Hrun.
  - exists mined_block, events. split; [reflexivity |].
    destruct (MineGenesisBlock_exit_report _ _ _ _ Hrun) as (Hh & Hv & _).
    split; [exact Hh | exact Hv].
  - exfalso. unfold MineGenesisBlock in Hrun.
    rewrite search_step in Hrun. cbn -[search] in Hrun. discriminate Hrun.
Defined.

(** ** The message starts of kernel/chainparams.cpp under double SHA-256 *)

Section MagicRoundTrip.

(** Each constructor returns the parameter set of its own chain type, with
    the message start of the table. *)
Lemma network_params (chain : ChainType) :
  exists params,
    Kernel.params_of (H := DoubleSHA256) chain = Returned params
    /\ m_chain_type params = chain
    /\ MessageStart params = magic_table chain.
Proof.
  destruct chain; eexists;
    (split;
     [ cbn [Kernel.params_of];
       unfold Kernel.Main, Kernel.TestNet, Kernel.TestNet4, Kernel.RegTest,
         Kernel.SigNet, Kernel.CMainParams, Kernel.CTestNetParams,
         Kernel.CTestNet4Params, Kernel.CRegTestParams, Kernel.SigNetParams;
       apply (checked_genesis_returns (H := DoubleSHA256));
       vm_compute; reflexivity
     | split; [reflexivity | vm_compute; reflexivity] ]).
Qed.

(** X8: under double SHA-256 over the wire format, GetNetworkForMagic
    inverts MessageStart: each of the five constructors returns the
    parameter set of its own chain type, and GetNetworkForMagic on that set's
    message start returns that chain type; GetNetworkForMagic returns on
    every four bytes, and it returns a chain type exactly for that chain
    type's message start (cc be b4 fe, cc bf b5 fe, 1c 16 3f 28, cc bf b5 da
    and, for signet, 0a 03 cf 40), so no two networks share a message
    start. *)
Theorem GetNetworkForMagic_inverts_MessageStart :
  (forall chain, exists params,
     Kernel.params_of (H := DoubleSHA256) chain = Returned params
     /\ m_chain_type params = chain
     /\ Kernel.GetNetworkForMagic (H := DoubleSHA256) (MessageStart params)
        = Returned (Some chain))
  /\ (forall message, exists result,
        Kernel.GetNetworkForMagic (H := DoubleSHA256) message = Returned result
        /\ forall chain, result = Some chain <-> message = magic_table chain).
Proof.
  split.
  - intros chain.
    destruct (network_params chain) as (params & Hp & Htype & Hmagic).
    exists params. split; [exact Hp |]. split; [exact Htype |].
    rewrite Hmagic.
    rewrite (GetNetworkForMagic_find (H := DoubleSHA256) _ magic_table
               network_magic).
    clear. destruct chain; reflexivity.
  - intros message. eexists. split.
    + apply (GetNetworkForMagic_find (H := DoubleSHA256) message magic_table
               network_magic).
    + intros chain. split.
      * intros Hfind. apply find_first in Hfind.
        apply ranges_equal_spec. exact (proj1 Hfind).
      * intros ->. destruct chain; reflexivity.
Qed.

End MagicRoundTrip.

(** ** The regtest activation parameters *)

Section ActivationFrame.

Lemma static_cast_int_small (z : Z) :
  -2147483648 <= z <= INT_MAX -> static_cast_int z = z.
Proof.
  unfold static_cast_int, INT_MAX. intros Hz.
  rewrite Z.mod_small by lia. lia.
Qed.

Lemma deployment_set_same (d : DeploymentPos) (x : BIP9Deployment)
    (v : DeploymentArray) :
  deployment (set_deployment d x v) d = x.
Proof. now destruct d. Qed.

Lemma deployment_set_other (d d' : DeploymentPos) (x : BIP9Deployment)
    (v : DeploymentArray) :
  d <> d' -> deployment (set_deployment d x v) d' = deployment v d'.
Proof. intros Hne. destruct d, d'; try reflexivity; congruence. Qed.

Lemma DeploymentPos_eqb_spec (x y : DeploymentPos) :
  DeploymentPos_eqb x y = true <-> x = y.
Proof. destruct x, y; cbn; split; congruence. Qed.

Lemma BuriedDeployment_eqb_spec (x y : BuriedDeployment) :
  BuriedDeployment_eqb x y = true <-> x = y.
Proof. destruct x, y; cbn; split; congruence. Qed.

End ActivationFrame.

(** ** The regtest options of kernel/chainparams.cpp *)

Section LastEntry.

Variables (K V : Type) (eqb : K -> K -> bool).
Hypothesis eqb_spec : forall x y, eqb x y = true <-> x = y.

(** With distinct keys, the entry found for a key does not depend on the
    order of the entries. *)
Lemma find_key_perm (l l' : list (K * V)) (k : K) :
  Permutation l l' -> NoDup (map fst l) ->
  find (fun e => eqb (fst e) k) l = find (fun e => eqb (fst e) k) l'.
Proof.
  induction 1 as [| x l l' Hp IH | x y l | l l' l'' Hp1 IH1 Hp2 IH2];
    intros Hnd.
  - reflexivity.
  - cbn [find]. destruct (eqb (fst x) k); [reflexivity |].
    apply IH. now inversion Hnd.
  - cbn [find].
    destruct (eqb (fst y) k) eqn:Hy, (eqb (fst x) k) eqn:Hx; try reflexivity.
    apply eqb_spec in Hx, Hy. cbn [map] in Hnd.
    inversion Hnd as [|? ? Hnotin _]; subst.
    exfalso. apply Hnotin. left. congruence.
  - rewrite IH1 by assumption. apply IH2.
    eapply Permutation_NoDup; [| exact Hnd]. now apply Permutation_map.
Qed.

Lemma find_key_rev (l : list (K * V)) (k : K) :
  NoDup (map fst l) ->
  find (fun e => eqb (fst e) k) (rev l) = find (fun e => eqb (fst e) k) l.
Proof.
  intros Hnd. symmetry. apply find_key_perm; [apply Permutation_rev | exact Hnd].
Qed.

End LastEntry.

Section KernelRegTestOptions.

Import KernelRegTest.

Lemma height_of_step (c : Activation) (dep dep' : BuriedDeployment) (h : Z) :
  height_of (activation_height_step c (dep', h)) dep
  = if BuriedDeployment_eqb dep' dep then h else height_of c dep.
Proof. destruct dep, dep'; reflexivity. Qed.

Lemma vDeployments_height_step (c : Activation) (e : BuriedDeployment * Z) :
  vDeployments (activation_height_step c e) = vDeployments c.
Proof. destruct e as [[] h]; reflexivity. Qed.

Lemma height_of_version_bits_step (c : Activation)
    (e : DeploymentPos * VersionBitsParameters) (dep : BuriedDeployment) :
  height_of (version_bits_step c e) dep = height_of c dep.
Proof. destruct e as [d p], dep; reflexivity. Qed.

Lemma deployment_version_bits_step (c : Activation) (d d' : DeploymentPos)
    (p : VersionBitsParameters) :
  deployment (vDeployments (version_bits_step c (d', p))) d
  = if DeploymentPos_eqb d' d
    then {| bit := bit (deployment (vDeployments c) d);
            nStartTime := start_time p;
            nTimeout := timeout p;
            min_activation_height := vb_min_activation_height p |}
    else deployment (vDeployments c) d.
Proof. destruct d, d'; reflexivity. Qed.

Lemma bit_version_bits (l : list (DeploymentPos * VersionBitsParameters))
    (c : Activation) (d : DeploymentPos) :
  bit (deployment (vDeployments (fold_left version_bits_step l c)) d)
  = bit (deployment (vDeployments c) d).
Proof.
  revert c. induction l as [|[d' p] l IH]; intros c; [reflexivity |].
  cbn [fold_left]. rewrite IH, deployment_version_bits_step.
  now destruct (DeploymentPos_eqb d' d).
Qed.

(** The loops, entry by entry from the last one back. *)
Lemma heights_fold (l : list (BuriedDeployment * Z)) (c : Activation)
    (dep : BuriedDeployment) :
  height_of (fold_left activation_height_step l c) dep
  = match find (fun e => BuriedDeployment_eqb (fst e) dep) (rev l) with
    | Some e => snd e
    | None => height_of c dep
    end.
Proof.
  revert c. induction l as [|[dep' h] l IH] using rev_ind; intros c;
    [reflexivity |].
  rewrite fold_left_app, rev_app_distr. cbn [fold_left rev app find fst].
  rewrite height_of_step.
  destruct (BuriedDeployment_eqb dep' dep); [reflexivity | apply IH].
Qed.

Lemma version_bits_fold (l : list (DeploymentPos * VersionBitsParameters))
    (c : Activation) (d : DeploymentPos) :
  deployment (vDeployments (fold_left version_bits_step l c)) d
  = match find (fun e => DeploymentPos_eqb (fst e) d) (rev l) with
    | Some e => {| bit := bit (deployment (vDeployments c) d);
                   nStartTime := start_time (snd e);
                   nTimeout := timeout (snd e);
                   min_activation_height := vb_min_activation_height (snd e) |}
    | None => deployment (vDeployments c) d
    end.
Proof.
  revert c. induction l as [|[d' p] l IH] using rev_ind; intros c;
    [reflexivity |].
  rewrite fold_left_app, rev_app_distr. cbn [fold_left rev app find fst snd].
  rewrite deployment_version_bits_step.
  destruct (DeploymentPos_eqb d' d); [| apply IH].
  now rewrite bit_version_bits.
Qed.

Lemma heights_version_bits_fold
    (l : list (DeploymentPos * VersionBitsParameters)) (c : Activation)
    (dep : BuriedDeployment) :
  height_of (fold_left version_bits_step l c) dep = height_of c dep.
Proof.
  revert c. induction l as [|e l IH]; intros c; [reflexivity |].
  cbn [fold_left]. now rewrite IH, height_of_version_bits_step.
Qed.

Lemma vDeployments_heights_fold (l : list (BuriedDeployment * Z))
    (c : Activation) :
  vDeployments (fold_left activation_height_step l c) = vDeployments c.
Proof.
  revert c. induction l as [|e l IH]; intros c; [reflexivity |].
  cbn [fold_left]. now rewrite IH, vDeployments_height_step.
Qed.

(** Two sets of activation parameters with the same six heights and the
    same deployments are the same. *)
Lemma Activation_ext (c c' : Activation) :
  (forall dep, height_of c dep = height_of c' dep) ->
  (forall d, deployment (vDeployments c) d = deployment (vDeployments c') d) ->
  c = c'.
Proof.
  intros Hh Hd.
  pose proof (Hh DEPLOYMENT_P2SH). pose proof (Hh DEPLOYMENT_SEGWIT).
  pose proof (Hh DEPLOYMENT_HEIGHTINCB). pose proof (Hh DEPLOYMENT_DERSIG).
  pose proof (Hh DEPLOYMENT_CLTV). pose proof (Hh DEPLOYMENT_CSV).
  pose proof (Hd DEPLOYMENT_TESTDUMMY). pose proof (Hd DEPLOYMENT_TAPROOT).
  destruct c as [? ? ? ? ? ? []], c' as [? ? ? ? ? ? []].
  cbn in *. congruence.
Qed.

(** The consensus members, entry by entry from the last one back. *)
Lemma consensus_of_entries (opts : RegTestOptions) :
  (forall dep,
     height_of (consensus_of opts) dep
     = match find (fun e => BuriedDeployment_eqb (fst e) dep)
               (rev (activation_heights opts)) with
       | Some e => snd e
       | None => height_of defaults dep
       end)
  /\ (forall d,
        deployment (vDeployments (consensus_of opts)) d
        = match find (fun e => DeploymentPos_eqb (fst e) d)
                  (rev (version_bits_parameters opts)) with
          | Some e =>
              {| bit := bit (deployment (vDeployments defaults) d);
                 nStartTime := start_time (snd e);
                 nTimeout := timeout (snd e);
                 min_activation_height := vb_min_activation_height (snd e) |}
          | None => deployment (vDeployments defaults) d
          end).
Proof.
  unfold consensus_of. split.
  - intros dep. rewrite heights_version_bits_fold. apply heights_fold.
  - intros d. rewrite version_bits_fold, vDeployments_heights_fold.
    reflexivity.
Qed.

Context `{Collaborators}.

(** What a returned parameter set holds. *)
Lemma CRegTestParams_returned (opts : RegTestOptions) (params : RegTestParams) :
  CRegTestParams opts = Returned params ->
  consensus params = consensus_of opts
  /\ nPruneAfterHeight params = (if fastprune opts then 100 else 1000)
  /\ Kernel.CRegTestParams {| Kernel.fastprune := fastprune opts |}
     = Returned (chain_params params).
Proof.
  unfold CRegTestParams.
  destruct (Kernel.CRegTestParams _) as [p | |]; try discriminate.
  cbn [bind]. intros [= <-]. cbn. auto.
Qed.

(** X9: a parameter set that the regtest constructor of
    kernel/chainparams.cpp returns has, for every buried deployment, the
    height of the last entry of opts.activation_heights for it, or the
    constructor's default (0 for P2SH and segwit, 1 for the others) when
    there is none; for every version-bits deployment the start time, timeout
    and minimum activation height of the last entry of
    opts.version_bits_parameters for it, or the defaults, with the bit
    never changed; nPruneAfterHeight 100 with fastprune and 1000 without;
    and the chain type REGTEST. *)
Theorem CRegTestParams_last_entry (opts : RegTestOptions)
    (params : RegTestParams) :
  CRegTestParams opts = Returned params ->
  (forall dep,
     height_of (consensus params) dep
     = match find (fun e => BuriedDeployment_eqb (fst e) dep)
               (rev (activation_heights opts)) with
       | Some e => snd e
       | None => height_of defaults dep
       end)
  /\ (forall d,
        deployment (vDeployments (consensus params)) d
        = match find (fun e => DeploymentPos_eqb (fst e) d)
                  (rev (version_bits_parameters opts)) with
          | Some e =>
              {| bit := bit (deployment (vDeployments defaults) d);
                 nStartTime := start_time (snd e);
                 nTimeout := timeout (snd e);
                 min_activation_height := vb_min_activation_height (snd e) |}
          | None => deployment (vDeployments defaults) d
          end)
  /\ nPruneAfterHeight params = (if fastprune opts then 100 else 1000)
  /\ m_chain_type (chain_params params) = REGTEST.
Proof.
  intros Hret. apply CRegTestParams_returned in Hret.
  destruct Hret as (-> & Hprune & Hchain).
  destruct (consensus_of_entries opts) as [Hh Hd].
  split; [exact Hh |]. split; [exact Hd |]. split; [exact Hprune |].
  unfold Kernel.CRegTestParams in Hchain.
  apply checked_genesis_inv in Hchain. exact (proj1 Hchain).
Qed.

(** X10: when no two entries of the options have the same key, as in a
    map, the outcome of the regtest constructor of kernel/chainparams.cpp
    does not depend on the order in which the two loops visit the
    entries. *)
Theorem CRegTestParams_entry_order (opts opts' : RegTestOptions) :
  NoDup (map fst (activation_heights opts)) ->
  NoDup (map fst (version_bits_parameters opts)) ->
  Permutation (activation_heights opts) (activation_heights opts') ->
  Permutation (version_bits_parameters opts) (version_bits_parameters opts') ->
  fastprune opts = fastprune opts' ->
  CRegTestParams opts = CRegTestParams opts'.
Proof.
  intros Hnd1 Hnd2 Hp1 Hp2 Hfast.
  assert (Hnd1' : NoDup (map fst (activation_heights opts')))
    by (eapply Permutation_NoDup; [apply Permutation_map |]; eassumption).
  assert (Hnd2' : NoDup (map fst (version_bits_parameters opts')))
    by (eapply Permutation_NoDup; [apply Permutation_map |]; eassumption).
  assert (Hc : consensus_of opts = consensus_of opts').
  { destruct (consensus_of_entries opts) as [Hh Hd].
    destruct (consensus_of_entries opts') as [Hh' Hd'].
    apply Activation_ext.
    - intros dep. rewrite Hh, Hh'.
      rewrite !(find_key_rev _ _ _ BuriedDeployment_eqb_spec) by assumption.
      now rewrite (find_key_perm _ _ _ BuriedDeployment_eqb_spec _ _ dep Hp1).
    - intros d. rewrite Hd, Hd'.
      rewrite !(find_key_rev _ _ _ DeploymentPos_eqb_spec) by assumption.
      now rewrite (find_key_perm _ _ _ DeploymentPos_eqb_spec _ _ d Hp2). }
  unfold CRegTestParams. now rewrite Hc, Hfast.
Qed.

End KernelRegTestOptions.

Section LegacyArguments.

Context `{ArgumentCollaborators}.

Import LegacyRegTest.

(** One value of -vbparams that the loop body gets through: its fields. *)
Lemma vbparams_step_normal (consensus consensus' : Activation)
    (log log' : list LogLine) (strDeployment : string) :
  vbparams_step consensus log strDeployment = (Normal consensus', log') ->
  exists name start timeout rest d s t m,
    boost_split ":" strDeployment = name :: start :: timeout :: rest
    /\ ParseInt64 start = Some s /\ ParseInt64 timeout = Some t
    /\ find_deployment name = Some d
    /\ (rest = [] /\ m = 0
        \/ exists min_height, rest = [min_height]
                              /\ ParseInt32 min_height = Some m)
    /\ consensus' = UpdateVersionBitsParameters d s t m consensus
    /\ log' = log ++ [LogVersionBits name s t m].
Proof.
  unfold vbparams_step.
  destruct (boost_split ":" strDeployment) as [|name [|start [|timeout rest]]];
    try (intros [=]; fail).
  destruct rest as [|min_height [|extra rest]].
  - cbn -[find_deployment].
    destruct (ParseInt64 start) as [s |] eqn:Hs; [| intros [=]].
    destruct (ParseInt64 timeout) as [t |] eqn:Ht; [| intros [=]].
    destruct (find_deployment name) as [d |] eqn:Hd; [| intros [=]].
    intros [= <- <-].
    exists name, start, timeout, [], d, s, t, 0. auto 10.
  - cbn -[find_deployment].
    destruct (ParseInt64 start) as [s |] eqn:Hs; [| intros [=]].
    destruct (ParseInt64 timeout) as [t |] eqn:Ht; [| intros [=]].
    destruct (ParseInt32 min_height) as [m |] eqn:Hm; [| intros [=]].
    destruct (find_deployment name) as [d |] eqn:Hd; [| intros [=]].
    intros [= <- <-].
    exists name, start, timeout, [min_height], d, s, t, m.
    repeat split; try assumption. right. now exists min_height.
  - replace ((Z.of_nat (length (name :: start :: timeout :: min_height
                                  :: extra :: rest)) <? 3)
             || (4 <? Z.of_nat (length (name :: start :: timeout :: min_height
                                          :: extra :: rest))))
      with true; [intros [=] |].
    symmetry. apply orb_true_iff. right. apply Z.ltb_lt.
    cbn [length]. lia.
Qed.

Lemma vbparams_step_well_formed (consensus : Activation)
    (log : list LogLine) (strDeployment : string) :
  (exists consensus' log',
     vbparams_step consensus log strDeployment = (Normal consensus', log'))
  <-> well_formed strDeployment = true.
Proof.
  split.
  - intros (consensus' & log' & Hstep).
    apply vbparams_step_normal in Hstep.
    destruct Hstep as (name & start & timeout & rest & d & s & t & m
                       & Hsplit & Hs & Ht & Hd & Hrest & _).
    unfold well_formed. rewrite Hsplit, Hs, Ht, Hd. cbn [is_some andb].
    destruct Hrest as [[-> _] | (min_height & -> & Hm)]; [reflexivity |].
    now rewrite Hm.
  - unfold well_formed, vbparams_step.
    destruct (boost_split ":" strDeployment) as [|name [|start [|timeout rest]]];
      try discriminate.
    destruct (ParseInt64 start) as [s |] eqn:Hs; [| discriminate].
    destruct (ParseInt64 timeout) as [t |] eqn:Ht; [| discriminate].
    destruct (find_deployment name) as [d |] eqn:Hd; [| discriminate].
    destruct rest as [|min_height [|extra rest]]; [| | discriminate].
    + intros _. cbn -[find_deployment]. rewrite Hs, Ht, Hd.
      eexists; eexists; reflexivity.
    + cbn [is_some andb].
      destruct (ParseInt32 min_height) as [m |] eqn:Hm; [| discriminate].
      intros _. cbn -[find_deployment]. rewrite Hs, Ht, Hm, Hd.
      eexists; eexists; reflexivity.
Qed.

Lemma vbparams_loop_app (l1 l2 : list string) (consensus : Activation)
    (log : list LogLine) :
  vbparams_loop (l1 ++ l2) consensus log
  = match vbparams_loop l1 consensus log with
    | (Normal consensus1, log1) => vbparams_loop l2 consensus1 log1
    | (Threw e, log1) => (Threw e, log1)
    end.
Proof.
  revert consensus log. induction l1 as [|s l1 IH]; intros consensus log;
    [reflexivity |].
  cbn [app vbparams_loop].
  destruct (vbparams_step consensus log s) as [[c1 | e] log1];
    [apply IH | reflexivity].
Qed.

Lemma vbparams_loop_well_formed (values : list string)
    (consensus : Activation) (log : list LogLine) :
  (exists consensus' log',
     vbparams_loop values consensus log = (Normal consensus', log'))
  <-> forallb well_formed values = true.
Proof.
  revert consensus log.
  induction values as [|s values IH]; intros consensus log.
  - split; [reflexivity | intros _; now exists consensus, log].
  - cbn [vbparams_loop forallb]. rewrite andb_true_iff.
    rewrite <- (vbparams_step_well_formed consensus log s). split.
    + intros (consensus' & log' & Hloop).
      destruct (vbparams_step consensus log s) as [[c1 | e] log1];
        [| discriminate].
      split; [now exists c1, log1 |]. apply (IH c1 log1).
      now exists consensus', log'.
    + intros [(c1 & log1 & Hstep) Hrest]. rewrite Hstep.
      now apply IH.
Qed.

(** What the loop over -vbparams leaves alone, and what it writes. *)
Lemma vbparams_loop_frame (values : list string)
    (consensus consensus' : Activation) (log log' : list LogLine) :
  vbparams_loop values consensus log = (Normal consensus', log') ->
  (BIP16Height consensus' = BIP16Height consensus
   /\ BIP34Height consensus' = BIP34Height consensus
   /\ BIP65Height consensus' = BIP65Height consensus
   /\ BIP66Height consensus' = BIP66Height consensus
   /\ CSVHeight consensus' = CSVHeight consensus
   /\ SegwitHeight consensus' = SegwitHeight consensus)
  /\ (forall d, bit (deployment (vDeployments consensus') d)
                = bit (deployment (vDeployments consensus) d))
  /\ (forall d, Forall (fun s => named_deployment s <> Some d) values ->
                deployment (vDeployments consensus') d
                = deployment (vDeployments consensus) d)
  /\ exists added, log' = log ++ added /\ length added = length values.
Proof.
  revert consensus log.
  induction values as [|s values IH]; intros consensus log.
  - intros [= <- <-]. repeat split. exists []. now rewrite app_nil_r.
  - cbn [vbparams_loop].
    destruct (vbparams_step consensus log s) as [[c1 | e] log1] eqn:Hstep;
      [| discriminate].
    intros Hloop.
    destruct (IH _ _ Hloop) as (Hheights & Hbit & Hother & added & -> & Hlen).
    pose proof Hstep as Hfields. apply vbparams_step_normal in Hfields.
    destruct Hfields as (name & start & timeout & rest & d1 & t1 & t2 & m
                         & Hsplit & _ & _ & Hd & _ & -> & ->).
    split; [exact Hheights |]. split; [| split].
    + intros d. rewrite Hbit. unfold UpdateVersionBitsParameters.
      cbn [vDeployments set_vDeployments].
      destruct d, d1; reflexivity.
    + intros d Hnone. inversion Hnone as [|? ? Hs Hrest]; subst.
      rewrite (Hother d Hrest). unfold UpdateVersionBitsParameters.
      cbn [vDeployments set_vDeployments].
      apply deployment_set_other. intros ->. apply Hs.
      unfold named_deployment. rewrite Hsplit. exact Hd.
    + exists (LogVersionBits name t1 t2 m :: added).
      rewrite <- app_assoc. split; [reflexivity |].
      cbn [length]. now rewrite Hlen.
Qed.

(** The two height arguments, as one step each. *)
Lemma height_steps (args : ArgsManager) (consensus : Activation)
    (log : list LogLine) :
  UpdateActivationParametersFromArgs args consensus log
  = if height_accepted args "-bip16height" (BIP16Height consensus)
    then
      let log1 :=
        log ++ (if IsArgSet args "-bip16height"
                   && (GetArg args "-bip16height" (BIP16Height consensus)
                       =? -1)
                then [LogBIP16Disabled] else []) in
      if height_accepted args "-segwitheight" (SegwitHeight consensus)
      then
        let consensus2 :=
          set_SegwitHeight
            (height_argument args "-segwitheight" (SegwitHeight consensus))
            (set_BIP16Height
               (height_argument args "-bip16height" (BIP16Height consensus))
               consensus) in
        let log2 :=
          log1 ++ (if IsArgSet args "-segwitheight"
                      && (GetArg args "-segwitheight" (SegwitHeight consensus)
                          =? -1)
                   then [LogSegwitDisabled] else []) in
        if IsArgSet args "-vbparams"
        then vbparams_loop (GetArgs args "-vbparams") consensus2 log2
        else (Normal consensus2, log2)
      else (Threw (ActivationHeightOutOfRange "segwit"
                     (GetArg args "-segwitheight" (SegwitHeight consensus))),
            log1)
    else (Threw (ActivationHeightOutOfRange "BIP16"
                   (GetArg args "-bip16height" (BIP16Height consensus))),
          log).
Proof.
  unfold UpdateActivationParametersFromArgs, height_accepted, height_argument.
  set (h16 := GetArg args "-bip16height" (BIP16Height consensus)).
  set (hsw := GetArg args "-segwitheight" (SegwitHeight consensus)).
  assert (Hcast : forall h, -1 <= h < INT_MAX ->
            static_cast_int (if h =? -1 then INT_MAX else h)
            = if h =? -1 then INT_MAX else h).
  { intros h Hh. apply static_cast_int_small.
    destruct (h =? -1); unfold INT_MAX in *; lia. }
  assert (Hsegwit : forall (c1 : Activation) (log1 : list LogLine),
    SegwitHeight c1 = SegwitHeight consensus ->
    match
      (if IsArgSet args "-segwitheight" then
         let height := GetArg args "-segwitheight" (SegwitHeight c1) in
         if (height <? -1) || (height >=? INT_MAX)
         then (Threw (ActivationHeightOutOfRange "segwit" height), log1)
         else
           let '(height, log) :=
             if height =? -1 then (INT_MAX, log1 ++ [LogSegwitDisabled])
             else (height, log1) in
           (Normal (set_SegwitHeight (static_cast_int height) c1), log)
       else (Normal c1, log1))
    with
    | (Threw e, log) => (Threw e, log)
    | (Normal c2, log) =>
        if negb (IsArgSet args "-vbparams") then (Normal c2, log)
        else vbparams_loop (GetArgs args "-vbparams") c2 log
    end
    = if negb (IsArgSet args "-segwitheight")
         || ((-1 <=? hsw) && (hsw <? INT_MAX))
      then
        let c2 := set_SegwitHeight
                    (if IsArgSet args "-segwitheight"
                     then if hsw =? -1 then INT_MAX else hsw
                     else SegwitHeight consensus) c1 in
        let log2 := log1 ++ (if IsArgSet args "-segwitheight" && (hsw =? -1)
                             then [LogSegwitDisabled] else []) in
        if IsArgSet args "-vbparams"
        then vbparams_loop (GetArgs args "-vbparams") c2 log2
        else (Normal c2, log2)
      else (Threw (ActivationHeightOutOfRange "segwit" hsw), log1)).
  { intros c1 log1 Hc1. rewrite Hc1. fold hsw.
    destruct (IsArgSet args "-segwitheight"); cbn [negb orb andb].
    - destruct (Z.leb_spec (-1) hsw) as [Hl | Hl];
        destruct (Z.ltb_spec hsw INT_MAX) as [Hh | Hh];
        destruct (Z.ltb_spec hsw (-1)) as [Hl' | Hl']; try lia;
        destruct (Z.geb_spec hsw INT_MAX) as [Hh' | Hh']; try lia;
        cbn [orb andb]; try reflexivity.
      pose proof (Hcast hsw ltac:(lia)) as Hcsw.
      destruct (hsw =? -1) eqn:Hsw; rewrite ?Hcsw;
        destruct (IsArgSet args "-vbparams"); cbn [negb];
        rewrite ?app_nil_r; reflexivity.
    - rewrite app_nil_r. rewrite <- Hc1.
      destruct (IsArgSet args "-vbparams"); cbn [negb];
        destruct c1; reflexivity. }
  destruct (IsArgSet args "-bip16height"); cbn [negb orb andb].
  - destruct (Z.leb_spec (-1) h16) as [Hlo | Hlo];
      destruct (Z.ltb_spec h16 INT_MAX) as [Hhi | Hhi];
      destruct (Z.ltb_spec h16 (-1)) as [Hlo' | Hlo']; try lia;
      destruct (Z.geb_spec h16 INT_MAX) as [Hhi' | Hhi']; try lia;
      cbn [orb andb]; try reflexivity.
    pose proof (Hcast h16 ltac:(lia)) as Hc16.
    destruct (h16 =? -1) eqn:H16; rewrite ?Hc16;
      rewrite Hsegwit by reflexivity; cbv zeta; rewrite ?app_nil_r;
      reflexivity.
  - rewrite Hsegwit by reflexivity. cbv zeta. rewrite ?app_nil_r.
    replace (set_BIP16Height (BIP16Height consensus) consensus)
      with consensus by (now destruct consensus).
    reflexivity.
Qed.

End LegacyArguments.

(** ** UpdateActivationParametersFromArgs *)

Section LegacyRegTestArguments.

Context `{ArgumentCollaborators}.

Import LegacyRegTest.

(** X11: when UpdateActivationParametersFromArgs returns, BIP16Height is
    the value of -bip16height, with -1 turned into INT_MAX, or unchanged
    when the argument is not set, and likewise SegwitHeight for
    -segwitheight; a height that was set lies in 0 .. INT_MAX, so the cast
    to int keeps its value, and it is INT_MAX exactly when the argument was
    -1; the other four heights are unchanged. *)
Theorem UpdateActivationParametersFromArgs_heights (args : ArgsManager)
    (consensus consensus' : Activation) (log log' : list LogLine) :
  UpdateActivationParametersFromArgs args consensus log
  = (Normal consensus', log') ->
  BIP16Height consensus'
  = height_argument args "-bip16height" (BIP16Height consensus)
  /\ SegwitHeight consensus'
     = height_argument args "-segwitheight" (SegwitHeight consensus)
  /\ (IsArgSet args "-bip16height" = true ->
      0 <= BIP16Height consensus' <= INT_MAX
      /\ (BIP16Height consensus' = INT_MAX
          <-> GetArg args "-bip16height" (BIP16Height consensus) = -1))
  /\ (IsArgSet args "-segwitheight" = true ->
      0 <= SegwitHeight consensus' <= INT_MAX
      /\ (SegwitHeight consensus' = INT_MAX
          <-> GetArg args "-segwitheight" (SegwitHeight consensus) = -1))
  /\ BIP34Height consensus' = BIP34Height consensus
  /\ BIP65Height consensus' = BIP65Height consensus
  /\ BIP66Height consensus' = BIP66Height consensus
  /\ CSVHeight consensus' = CSVHeight consensus.
Proof.
  rewrite height_steps.
  destruct (height_accepted args "-bip16height" (BIP16Height consensus))
    eqn:H16; [| discriminate].
  destruct (height_accepted args "-segwitheight" (SegwitHeight consensus))
    eqn:Hsw; [| discriminate].
  cbv zeta. intros Hrest.
  assert (Hframe :
    BIP16Height consensus'
    = height_argument args "-bip16height" (BIP16Height consensus)
    /\ BIP34Height consensus' = BIP34Height consensus
    /\ BIP65Height consensus' = BIP65Height consensus
    /\ BIP66Height consensus' = BIP66Height consensus
    /\ CSVHeight consensus' = CSVHeight consensus
    /\ SegwitHeight consensus'
       = height_argument args "-segwitheight" (SegwitHeight consensus)).
  { destruct (IsArgSet args "-vbparams").
    - apply vbparams_loop_frame in Hrest. exact (proj1 Hrest).
    - injection Hrest as <- _. repeat split. }
  destruct Hframe as (E16 & E34 & E65 & E66 & Ecsv & Esw).
  assert (Hrange : forall name current,
    height_accepted args name current = true -> IsArgSet args name = true ->
    0 <= height_argument args name current <= INT_MAX
    /\ (height_argument args name current = INT_MAX
        <-> GetArg args name current = -1)).
  { intros name current Hacc Hset. unfold height_accepted, height_argument in *.
    rewrite Hset in *. cbn [negb orb] in Hacc.
    apply andb_true_iff in Hacc. destruct Hacc as [Hlo Hhi].
    apply Z.leb_le in Hlo. apply Z.ltb_lt in Hhi.
    destruct (Z.eqb_spec (GetArg args name current) (-1)) as [Heq | Hne];
      unfold INT_MAX in *; lia. }
  rewrite E16, Esw.
  repeat split; try assumption; try (now apply Hrange).
  all: intros Hset.
  all: try (apply (proj2 (Hrange _ _ H16 Hset))).
  all: try (apply (proj2 (Hrange _ _ Hsw Hset))).
  all: try (apply (Hrange _ _ H16 Hset)).
  all: try (apply (Hrange _ _ Hsw Hset)).
Qed.

(** X12: UpdateActivationParametersFromArgs returns exactly when
    -bip16height and -segwitheight, if set, are in -1 .. INT_MAX - 1, and,
    if -vbparams is set, every one of its values has three or four fields
    separated by colons, of which the second and third parse as int64_t, the
    fourth, when there, as an int, and the first names a deployment; a
    -bip16height out of range throws the BIP16 range error with nothing
    logged, and a -segwitheight out of range, after an accepted
    -bip16height, the segwit one. *)
Theorem UpdateActivationParametersFromArgs_accepts (args : ArgsManager)
    (consensus : Activation) (log : list LogLine) :
  ((exists consensus' log',
      UpdateActivationParametersFromArgs args consensus log
      = (Normal consensus', log'))
   <-> height_accepted args "-bip16height" (BIP16Height consensus) = true
       /\ height_accepted args "-segwitheight" (SegwitHeight consensus) = true
       /\ (IsArgSet args "-vbparams" = true ->
           forallb well_formed (GetArgs args "-vbparams") = true))
  /\ (height_accepted args "-bip16height" (BIP16Height consensus) = false ->
      UpdateActivationParametersFromArgs args consensus log
      = (Threw (ActivationHeightOutOfRange "BIP16"
                  (GetArg args "-bip16height" (BIP16Height consensus))),
         log))
  /\ (height_accepted args "-bip16height" (BIP16Height consensus) = true ->
      height_accepted args "-segwitheight" (SegwitHeight consensus) = false ->
      fst (UpdateActivationParametersFromArgs args consensus log)
      = Threw (ActivationHeightOutOfRange "segwit"
                 (GetArg args "-segwitheight" (SegwitHeight consensus)))).
Proof.
  rewrite height_steps.
  destruct (height_accepted args "-bip16height" (BIP16Height consensus)).
  2:{ split; [| split; [reflexivity | discriminate]].
      split; [intros (c & l & Hs); discriminate Hs
             | intros [Hf _]; discriminate Hf]. }
  destruct (height_accepted args "-segwitheight" (SegwitHeight consensus)).
  2:{ split; [| split; [discriminate | reflexivity]].
      split; [intros (c & l & Hs); discriminate Hs
             | intros (_ & Hf & _); discriminate Hf]. }
  cbv zeta. split; [| split; discriminate].
  destruct (IsArgSet args "-vbparams").
  - rewrite vbparams_loop_well_formed. tauto.
  - split; [intros _; repeat split; discriminate
           | intros _; eexists; eexists; reflexivity].
Qed.

(** X13: when UpdateActivationParametersFromArgs returns, no deployment's
    bit has changed; without -vbparams the deployments are unchanged; a
    deployment that no value of -vbparams names is unchanged; and a
    deployment has the start time, the timeout and the minimum activation
    height (0 when the field is absent) of the last value that names it. *)
Theorem UpdateActivationParametersFromArgs_version_bits (args : ArgsManager)
    (consensus consensus' : Activation) (log log' : list LogLine) :
  UpdateActivationParametersFromArgs args consensus log
  = (Normal consensus', log') ->
  (forall d, bit (deployment (vDeployments consensus') d)
             = bit (deployment (vDeployments consensus) d))
  /\ (IsArgSet args "-vbparams" = false ->
      vDeployments consensus' = vDeployments consensus)
  /\ (forall d,
        Forall (fun s => named_deployment s <> Some d)
          (GetArgs args "-vbparams") ->
        deployment (vDeployments consensus') d
        = deployment (vDeployments consensus) d)
  /\ (forall before entry after d,
        IsArgSet args "-vbparams" = true ->
        GetArgs args "-vbparams" = before ++ entry :: after ->
        named_deployment entry = Some d ->
        Forall (fun s => named_deployment s <> Some d) after ->
        let fields := boost_split ":" entry in
        let written := deployment (vDeployments consensus') d in
        ParseInt64 (nth 1 fields EmptyString) = Some (nStartTime written)
        /\ ParseInt64 (nth 2 fields EmptyString) = Some (nTimeout written)
        /\ (if (4 <=? length fields)%nat
            then ParseInt32 (nth 3 fields EmptyString)
                 = Some (min_activation_height written)
            else min_activation_height written = 0)).
Proof.
  rewrite height_steps.
  destruct (height_accepted args "-bip16height" (BIP16Height consensus));
    [| discriminate].
  destruct (height_accepted args "-segwitheight" (SegwitHeight consensus));
    [| discriminate].
  cbv zeta.
  set (consensus2 := set_SegwitHeight _ (set_BIP16Height _ consensus)).
  assert (Hv1 : vDeployments consensus2 = vDeployments consensus)
    by reflexivity.
  destruct (IsArgSet args "-vbparams") eqn:Hset.
  2:{ intros [= <- _]. rewrite Hv1. repeat split; discriminate. }
  intros Hloop. pose proof Hloop as Hframe.
  apply vbparams_loop_frame in Hframe.
  destruct Hframe as (_ & Hbit & Hother & _). rewrite Hv1 in Hbit, Hother.
  split; [exact Hbit |]. split; [discriminate |]. split; [exact Hother |].
  intros before entry after d _ Hvalues Hnamed Hafter.
  rewrite Hvalues, vbparams_loop_app in Hloop.
  destruct (vbparams_loop before _ _) as [[c1 | e] l1]; [| discriminate].
  cbn [vbparams_loop] in Hloop.
  destruct (vbparams_step c1 l1 entry) as [[c2 | e] l2] eqn:Hstep;
    [| discriminate].
  apply vbparams_loop_frame in Hloop.
  destruct Hloop as (_ & _ & Hkeep & _).
  specialize (Hkeep d Hafter).
  apply vbparams_step_normal in Hstep.
  destruct Hstep as (name & start & timeout & rest & d' & s & t & m
                     & Hsplit & Hs & Ht & Hd & Hrest & -> & _).
  assert (d' = d) as ->.
  { unfold named_deployment in Hnamed. rewrite Hsplit in Hnamed.
    cbn [nth] in Hnamed. congruence. }
  rewrite Hkeep, Hsplit.
  unfold UpdateVersionBitsParameters. cbn [vDeployments set_vDeployments].
  rewrite deployment_set_same. cbn [nth nStartTime nTimeout
    min_activation_height].
  split; [exact Hs |]. split; [exact Ht |].
  destruct Hrest as [[-> ->] | (min_height & -> & Hm)]; [reflexivity |].
  exact Hm.
Qed.

End LegacyRegTestArguments.

(** ** CreateChainParams, SelectParams and Params *)

Section ChainByName.

Context `{Collaborators} `{BaseChainParams} `{ArgumentCollaborators}.

Import LegacyNetworks.

(** Each constructor names the chain it is for. *)
Lemma CMainParams_name (params : NetworkParams) :
  CMainParams = Returned params -> strNetworkID params = CBaseChainParams_MAIN.
Proof.
  unfold CMainParams. destruct Legacy.CMainParams; try discriminate.
  cbn [bind]. now intros [= <-].
Qed.

Lemma CTestNetParams_name (params : NetworkParams) :
  CTestNetParams = Returned params ->
  strNetworkID params = CBaseChainParams_TESTNET.
Proof.
  unfold CTestNetParams. destruct (checked_genesis _ _ _ _ _ _);
    try discriminate.
  cbn [bind]. now intros [= <-].
Qed.

Lemma SigNetParams_name (args : ArgsManager) (log log' : list LogLine)
    (params : NetworkParams) :
  SigNetParams args log = Returned (Normal params, log') ->
  strNetworkID params = CBaseChainParams_SIGNET.
Proof.
  unfold SigNetParams.
  destruct (negb (IsArgSet args "-signetchallenge")).
  - destruct (checked_genesis _ _ _ _ _ _); try discriminate.
    cbn [bind]. now intros [= <- _].
  - destruct (negb (length (GetArgs args "-signetchallenge") =? 1)%nat);
      [discriminate |].
    destruct (checked_genesis _ _ _ _ _ _); try discriminate.
    cbn [bind]. now intros [= <- _].
Qed.

Lemma CRegTestParams_name (args : ArgsManager) (log log' : list LogLine)
    (params : NetworkParams) :
  CRegTestParams args log = Returned (Normal params, log') ->
  strNetworkID params = CBaseChainParams_REGTEST.
Proof.
  unfold CRegTestParams.
  destruct (LegacyRegTest.UpdateActivationParametersFromArgs _ _ _)
    as [[consensus | e] log1]; [| discriminate].
  destruct (checked_genesis _ _ _ _ _ _); try discriminate.
  cbn [bind]. now intros [= <- _].
Qed.

Lemma CreateChainParams_name (args : ArgsManager) (chain : string)
    (log log' : list LogLine) (params : NetworkParams) :
  CreateChainParams args chain log = Returned (Normal params, log') ->
  strNetworkID params = chain.
Proof.
  unfold CreateChainParams.
  destruct (String.eqb_spec chain CBaseChainParams_MAIN) as [-> | _].
  { destruct CMainParams as [p | |] eqn:Hp; try discriminate.
    cbn [bind]. intros [= <- _]. now apply CMainParams_name. }
  destruct (String.eqb_spec chain CBaseChainParams_TESTNET) as [-> | _].
  { destruct CTestNetParams as [p | |] eqn:Hp; try discriminate.
    cbn [bind]. intros [= <- _]. now apply CTestNetParams_name. }
  destruct (String.eqb_spec chain CBaseChainParams_SIGNET) as [-> | _];
    [apply SigNetParams_name |].
  destruct (String.eqb_spec chain CBaseChainParams_REGTEST) as [-> | _];
    [apply CRegTestParams_name |].
  discriminate.
Qed.

(** X14: CreateChainParams throws the unknown-chain error, with nothing
    logged, for every name other than the four chain names; a parameter set
    it returns has the requested name as its strNetworkID; and for the main
    and test names the outcome does not depend on the arguments. *)
Theorem CreateChainParams_by_name (args : ArgsManager) (chain : string)
    (log : list LogLine) :
  (~ In chain [CBaseChainParams_MAIN; CBaseChainParams_TESTNET;
                CBaseChainParams_SIGNET; CBaseChainParams_REGTEST] ->
   CreateChainParams args chain log
   = Returned (Threw (UnknownChain chain), log))
  /\ (forall params log',
        CreateChainParams args chain log = Returned (Normal params, log') ->
        strNetworkID params = chain
        /\ In chain [CBaseChainParams_MAIN; CBaseChainParams_TESTNET;
                     CBaseChainParams_SIGNET; CBaseChainParams_REGTEST])
  /\ (forall args',
        chain = CBaseChainParams_MAIN \/ chain = CBaseChainParams_TESTNET ->
        CreateChainParams args' chain log = CreateChainParams args chain log).
Proof.
  split; [| split].
  - intros Hnot. unfold CreateChainParams.
    destruct (String.eqb_spec chain CBaseChainParams_MAIN) as [-> | _];
      [exfalso; apply Hnot; cbn; tauto |].
    destruct (String.eqb_spec chain CBaseChainParams_TESTNET) as [-> | _];
      [exfalso; apply Hnot; cbn; tauto |].
    destruct (String.eqb_spec chain CBaseChainParams_SIGNET) as [-> | _];
      [exfalso; apply Hnot; cbn; tauto |].
    destruct (String.eqb_spec chain CBaseChainParams_REGTEST) as [-> | _];
      [exfalso; apply Hnot; cbn; tauto |].
    reflexivity.
  - intros params log' Hcreated. split.
    + exact (CreateChainParams_name _ _ _ _ _ Hcreated).
    + revert Hcreated. unfold CreateChainParams.
      destruct (String.eqb_spec chain CBaseChainParams_MAIN) as [-> | _];
        [cbn; tauto |].
      destruct (String.eqb_spec chain CBaseChainParams_TESTNET) as [-> | _];
        [cbn; tauto |].
      destruct (String.eqb_spec chain CBaseChainParams_SIGNET) as [-> | _];
        [cbn; tauto |].
      destruct (String.eqb_spec chain CBaseChainParams_REGTEST) as [-> | _];
        [cbn; tauto |].
      discriminate.
  - intros args' Hchain. unfold CreateChainParams.
    destruct (String.eqb_spec chain CBaseChainParams_MAIN) as [-> | Hm];
      [reflexivity |].
    destruct (String.eqb_spec chain CBaseChainParams_TESTNET) as [-> | Ht];
      [reflexivity |].
    destruct Hchain; contradiction.
Qed.


(** X16: the signet constructor of chainparams.cpp throws when
    -signetchallenge is set with a number of values other than one; a
    parameter set it returns has as its challenge the bytes of the one value
    (logged) or the default challenge, as its message start the first four
    bytes of the hash of the serialized challenge, and the same genesis
    block whatever the challenge. *)
Theorem SigNetParams_challenge (args : ArgsManager) (log : list LogLine) :
  (IsArgSet args "-signetchallenge" = true ->
   length (GetArgs args "-signetchallenge") <> 1%nat ->
   SigNetParams args log = Returned (Threw SignetChallengeMultiple, log))
  /\ (forall params log',
        SigNetParams args log = Returned (Normal params, log') ->
        (IsArgSet args "-signetchallenge" = true ->
         exists text, GetArgs args "-signetchallenge" = [text]
                      /\ signet_challenge params = ParseHex text
                      /\ log' = log ++ [LogSignetChallenge text])
        /\ (IsArgSet args "-signetchallenge" = false ->
            signet_challenge params = Kernel.defaultSignetChallenge
            /\ log' = log)
        /\ (let hash := uint256_bytes (WriterGetHash (signet_challenge params)) in
            MessageStart (chain_params params)
            = {| msg0 := nth 0 hash x00; msg1 := nth 1 hash x00;
                 msg2 := nth 2 hash x00; msg3 := nth 3 hash x00 |})
        /\ genesis (chain_params params)
           = CreateGenesisBlock 1644844006 1180459 0x1e0ffff0
               pszTimestampTestnet (uint160S hexPremineAddressMainnet)).
Proof.
  unfold SigNetParams. split.
  - intros -> Hlen. cbn [negb].
    destruct (Nat.eqb_spec (length (GetArgs args "-signetchallenge")) 1);
      [contradiction | reflexivity].
  - intros params log'.
    destruct (IsArgSet args "-signetchallenge"); cbn [negb].
    + destruct (Nat.eqb_spec (length (GetArgs args "-signetchallenge")) 1)
        as [Hone | _]; [| discriminate].
      cbn [negb].
      destruct (checked_genesis _ _ _ _ _ _) as [p | |] eqn:Hp;
        try discriminate.
      cbn [bind]. intros [= <- <-].
      apply checked_genesis_inv in Hp.
      destruct Hp as (_ & Hmagic & Hgenesis & _).
      cbn [signet_challenge chain_params]. unfold MessageStart.
      split; [| split; [discriminate | split; assumption]].
      intros _.
      destruct (GetArgs args "-signetchallenge") as [|text [|more rest]];
        try discriminate.
      exists text. repeat split.
    + destruct (checked_genesis _ _ _ _ _ _) as [p | |] eqn:Hp;
        try discriminate.
      cbn [bind]. intros [= <- <-].
      apply checked_genesis_inv in Hp.
      destruct Hp as (_ & Hmagic & Hgenesis & _).
      cbn [signet_challenge chain_params]. unfold MessageStart.
      split; [discriminate |]. split; [now split |]. split; assumption.
Qed.

End ChainByName.

(** ** The regtest and chain-name properties on examples *)

Lemma UpdateActivationParametersFromArgs_heights_witness :
  exists consensus' log',
    LegacyRegTest.UpdateActivationParametersFromArgs (H := example_arguments)
      example_args LegacyRegTest.defaults []
    = (Normal consensus', log')
    /\ BIP16Height consensus' = INT_MAX
    /\ SegwitHeight consensus' = 0
    /\ BIP34Height consensus' = 500.
Proof.
  destruct (LegacyRegTest.UpdateActivationParametersFromArgs
              (H := example_arguments) example_args LegacyRegTest.defaults [])
    as [[consensus' | e] log'] eqn:Hrun.
  - exists consensus', log'. split; [reflexivity |].
    destruct (UpdateActivationParametersFromArgs_heights
                (H := example_arguments) _ _ _ _ _ Hrun)
      as (H16 & Hsw & _ & _ & H34 & _).
    split; [exact H16 |]. split; [exact Hsw | exact H34].
  - vm_compute in Hrun. discriminate Hrun.
Defined.

Lemma UpdateActivationParametersFromArgs_accepts_witness :
  exists consensus' log',
    LegacyRegTest.UpdateActivationParametersFromArgs (H := example_arguments)
      example_args LegacyRegTest.defaults []
    = (Normal consensus', log').
Proof.
  apply (proj1 (UpdateActivationParametersFromArgs_accepts
                  (H := example_arguments) example_args
                  LegacyRegTest.defaults [])).
  split; [reflexivity |]. split; [reflexivity |]. intros _. reflexivity.
Defined.

Lemma UpdateActivationParametersFromArgs_version_bits_witness :
  exists consensus' log',
    LegacyRegTest.UpdateActivationParametersFromArgs (H := example_arguments)
      example_args LegacyRegTest.defaults []
    = (Normal consensus', log')
    /\ bit (deployment (vDeployments consensus') DEPLOYMENT_TAPROOT) = 2
    /\ nStartTime (deployment (vDeployments consensus') DEPLOYMENT_TAPROOT)
       = 1
    /\ min_activation_height
         (deployment (vDeployments consensus') DEPLOYMENT_TAPROOT) = 3.
Proof.
  destruct (LegacyRegTest.UpdateActivationParametersFromArgs
              (H := example_arguments) example_args LegacyRegTest.defaults [])
    as [[consensus' | e] log'] eqn:Hrun.
  - exists consensus', log'. split; [reflexivity |].
    destruct (UpdateActivationParametersFromArgs_version_bits
                (H := example_arguments) _ _ _ _ _ Hrun)
      as (Hbit & _ & _ & Hlast).
    split; [exact (Hbit DEPLOYMENT_TAPROOT) |].
    destruct (Hlast ["testdummy:10:20"%string] "taproot:1:2:3"%string []
                DEPLOYMENT_TAPROOT eq_refl eq_refl eq_refl (Forall_nil _))
      as (Hstart & _ & Hmin).
    split.
    + injection Hstart as Hstart. now symmetry.
    + injection Hmin as Hmin. now symmetry.
  - vm_compute in Hrun. discriminate Hrun.
Defined.

Lemma CRegTestParams_last_entry_witness :
  exists params,
    KernelRegTest.CRegTestParams (H := DoubleSHA256)
      {| KernelRegTest.version_bits_parameters :=
           [(DEPLOYMENT_TAPROOT,
             {| KernelRegTest.start_time := 5; KernelRegTest.timeout := 9;
                KernelRegTest.vb_min_activation_height := 0 |})];
         KernelRegTest.activation_heights :=
           [(DEPLOYMENT_SEGWIT, 100); (DEPLOYMENT_CSV, 7);
            (DEPLOYMENT_SEGWIT, 200)];
         KernelRegTest.fastprune := true |}
    = Returned params
    /\ SegwitHeight (KernelRegTest.consensus params) = 200
    /\ BIP34Height (KernelRegTest.consensus params) = 1
    /\ KernelRegTest.nPruneAfterHeight params = 100.
Proof.
  match goal with
  | |- exists params, ?run = _ /\ _ =>
      assert (Hrun : exists params, run = Returned params)
        by (eexists; vm_compute; reflexivity)
  end.
  destruct Hrun as [params Hrun].
  exists params. split; [exact Hrun |].
  destruct (CRegTestParams_last_entry (H := DoubleSHA256) _ _ Hrun)
    as (Hheight & _ & Hprune & _).
  split; [exact (Hheight DEPLOYMENT_SEGWIT) |].
  split; [exact (Hheight DEPLOYMENT_HEIGHTINCB) | exact Hprune].
Defined.

Lemma CRegTestParams_entry_order_witness :
  KernelRegTest.CRegTestParams (H := DoubleSHA256)
    {| KernelRegTest.version_bits_parameters := [];
       KernelRegTest.activation_heights :=
         [(DEPLOYMENT_SEGWIT, 100); (DEPLOYMENT_CSV, 7)];
       KernelRegTest.fastprune := false |}
  = KernelRegTest.CRegTestParams (H := DoubleSHA256)
      {| KernelRegTest.version_bits_parameters := [];
         KernelRegTest.activation_heights :=
           [(DEPLOYMENT_CSV, 7); (DEPLOYMENT_SEGWIT, 100)];
         KernelRegTest.fastprune := false |}.
Proof.
  apply (CRegTestParams_entry_order (H := DoubleSHA256)); cbn.
  - repeat constructor; cbn; intuition discriminate.
  - constructor.
  - apply perm_swap.
  - constructor.
  - reflexivity.
Defined.


(** ** The genesis assertions of chainparams.cpp under double SHA-256 *)

Section LegacyGenesis.

Context `{BaseChainParams} `{ArgumentCollaborators}.

Import LegacyNetworks.

(** The genesis parts of the test, signet and regtest constructors pass
    their assertions; that of signet whatever its message start. *)
Lemma legacy_checked_genesis :
  (exists params,
     checked_genesis (H := DoubleSHA256) TESTNET
       {| msg0 := xcc; msg1 := xbf; msg2 := xb5; msg3 := xfe |} 18394
       (CreateGenesisBlock 1644842810 2413255 0x1e0ffff0
          pszTimestampTestnet (uint160S hexPremineAddressMainnet))
       "daf586063c96731020b95b4051330e1d6476228bcd5e98122fd741e280e3a77d"
       "59d1a23342282179e810dff9238a97d07bd8602e3a1ba0efb5f519008541f257"
     = Returned params)
  /\ (forall magic, exists params,
        checked_genesis (H := DoubleSHA256) SIGNET magic 38394
          (CreateGenesisBlock 1644844006 1180459 0x1e0ffff0
             pszTimestampTestnet (uint160S hexPremineAddressMainnet))
          "a8953af315a2dea0bc116bdd85d000f6b4e0d58f2718f393c54219b26d62e555"
          "59d1a23342282179e810dff9238a97d07bd8602e3a1ba0efb5f519008541f257"
        = Returned params)
  /\ (exists params,
        checked_genesis (H := DoubleSHA256) REGTEST
          {| msg0 := xcc; msg1 := xbf; msg2 := xb5; msg3 := xda |} 18495
          (CreateGenesisBlock 1644844584 0 0x207fffff
             pszTimestampTestnet (uint160S hexPremineAddressRegtest))
          "a07860306f0d4e24c7d80070630ab70499047965f140e6f17efb9e9620b0d18e"
          "9f96a4c275320aaf6386652444be5baade11e2f9f40221a98b968ae5c32dd55a"
        = Returned params).
Proof.
  split; [| split]; intros; eexists;
    apply (checked_genesis_returns (H := DoubleSHA256));
    vm_compute; reflexivity.
Qed.

(** X17: under double SHA-256 over the wire format no constructor of
    chainparams.cpp fails a genesis assertion: whatever the arguments, the
    chain name and the names of the chains, CreateChainParams returns or
    throws, and for the main and test names it returns a parameter set and
    logs nothing. *)
Theorem CreateChainParams_never_aborts (args : ArgsManager) (chain : string)
    (log : list LogLine) :
  exists result,
    CreateChainParams (H := DoubleSHA256) args chain log = Returned result
    /\ (chain = CBaseChainParams_MAIN \/ chain = CBaseChainParams_TESTNET ->
        exists params, result = (Normal params, log)).
Proof.
  destruct legacy_checked_genesis as ((testnet & Htest) & Hsig & (regtest & Hreg)).
  destruct legacy_mainnet_genesis_matches_constants as (mainnet & Hmain & _).
  unfold CreateChainParams.
  destruct (String.eqb_spec chain CBaseChainParams_MAIN) as [-> | Hm].
  { unfold CMainParams. rewrite Hmain. cbn [bind].
    eexists. split; [reflexivity |]. intros _. eexists. reflexivity. }
  destruct (String.eqb_spec chain CBaseChainParams_TESTNET) as [-> | Ht].
  { unfold CTestNetParams. rewrite Htest. cbn [bind].
    eexists. split; [reflexivity |]. intros _. eexists. reflexivity. }
  destruct (String.eqb_spec chain CBaseChainParams_SIGNET) as [-> | Hs].
  { unfold SigNetParams.
    destruct (negb (IsArgSet args "-signetchallenge")).
    - match goal with
      | |- context [checked_genesis SIGNET ?magic] =>
          destruct (Hsig magic) as [signet Hsignet]
      end.
      rewrite Hsignet. cbn [bind].
      eexists. split; [reflexivity |]. intros [? | ?]; congruence.
    - destruct (negb (length (GetArgs args "-signetchallenge") =? 1)%nat).
      + eexists. split; [reflexivity |]. intros [? | ?]; congruence.
      + match goal with
        | |- context [checked_genesis SIGNET ?magic] =>
            destruct (Hsig magic) as [signet Hsignet]
        end.
        rewrite Hsignet. cbn [bind].
        eexists. split; [reflexivity |]. intros [? | ?]; congruence. }
  destruct (String.eqb_spec chain CBaseChainParams_REGTEST) as [-> | Hr].
  { unfold CRegTestParams.
    destruct (LegacyRegTest.UpdateActivationParametersFromArgs _ _ _)
      as [[consensus | e] log1].
    - rewrite Hreg. cbn [bind].
      eexists. split; [reflexivity |]. intros [? | ?]; congruence.
    - eexists. split; [reflexivity |]. intros [? | ?]; congruence. }
  eexists. split; [reflexivity |]. intros [? | ?]; congruence.
Qed.

End LegacyGenesis.
